(** * Automation 2040 W host bridge: a shallow embedding

    The development follows the host side of the repository:

    - [Py]       the Python string operations the code relies on
                 ([str.strip], [str.upper], [str.startswith], [str.split],
                 [int()], [str()]) and the exceptions it raises;
    - [Link]     [host/automation2040w.py]: the serial transport and the
                 [Automation2040W] class ([_send_command], [relay], [output],
                 [status], [reset], [connect], [disconnect]);
    - [Firmware] the help listing of [firmware-python/main.py];
    - [Service]  [host/service/automation_service.py]: the Flask handlers,
                 the MQTT callbacks and the board worker loop;
    - [Threads]  the callers of [_send_command] as interleaved threads.

    Strings are ASCII text, as the wire protocol is.  Time ([time.sleep],
    timestamps) is not modelled; a serial read that times out is the empty
    line that [serial.readline] returns in that case. *)

From Stdlib Require Import String Ascii List ZArith QArith Lia Bool Arith.
From Stdlib Require Import DecimalString.
Import ListNotations.
Local Open Scope string_scope.
Local Open Scope nat_scope.
Set Warnings "-register-all".

(* ===================================================================== *)
(** ** Python strings, values and exceptions *)
(* ===================================================================== *)

Module Py.

(** [s.startswith(pre)] *)
Fixpoint startswith (s pre : string) : bool :=
  match pre with
  | EmptyString => true
  | String a pre' =>
      match s with
      | EmptyString => false
      | String b s' => Ascii.eqb a b && startswith s' pre'
      end
  end.

(** The ASCII characters for which [str.isspace] holds: TAB..CR, FS..US
    and the blank. *)
Definition is_space (c : ascii) : bool :=
  let n := nat_of_ascii c in
  ((9 <=? n) && (n <=? 13)) || ((28 <=? n) && (n <=? 32)).

Fixpoint lstrip (s : string) : string :=
  match s with
  | String c r => if is_space c then lstrip r else s
  | EmptyString => EmptyString
  end.

Fixpoint rstrip (s : string) : string :=
  match s with
  | EmptyString => EmptyString
  | String c r =>
      match rstrip r with
      | EmptyString => if is_space c then EmptyString else String c EmptyString
      | r' => String c r'
      end
  end.

(** [s.strip()] *)
Definition strip (s : string) : string := rstrip (lstrip s).

Definition upper_ascii (c : ascii) : ascii :=
  let n := nat_of_ascii c in
  if (97 <=? n) && (n <=? 122) then ascii_of_nat (n - 32) else c.

(** [s.upper()] *)
Fixpoint upper (s : string) : string :=
  match s with
  | EmptyString => EmptyString
  | String c r => String (upper_ascii c) (upper r)
  end.

(** [s.split(sep)] for a one-character separator: never the empty list. *)
Fixpoint split (sep : ascii) (s : string) : list string :=
  match s with
  | EmptyString => [EmptyString]
  | String c r =>
      if Ascii.eqb c sep then EmptyString :: split sep r
      else match split sep r with
           | h :: t => String c h :: t
           | [] => [String c EmptyString]
           end
  end.

(** [s.split("/")[-1]] *)
Definition last_segment (s : string) : string :=
  last (split "/"%char s) EmptyString.

(** [s[n:]] *)
Fixpoint slice_from (n : nat) (s : string) : string :=
  match n, s with
  | O, _ => s
  | S n', String _ r => slice_from n' r
  | S _, EmptyString => EmptyString
  end.

(** ["\n".join(lines)] *)
Definition nl : string := String (ascii_of_nat 10) EmptyString.
Definition join_lines (lines : list string) : string := String.concat nl lines.

(** [str(z)] for an integer. *)
Definition str_of_Z (z : Z) : string := NilZero.string_of_int (Z.to_int z).

Definition is_digit (c : ascii) : bool :=
  let n := nat_of_ascii c in (48 <=? n) && (n <=? 57).

Definition digit_val (c : ascii) : Z := Z.of_nat (nat_of_ascii c - 48).

(** The digits of an [int()] literal: [digit (["_"] digit)*].  [after_digit]
    tells whether the previous character was a digit, which is where an
    underscore may stand and where the literal may end. *)
Fixpoint int_digits (acc : Z) (after_digit : bool) (s : string) : option Z :=
  match s with
  | EmptyString => if after_digit then Some acc else None
  | String c r =>
      if is_digit c then int_digits (10 * acc + digit_val c) true r
      else if Ascii.eqb c "_"%char && after_digit then int_digits acc false r
      else None
  end.

(** White space that [int()] skips around a number: TAB..CR and the blank.
    [str.strip] also takes FS..US; [int] does not. *)
Definition is_int_space (c : ascii) : bool :=
  let n := nat_of_ascii c in
  ((9 <=? n) && (n <=? 13)) || (n =? 32).

Fixpoint int_lstrip (s : string) : string :=
  match s with
  | String c r => if is_int_space c then int_lstrip r else s
  | EmptyString => EmptyString
  end.

Fixpoint int_rstrip (s : string) : string :=
  match s with
  | EmptyString => EmptyString
  | String c r =>
      match int_rstrip r with
      | EmptyString => if is_int_space c then EmptyString else String c EmptyString
      | r' => String c r'
      end
  end.

(** [sys.int_info.default_max_str_digits] *)
Definition MAX_STR_DIGITS : Z := 4300.

(** The scan that counts the digits before they are converted: the number
    of digits in the run of digits and underscores at the head of [s];
    [None] when the run begins or ends with an underscore or has two in a
    row.  [prev_us] tells whether a digit has to come next. *)
Fixpoint scan_digits (prev_us : bool) (count : Z) (s : string) : option Z :=
  match s with
  | EmptyString => if prev_us then None else Some count
  | String c r =>
      if is_digit c then scan_digits false (count + 1) r
      else if Ascii.eqb c "_"%char
      then if prev_us then None else scan_digits true count r
      else if prev_us then None else Some count
  end.

(** What [int(s)] comes to: a value, or one of its two [ValueError]s. *)
Inductive IntResult : Type :=
| IntValue (z : Z)
| IntInvalid                 (* invalid literal for int() with base 10 *)
| IntTooLong (digits : Z).   (* Exceeds the limit (4300 digits) *)

(** The part after the sign. *)
Definition int_body (r : string) : IntResult :=
  match scan_digits true 0 r with
  | None => IntInvalid
  | Some d =>
      if (MAX_STR_DIGITS <? d)%Z then IntTooLong d
      else match int_digits 0 false r with
           | Some z => IntValue z
           | None => IntInvalid
           end
  end.

(** [int(s)] in base 10 for a string of ASCII characters: white space
    around, an optional sign, digits with single underscores between them,
    and no more than 4300 digits. *)
Definition int_parse (s : string) : IntResult :=
  match int_rstrip (int_lstrip s) with
  | String "-"%char r =>
      match int_body r with
      | IntValue z => IntValue (- z)
      | e => e
      end
  | String "+"%char r => int_body r
  | t => int_body t
  end.

(** [int(s)]; [None] is the [ValueError]. *)
Definition int (s : string) : option Z :=
  match int_parse s with
  | IntValue z => Some z
  | _ => None
  end.

(** The exceptions of the two host modules and the built-in ones they meet.
    Each carries [str(e)]. *)
Inductive exn : Type :=
| CommandError (msg : string)        (* automation2040w.CommandError *)
| ConnectionError (msg : string)     (* automation2040w.ConnectionError *)
| SerialException (msg : string)     (* serial.SerialException *)
| ValueError (msg : string)          (* int(), json.loads *)
| AttributeError (msg : string)      (* method call on None or a non-dict *)
| UnicodeDecodeError (msg : string)  (* bytes.decode *)
| UnsupportedMediaType (msg : string). (* werkzeug: request.get_json() *)

Definition exn_str (e : exn) : string :=
  match e with
  | CommandError m | ConnectionError m | SerialException m
  | ValueError m | AttributeError m | UnicodeDecodeError m
  | UnsupportedMediaType m => m
  end.

(** Outcome of a call: a value or a raised exception. *)
Inductive Res (A : Type) : Type :=
| Ok (a : A)
| Raise (e : exn).
Arguments Ok {A} a.
Arguments Raise {A} e.

Definition is_ok {A} (r : Res A) : bool :=
  match r with Ok _ => true | Raise _ => false end.

(** Python code mutates its object and may raise afterwards: the state
    survives the exception. *)
Definition M (S A : Type) : Type := S -> Res A * S.

Definition ret {S A} (a : A) : M S A := fun s => (Ok a, s).
Definition raise {S A} (e : exn) : M S A := fun s => (Raise e, s).
Definition bind {S A B} (m : M S A) (k : A -> M S B) : M S B :=
  fun s => match m s with
           | (Ok a, s') => k a s'
           | (Raise e, s') => (Raise e, s')
           end.
(** [try: m except Exception as e: h e] *)
Definition try_except {S A} (m : M S A) (h : exn -> M S A) : M S A :=
  fun s => match m s with
           | (Ok a, s') => (Ok a, s')
           | (Raise e, s') => h e s'
           end.
(** [try: m except <some exceptions> as e: h e]: [h e] is [None] for an
    exception that no [except] clause matches. *)
Definition try_catch {S A} (m : M S A) (h : exn -> option (M S A)) : M S A :=
  fun s => match m s with
           | (Ok a, s') => (Ok a, s')
           | (Raise e, s') =>
               match h e with
               | Some k => k s'
               | None => (Raise e, s')
               end
           end.
Definition lift {S A} (r : Res A) : M S A := fun s => (r, s).
Definition get {S} : M S S := fun s => (Ok s, s).
Definition modify {S} (f : S -> S) : M S unit := fun s => (Ok tt, f s).

(** JSON values as [json.loads] and [request.get_json] build them.  A float
    is carried as the rational it denotes; no handler computes with one. *)
Inductive Json : Type :=
| JNull
| JBool (b : bool)
| JInt (z : Z)
| JFloat (q : Q)
| JStr (s : string)
| JArr (l : list Json)
| JObj (d : list (string * Json)).

(** Truth value of a Python object. *)
Definition truthy (v : Json) : bool :=
  match v with
  | JNull => false
  | JBool b => b
  | JInt z => negb (Z.eqb z 0)
  | JFloat q => negb (Qeq_bool q 0)
  | JStr s => negb (String.eqb s EmptyString)
  | JArr l => match l with [] => false | _ => true end
  | JObj d => match d with [] => false | _ => true end
  end.

(** [d.get(key, default)] on a dict. *)
Fixpoint dict_get (key : string) (d : list (string * Json)) (default : Json) : Json :=
  match d with
  | [] => default
  | (k, v) :: r => if String.eqb k key then v else dict_get key r default
  end.

Fixpoint dict_has (key : string) (d : list (string * Json)) : bool :=
  match d with
  | [] => false
  | (k, _) :: r => String.eqb k key || dict_has key r
  end.

End Py.

Module PyNotations.
Notation "x <- m ;; k" := (Py.bind m (fun x => k))
  (at level 61, m at next level, right associativity).
Notation "m ;;; k" := (Py.bind m (fun _ => k))
  (at level 61, right associativity).
End PyNotations.

(* ===================================================================== *)
(** ** The world around the program *)
(* ===================================================================== *)

(** What the libraries and the device contribute: the serial ports that
    [pyserial] lists and opens, the device's answer to a command line, the
    [json] module, [repr], and the MQTT client library. *)
Module World.
Import Py.

(** An entry of [serial.tools.list_ports.comports()]. *)
Record PortInfo : Type := { vid : option Z; device : string }.

Record Env : Type := {
  (** [serial.tools.list_ports.comports()] *)
  comports : list PortInfo;
  (** [serial.Serial(port, ...)]: [Some msg] is a [SerialException] *)
  open_error : string -> option string;
  (** the lines the device sends back for a command line; [Raise] when
      [serial.write] itself fails *)
  respond : string -> Res (list string);
  (** [json.loads]: [None] is the [JSONDecodeError] *)
  json_loads : string -> option Json;
  (** [json.dumps] *)
  json_dumps : Json -> string;
  (** [repr] of a value, used for floats, lists, dicts and quoted strings *)
  py_repr : Json -> string;
  (** [mqtt.Client.connect] *)
  mqtt_connect : Res unit;
  (** [mqtt.Client.publish topic payload] *)
  mqtt_publish : string -> string -> Res unit
}.

(** [str(v)], the text an f-string inserts for [{v}]. *)
Definition py_str (env : Env) (v : Json) : string :=
  match v with
  | JNull => "None"
  | JBool true => "True"
  | JBool false => "False"
  | JInt z => str_of_Z z
  | JStr s => s
  | JFloat _ | JArr _ | JObj _ => py_repr env v
  end.

(** [str(e)] of the [ValueError] that [int(s)] raises. *)
Definition int_error (env : Env) (s : string) : string :=
  match int_parse s with
  | IntTooLong d =>
      "Exceeds the limit (4300 digits) for integer string conversion: value has "
        ++ str_of_Z d
        ++ " digits; use sys.set_int_max_str_digits() to increase the limit"
  | _ => "invalid literal for int() with base 10: " ++ py_repr env (JStr s)
  end.

End World.

(* ===================================================================== *)
(** ** host/automation2040w.py *)
(* ===================================================================== *)

Module Link.
Import Py World PyNotations.

(** The [serial.Serial] object: what has been written to the port, and the
    lines that [readline] will deliver.  When no line is left the read
    times out and [readline] returns the empty line. *)
Record Serial : Type := {
  is_open : bool;
  written : list string;
  pending : list string
}.

(** The [Automation2040W] object. *)
Record Board : Type := {
  port : option string;
  baudrate : Z;
  serial : option Serial;
  _version : option string
}.

Definition set_serial (ser : option Serial) (b : Board) : Board :=
  {| port := port b; baudrate := baudrate b; serial := ser; _version := _version b |}.
Definition set_version (v : option string) (b : Board) : Board :=
  {| port := port b; baudrate := baudrate b; serial := serial b; _version := v |}.
Definition set_port (p : option string) (b : Board) : Board :=
  {| port := p; baudrate := baudrate b; serial := serial b; _version := _version b |}.

Definition PICO_VID : Z := 0x2E8A.

(** [sub in s] *)
Fixpoint contains (s sub : string) : bool :=
  startswith s sub ||
  match s with
  | EmptyString => false
  | String _ r => contains r sub
  end.

(** [Automation2040W.find_ports] *)
Fixpoint find_ports (ports : list PortInfo) : list string :=
  match ports with
  | [] => []
  | p :: r =>
      if match vid p with Some v => Z.eqb v PICO_VID | None => false end
      then device p :: find_ports r
      else if contains (device p) "ACM" || contains (device p) "usbmodem"
      then device p :: find_ports r
      else find_ports r
  end.

(** A line that ends the read loop of [_send_command]. *)
Definition is_terminator (line : string) : bool :=
  startswith line "OK" || startswith line "ERR" || startswith line "{".

(** The [while True] loop of [_send_command], lines 189-200: [lines] is the
    accumulator; the result is the accumulator and what stays unread. *)
Fixpoint read_response (pend : list string) (lines : list string)
  : list string * list string :=
  match pend with
  | [] => (lines, [])
  | raw :: rest =>
      let line := strip raw in
      if String.eqb line EmptyString then (lines, rest)
      else if startswith line "#" then read_response rest lines
      else if is_terminator line then ((lines ++ [line])%list, rest)
      else read_response rest (lines ++ [line])%list
  end.

(** Lines 202-215 of [_send_command]: from the lines read to the value
    returned or the [CommandError] raised. *)
Definition decode_response (lines : list string) : Res string :=
  match lines with
  | [] => Raise (CommandError "No response from board")
  | _ =>
      let response := join_lines lines in
      if startswith response "ERR" then Raise (CommandError (slice_from 4 response))
      else if startswith response "OK" then Ok (strip (slice_from 2 response))
      else Ok response
  end.

Section WithEnv.
Variable env : Env.

(** [Automation2040W._send_command] *)
Definition _send_command (command : string) : M Board string :=
  fun b =>
    match serial b with
    | None => (Raise (CommandError "Not connected to board"), b)
    | Some ser =>
        if negb (is_open ser) then (Raise (CommandError "Not connected to board"), b)
        else
          match respond env command with
          | Raise e => (Raise e, b)
          | Ok answer =>
              let '(lines, rest) := read_response (pending ser ++ answer)%list [] in
              (decode_response lines,
               set_serial
                 (Some {| is_open := true;
                          written := (written ser ++ [(command ++ nl)%string])%list;
                          pending := rest |}) b)
          end
    end.

(** The [version] property. *)
Definition version : M Board string :=
  fun b =>
    match _version b with
    | Some v => (Ok v, b)
    | None =>
        match _send_command "VERSION" b with
        | (Ok v, b') => (Ok v, set_version (Some v) b')
        | (Raise e, b') => (Raise e, b')
        end
    end.

(** [relay(index, state)]; [state] is [JNull] for Python's [None]. *)
Definition relay (index : Z) (state : Json) : M Board Json :=
  match state with
  | JNull =>
      response <- _send_command ("RELAY " ++ str_of_Z index ++ "?") ;;
      ret (JBool (String.eqb response "ON"))
  | _ =>
      _send_command ("RELAY " ++ str_of_Z index ++ " "
                       ++ (if truthy state then "ON" else "OFF")) ;;;
      ret state
  end.

(** [output(index, value)] *)
Definition output (index : Z) (value : Json) : M Board Json :=
  match value with
  | JNull =>
      response <- _send_command ("OUTPUT " ++ str_of_Z index ++ "?") ;;
      match Py.int response with
      | Some z => ret (JInt z)
      | None => raise (ValueError (int_error env response))
      end
  | _ =>
      let value := match value with
                   | JBool b => JInt (if b then 100 else 0)
                   | v => v
                   end in
      _send_command ("OUTPUT " ++ str_of_Z index ++ " " ++ py_str env value) ;;;
      ret value
  end.

(** [status()] *)
Definition status : M Board Json :=
  response <- _send_command "STATUS" ;;
  match json_loads env response with
  | Some j => ret j
  | None => raise (ValueError "Expecting value")
  end.

(** [reset()] *)
Definition reset : M Board unit :=
  _send_command "RESET" ;;; ret tt.

(** [input(index)] *)
Definition input (index : Z) : M Board bool :=
  response <- _send_command ("INPUT " ++ str_of_Z index ++ "?") ;;
  ret (String.eqb response "HIGH").

(** [led(button, brightness)] *)
Definition led (button : string) (brightness : Z) : M Board unit :=
  _send_command ("LED " ++ upper button ++ " " ++ str_of_Z brightness) ;;;
  ret tt.

(** [button(button)] *)
Definition button (button : string) : M Board bool :=
  response <- _send_command ("BUTTON " ++ upper button ++ "?") ;;
  ret (String.eqb response "PRESSED").

(** [disconnect()] *)
Definition disconnect : M Board unit :=
  fun b =>
    match serial b with
    | Some ser => if is_open ser then (Ok tt, set_serial None b) else (Ok tt, b)
    | None => (Ok tt, b)
    end.

(** The [try] block of [connect], after the port is open. *)
Definition connect_handshake : M Board unit :=
  response <- _send_command "PING" ;;
  if negb (String.eqb response "PONG")
  then raise (ConnectionError
                ("Board did not respond correctly to PING. Got: " ++ response))
  else
    v <- _send_command "VERSION" ;;
    modify (set_version (Some v)).

(** [connect()] without an argument, as [__init__] calls it. *)
Definition connect : M Board unit :=
  fun b =>
    let pick : Res string :=
      match port b with
      | Some p => Ok p
      | None =>
          match find_ports (comports env) with
          | [] => Raise (ConnectionError
                           ("No Automation 2040 W found. Make sure the board is connected "
                              ++ "and has the firmware installed."))
          | p :: _ => Ok p
          end
      end in
    match pick with
    | Raise e => (Raise e, b)
    | Ok p =>
        let b := set_port (Some p) b in
        match open_error env p with
        | Some msg =>
            (Raise (ConnectionError ("Failed to open " ++ p ++ ": " ++ msg)), b)
        | None =>
            let b := set_serial
                       (Some {| is_open := true; written := []; pending := [] |}) b in
            match connect_handshake b with
            | (Raise (SerialException msg), b') =>
                (Raise (ConnectionError ("Failed to open " ++ p ++ ": " ++ msg)), b')
            | r => r
            end
        end
    end.

(** [Automation2040W(port=..., baudrate=...)] with [auto_connect] left at
    [True]: the object exists only if [connect] returns. *)
Definition new_board (p : option string) (baud : Z) : Res Board :=
  match connect {| port := p; baudrate := baud; serial := None; _version := None |} with
  | (Ok _, b) => Ok b
  | (Raise e, _) => Raise e
  end.

End WithEnv.
End Link.

(* ===================================================================== *)
(** ** firmware-python/main.py: the help listing *)
(* ===================================================================== *)

Module Firmware.
Import Py.

(** The text [cmd_help] passes to [send_response], with the channel counts
    of the board formatted in. *)
Definition help_text (relays outputs inputs adcs : Z) : list string :=
  [ "OK Commands:";
    "RELAY <n> <ON|OFF>   - Set relay (1-" ++ str_of_Z relays ++ ")";
    "RELAY <n>?           - Query relay state";
    "OUTPUT <n> <0-100>   - Set output PWM % (1-" ++ str_of_Z outputs ++ ")";
    "OUTPUT <n> <ON|OFF>  - Set output full on/off";
    "OUTPUT <n>?          - Query output state";
    "INPUT <n>?           - Query input (1-" ++ str_of_Z inputs ++ ")";
    "ADC <n>?             - Query ADC voltage (1-" ++ str_of_Z adcs ++ ")";
    "LED <A|B> <0-100>    - Set button LED brightness";
    "BUTTON <A|B>?        - Query button state";
    "STATUS               - Get all states as JSON";
    "RESET                - Reset to safe state";
    "VERSION              - Show firmware version";
    "PING                 - Test connection" ].

(** [cmd_help]: the lines [print(help_text)] puts on the wire. *)
Definition cmd_help (relays outputs inputs adcs : Z) : list string :=
  help_text relays outputs inputs adcs.

End Firmware.

(* ===================================================================== *)
(** ** firmware-python/main.py: the command interpreter *)
(* ===================================================================== *)

(** The [AutomationController] of the firmware.  The Pimoroni driver and
    the MicroPython built-ins that read numbers and print floats are not
    part of the repository: they are the fields of [Driver], over a
    hardware state [H] and a type [F] of floats.  The calls of the driver
    are taken to return; the exceptions of the model are the
    [ValueError]s of [int] and [float]. *)
Module Controller.
Import Py PyNotations.

Inductive Switch : Type := SWITCH_A | SWITCH_B.

Definition VERSION : string := "1.0.0".

(** [s.split()]: the words between runs of white space.  [cur] is the
    word being read. *)
Fixpoint split_ws (cur : option string) (s : string) : list string :=
  match s with
  | EmptyString => match cur with Some w => [w] | None => [] end
  | String c r =>
      if is_space c
      then match cur with
           | Some w => w :: split_ws None r
           | None => split_ws None r
           end
      else split_ws (Some (match cur with
                           | Some w => w ++ String c EmptyString
                           | None => String c EmptyString
                           end)) r
  end.

Definition words (s : string) : list string := split_ws None s.

(** [s.rstrip("?")] *)
Fixpoint rstrip_q (s : string) : string :=
  match s with
  | EmptyString => EmptyString
  | String c r =>
      match rstrip_q r with
      | EmptyString => if Ascii.eqb c "?" then EmptyString else String c EmptyString
      | r' => String c r'
      end
  end.

(** [s.endswith("?")] *)
Fixpoint endswith_q (s : string) : bool :=
  match s with
  | EmptyString => false
  | String c EmptyString => Ascii.eqb c "?"
  | String _ r => endswith_q r
  end.

Section WithDriver.
Variables H F : Type.

Record Driver : Type := {
  NUM_RELAYS : Z;
  NUM_OUTPUTS : Z;
  NUM_INPUTS : Z;
  NUM_ADCS : Z;
  (** [board.relay(i)], and [board.relay()] for [None] *)
  relay_get : option Z -> H -> bool;
  (** [board.relay(i, state)], and [board.relay(state)] for [None] *)
  relay_set : option Z -> bool -> H -> H;
  output_get : Z -> H -> F;
  output_set : Z -> F -> H -> H;
  read_input : Z -> H -> bool;
  read_adc : Z -> H -> F;
  switch_led : Switch -> Z -> H -> H;
  switch_pressed : Switch -> H -> bool;
  board_reset : H -> H;
  (** [int(s)]; [None] is the [ValueError], whose text is [int_error s] *)
  mp_int : string -> option Z;
  int_error : string -> string;
  (** [max(0.0, min(1.0, float(s) / 100.0))]; [None] is the [ValueError]
      of [float(s)], whose text is [float_error s] *)
  level_of : string -> option F;
  float_error : string -> string;
  (** [1.0] and [0.0] *)
  level_one : F;
  level_zero : F;
  (** [str(int(v * 100))] *)
  percent_text : F -> string;
  (** [f"{v:.3f}"] *)
  volts_text : F -> string;
  (** [json.dumps] of the dictionary that [cmd_status] builds from the
      relay, output, input and ADC readings and the two buttons *)
  status_text : list bool -> list F -> list bool -> list F -> bool -> bool -> string
}.

Variable drv : Driver.

Record State : Type := {
  board : H;
  running : bool;
  buffer : string
}.

Definition set_hw (h : H) (c : State) : State :=
  {| board := h; running := running c; buffer := buffer c |}.
Definition set_buffer (b : string) (c : State) : State :=
  {| board := board c; running := running c; buffer := b |}.

(** [int(s)] in the firmware. *)
Definition to_int (s : string) : M H Z :=
  match mp_int drv s with
  | Some z => ret z
  | None => raise (ValueError (int_error drv s))
  end.

(** [0 <= index < n] *)
Definition in_range (index n : Z) : bool := (0 <=? index)%Z && (index <? n)%Z.

(** The argument of the driver's [relay]: the index, or nothing on a
    board with a single relay. *)
Definition relay_arg (index : Z) : option Z :=
  if (1 <? NUM_RELAYS drv)%Z then Some index else None.

Definition member (x : string) (l : list string) : bool :=
  existsb (String.eqb x) l.

(** [cmd_relay]; the result is the text handed to [send_response]. *)
Definition cmd_relay (args : list string) : M H string :=
  match args with
  | [] => ret "ERR RELAY requires arguments"
  | a0 :: rest =>
      if endswith_q a0 then
        n <- to_int (rstrip_q a0) ;;
        let index := (n - 1)%Z in
        if negb (in_range index (NUM_RELAYS drv)) then
          ret ("ERR Relay index out of range (1-" ++ str_of_Z (NUM_RELAYS drv) ++ ")")
        else
          h <- get ;;
          ret ("OK " ++ (if relay_get drv (relay_arg index) h then "ON" else "OFF"))
      else
        match rest with
        | [] => ret "ERR RELAY requires index and state (ON/OFF)"
        | a1 :: _ =>
            n <- to_int a0 ;;
            let index := (n - 1)%Z in
            if negb (in_range index (NUM_RELAYS drv)) then
              ret ("ERR Relay index out of range (1-"
                     ++ str_of_Z (NUM_RELAYS drv) ++ ")")
            else
              let state := member a1 ["ON"; "1"; "TRUE"; "HIGH"] in
              modify (relay_set drv (relay_arg index) state) ;;;
              ret "OK"
        end
  end.

(** [cmd_output] *)
Definition cmd_output (args : list string) : M H string :=
  match args with
  | [] => ret "ERR OUTPUT requires arguments"
  | a0 :: rest =>
      if endswith_q a0 then
        n <- to_int (rstrip_q a0) ;;
        let index := (n - 1)%Z in
        if negb (in_range index (NUM_OUTPUTS drv)) then
          ret ("ERR Output index out of range (1-"
                 ++ str_of_Z (NUM_OUTPUTS drv) ++ ")")
        else
          h <- get ;;
          ret ("OK " ++ percent_text drv (output_get drv index h))
      else
        match rest with
        | [] => ret "ERR OUTPUT requires index and value (0-100 or ON/OFF)"
        | val_str :: _ =>
            n <- to_int a0 ;;
            let index := (n - 1)%Z in
            if negb (in_range index (NUM_OUTPUTS drv)) then
              ret ("ERR Output index out of range (1-"
                     ++ str_of_Z (NUM_OUTPUTS drv) ++ ")")
            else
              value <- (if member val_str ["ON"; "TRUE"; "HIGH"]
                        then ret (level_one drv)
                        else if member val_str ["OFF"; "FALSE"; "LOW"]
                        then ret (level_zero drv)
                        else match level_of drv val_str with
                             | Some v => ret v
                             | None => raise (ValueError (float_error drv val_str))
                             end) ;;
              modify (output_set drv index value) ;;;
              ret "OK"
        end
  end.

(** [cmd_input] *)
Definition cmd_input (args : list string) : M H string :=
  match args with
  | [] => ret "ERR INPUT requires index"
  | a0 :: _ =>
      n <- to_int (rstrip_q a0) ;;
      let index := (n - 1)%Z in
      if negb (in_range index (NUM_INPUTS drv)) then
        ret ("ERR Input index out of range (1-" ++ str_of_Z (NUM_INPUTS drv) ++ ")")
      else
        h <- get ;;
        ret ("OK " ++ (if read_input drv index h then "HIGH" else "LOW"))
  end.

(** [cmd_adc] *)
Definition cmd_adc (args : list string) : M H string :=
  match args with
  | [] => ret "ERR ADC requires index"
  | a0 :: _ =>
      n <- to_int (rstrip_q a0) ;;
      let index := (n - 1)%Z in
      if negb (in_range index (NUM_ADCS drv)) then
        ret ("ERR ADC index out of range (1-" ++ str_of_Z (NUM_ADCS drv) ++ ")")
      else
        h <- get ;;
        ret ("OK " ++ volts_text drv (read_adc drv index h))
  end.

(** [cmd_led] *)
Definition cmd_led (args : list string) : M H string :=
  match args with
  | [] => ret "ERR LED requires button (A/B) and brightness"
  | a0 :: rest =>
      let button_str := upper a0 in
      match (if String.eqb button_str "A" then Some SWITCH_A
             else if String.eqb button_str "B" then Some SWITCH_B
             else None) with
      | None => ret "ERR LED button must be A or B"
      | Some button =>
          match rest with
          | [] => ret "ERR LED requires brightness (0-100)"
          | a1 :: _ =>
              n <- to_int a1 ;;
              let brightness := Z.max 0 (Z.min 100 n) in
              modify (switch_led drv button brightness) ;;;
              ret "OK"
          end
      end
  end.

(** [cmd_button] *)
Definition cmd_button (args : list string) : M H string :=
  match args with
  | [] => ret "ERR BUTTON requires button (A/B)"
  | a0 :: _ =>
      let button_str := upper (rstrip_q a0) in
      match (if String.eqb button_str "A" then Some SWITCH_A
             else if String.eqb button_str "B" then Some SWITCH_B
             else None) with
      | None => ret "ERR BUTTON must be A or B"
      | Some button =>
          h <- get ;;
          ret ("OK " ++ (if switch_pressed drv button h then "PRESSED" else "RELEASED"))
      end
  end.

(** [range(n)] *)
Definition range (n : Z) : list Z := map Z.of_nat (seq 0 (Z.to_nat n)).

(** [cmd_status] *)
Definition cmd_status : M H string :=
  h <- get ;;
  ret (status_text drv
         (map (fun i => relay_get drv (relay_arg i) h) (range (NUM_RELAYS drv)))
         (map (fun i => output_get drv i h) (range (NUM_OUTPUTS drv)))
         (map (fun i => read_input drv i h) (range (NUM_INPUTS drv)))
         (map (fun i => read_adc drv i h) (range (NUM_ADCS drv)))
         (switch_pressed drv SWITCH_A h) (switch_pressed drv SWITCH_B h)).

(** [cmd_reset] *)
Definition cmd_reset : M H string :=
  modify (board_reset drv) ;;; ret "OK".

(** The [if]/[elif] chain of [parse_command]: the lines that go out.  The
    help text is the only answer of more than one line. *)
Definition dispatch (cmd : string) (args : list string) : M H (list string) :=
  let one (m : M H string) : M H (list string) := r <- m ;; ret [r] in
  if String.eqb cmd "RELAY" then one (cmd_relay args)
  else if String.eqb cmd "OUTPUT" then one (cmd_output args)
  else if String.eqb cmd "INPUT" then one (cmd_input args)
  else if String.eqb cmd "ADC" then one (cmd_adc args)
  else if String.eqb cmd "LED" then one (cmd_led args)
  else if String.eqb cmd "BUTTON" then one (cmd_button args)
  else if String.eqb cmd "STATUS" then one cmd_status
  else if String.eqb cmd "RESET" then one cmd_reset
  else if String.eqb cmd "VERSION" then ret ["OK " ++ VERSION]
  else if String.eqb cmd "HELP"
  then ret (Firmware.cmd_help (NUM_RELAYS drv) (NUM_OUTPUTS drv)
              (NUM_INPUTS drv) (NUM_ADCS drv))
  else if String.eqb cmd "PING" then ret ["OK PONG"]
  else ret ["ERR Unknown command: " ++ cmd].

(** [type(e).__name__] *)
Definition exn_name (e : exn) : string :=
  match e with
  | CommandError _ => "CommandError"
  | ConnectionError _ => "ConnectionError"
  | SerialException _ => "SerialException"
  | ValueError _ => "ValueError"
  | AttributeError _ => "AttributeError"
  | UnicodeDecodeError _ => "UnicodeDecodeError"
  | UnsupportedMediaType _ => "UnsupportedMediaType"
  end.

(** [parse_command]: the lines printed and the hardware afterwards. *)
Definition parse_command (line : string) (h : H) : list string * H :=
  let line := strip line in
  if String.eqb line EmptyString || startswith line "#" then ([], h)
  else
    match words (upper line) with
    | [] => ([], h)
    | cmd :: args =>
        match dispatch cmd args h with
        | (Ok out, h') => (out, h')
        | (Raise e, h') => (["ERR " ++ exn_name e ++ ": " ++ exn_str e], h')
        end
    end.

(** One character of the [run] loop: a line end hands a non-empty buffer
    to [parse_command] and empties it, anything else is added to the
    buffer. *)
Definition feed_char (ch : ascii) (c : State) : list string * State :=
  if Ascii.eqb ch (ascii_of_nat 10) || Ascii.eqb ch (ascii_of_nat 13) then
    if negb (String.eqb (buffer c) EmptyString) then
      let '(out, h) := parse_command (buffer c) (board c) in
      (out, set_buffer EmptyString (set_hw h c))
    else ([], c)
  else ([], set_buffer (buffer c ++ String ch EmptyString) c).

(** The characters of [s], one after another. *)
Fixpoint feed (s : string) (c : State) : list string * State :=
  match s with
  | EmptyString => ([], c)
  | String ch r =>
      let '(out1, c1) := feed_char ch c in
      let '(out2, c2) := feed r c1 in
      ((out1 ++ out2)%list, c2)
  end.

End WithDriver.

Arguments NUM_RELAYS {H F}.
Arguments NUM_OUTPUTS {H F}.
Arguments NUM_INPUTS {H F}.
Arguments NUM_ADCS {H F}.
Arguments relay_get {H F}.
Arguments relay_set {H F}.
Arguments output_get {H F}.
Arguments output_set {H F}.
Arguments read_input {H F}.
Arguments read_adc {H F}.
Arguments switch_led {H F}.
Arguments switch_pressed {H F}.
Arguments board_reset {H F}.
Arguments mp_int {H F}.
Arguments int_error {H F}.
Arguments level_of {H F}.
Arguments float_error {H F}.
Arguments level_one {H F}.
Arguments level_zero {H F}.
Arguments percent_text {H F}.
Arguments volts_text {H F}.
Arguments status_text {H F}.
Arguments to_int {H F}.
Arguments relay_arg {H F}.
Arguments cmd_relay {H F}.
Arguments cmd_output {H F}.
Arguments cmd_input {H F}.
Arguments cmd_adc {H F}.
Arguments cmd_led {H F}.
Arguments cmd_button {H F}.
Arguments cmd_status {H F}.
Arguments cmd_reset {H F}.
Arguments dispatch {H F}.
Arguments parse_command {H F}.
Arguments feed_char {H F}.
Arguments feed {H F}.
Arguments board {H}.
Arguments running {H}.
Arguments buffer {H}.
Arguments set_hw {H}.
Arguments set_buffer {H}.
Arguments Build_State {H}.

End Controller.

(* ===================================================================== *)
(** ** host/service/automation_service.py *)
(* ===================================================================== *)

Module Service.
Import Py World PyNotations.

(** The entries of the configuration that the code reads. *)
Record Config : Type := {
  serial_port : option string;
  serial_baudrate : Z;
  serial_reconnect_interval : Z;
  mqtt_broker : string;
  mqtt_port : Z;
  mqtt_topic_prefix : string;
  mqtt_client_id : string;
  mqtt_username : string;
  mqtt_password : string;
  http_host : string;
  http_port : Z
}.

(** [DEFAULT_CONFIG] *)
Definition DEFAULT_CONFIG : Config := {|
  serial_port := None;
  serial_baudrate := 115200;
  serial_reconnect_interval := 5;
  mqtt_broker := "192.168.1.1";
  mqtt_port := 1883;
  mqtt_topic_prefix := "automation";
  mqtt_client_id := "automation2040w-host";
  mqtt_username := EmptyString;
  mqtt_password := EmptyString;
  http_host := "0.0.0.0";
  http_port := 8080
|}.

(** The [paho] client object as far as the service uses it. *)
Record MqttClient : Type := {
  credentials : option (string * string);
  subscriptions : list string;
  published : list (string * string);
  loop_running : bool
}.

Inductive Level : Type := DEBUG | INFO | WARNING | ERROR.

(** The [AutomationService] object.  [log] is what went to [self.logger]. *)
Record Service : Type := {
  config : Config;
  running : bool;
  board : option Link.Board;
  mqtt_client : option MqttClient;
  board_connected : bool;
  mqtt_connected : bool;
  last_status : Json;
  error_count : Z;
  log : list (Level * string)
}.

(** The state that [__init__] builds. *)
Definition init (cfg : Config) : Service := {|
  config := cfg;
  running := false;
  board := None;
  mqtt_client := None;
  board_connected := false;
  mqtt_connected := false;
  last_status := JObj [];
  error_count := 0;
  log := []
|}.

Definition set_running (v : bool) (s : Service) : Service :=
  {| config := config s; running := v; board := board s;
     mqtt_client := mqtt_client s; board_connected := board_connected s;
     mqtt_connected := mqtt_connected s; last_status := last_status s;
     error_count := error_count s; log := log s |}.
Definition set_board (v : option Link.Board) (s : Service) : Service :=
  {| config := config s; running := running s; board := v;
     mqtt_client := mqtt_client s; board_connected := board_connected s;
     mqtt_connected := mqtt_connected s; last_status := last_status s;
     error_count := error_count s; log := log s |}.
Definition set_mqtt_client (v : option MqttClient) (s : Service) : Service :=
  {| config := config s; running := running s; board := board s;
     mqtt_client := v; board_connected := board_connected s;
     mqtt_connected := mqtt_connected s; last_status := last_status s;
     error_count := error_count s; log := log s |}.
Definition set_board_connected (v : bool) (s : Service) : Service :=
  {| config := config s; running := running s; board := board s;
     mqtt_client := mqtt_client s; board_connected := v;
     mqtt_connected := mqtt_connected s; last_status := last_status s;
     error_count := error_count s; log := log s |}.
Definition set_mqtt_connected (v : bool) (s : Service) : Service :=
  {| config := config s; running := running s; board := board s;
     mqtt_client := mqtt_client s; board_connected := board_connected s;
     mqtt_connected := v; last_status := last_status s;
     error_count := error_count s; log := log s |}.
Definition set_last_status (v : Json) (s : Service) : Service :=
  {| config := config s; running := running s; board := board s;
     mqtt_client := mqtt_client s; board_connected := board_connected s;
     mqtt_connected := mqtt_connected s; last_status := v;
     error_count := error_count s; log := log s |}.
Definition set_error_count (v : Z) (s : Service) : Service :=
  {| config := config s; running := running s; board := board s;
     mqtt_client := mqtt_client s; board_connected := board_connected s;
     mqtt_connected := mqtt_connected s; last_status := last_status s;
     error_count := v; log := log s |}.
Definition add_log (l : Level) (msg : string) (s : Service) : Service :=
  {| config := config s; running := running s; board := board s;
     mqtt_client := mqtt_client s; board_connected := board_connected s;
     mqtt_connected := mqtt_connected s; last_status := last_status s;
     error_count := error_count s; log := (log s ++ [(l, msg)])%list |}.

(** [self.logger.<level>(msg)] *)
Definition logger (l : Level) (msg : string) : M Service unit :=
  modify (add_log l msg).

(** [type(v).__name__] *)
Definition type_name (v : Json) : string :=
  match v with
  | JNull => "NoneType"
  | JBool _ => "bool"
  | JInt _ => "int"
  | JFloat _ => "float"
  | JStr _ => "str"
  | JArr _ => "list"
  | JObj _ => "dict"
  end.

(** [v.get(key, default)]: only a dict has the method. *)
Definition py_get {S} (v : Json) (key : string) (default : Json) : M S Json :=
  match v with
  | JObj d => ret (dict_get key d default)
  | _ => raise (AttributeError
                  ("'" ++ type_name v ++ "' object has no attribute 'get'"))
  end.

(** [self.board.<method>(...)]: [self.board] may be [None]. *)
Definition with_board {A} (method : string) (m : M Link.Board A) : M Service A :=
  fun s =>
    match board s with
    | None => (Raise (AttributeError
                        ("'NoneType' object has no attribute '" ++ method ++ "'")), s)
    | Some b => let '(r, b') := m b in (r, set_board (Some b') s)
    end.

(** A Flask response: [jsonify(body), code]. *)
Record HttpResponse : Type := { code : Z; body : Json }.

Definition jsonify (j : Json) (c : Z) : HttpResponse := {| code := c; body := j |}.

Definition not_connected : HttpResponse :=
  jsonify (JObj [("error", JStr "Board not connected")]) 503.

(** [j or {}]: a JSON value that is false in Python, [null] and [{}] among
    them, gives the empty dict. *)
Definition or_empty (j : Json) : Json := if truthy j then j else JObj [].

(** [request.get_json() or {}].  [Some j] is a request whose body is the
    JSON value [j]; [None] is a request without a JSON body, which
    [get_json] aborts ([415 Unsupported Media Type]): the exception leaves
    the handler and Flask answers the request. *)
Definition json_or_empty {S : Type} (request_json : option Json) : M S Json :=
  match request_json with
  | Some j => ret (or_empty j)
  | None =>
      raise (UnsupportedMediaType
               ("415 Unsupported Media Type: Did not attempt to load JSON data "
                  ++ "because the request Content-Type was not 'application/json'."))
  end.

Section WithEnv.
Variable env : Env.

(** [GET /api/health], without the two fields read from the clock
    ([uptime_seconds], [last_update]). *)
Definition health : M Service HttpResponse :=
  s <- get ;;
  ret (jsonify
         (JObj [ ("status", JStr (if running s then "healthy" else "stopped"));
                 ("board_connected", JBool (board_connected s));
                 ("mqtt_connected", JBool (mqtt_connected s));
                 ("mqtt_broker", JStr (mqtt_broker (config s) ++ ":"
                                         ++ str_of_Z (mqtt_port (config s))));
                 ("mqtt_topic_prefix", JStr (mqtt_topic_prefix (config s)));
                 ("error_count", JInt (error_count s)) ])
         200).

(** [GET /api/status] *)
Definition status : M Service HttpResponse :=
  s <- get ;;
  if negb (board_connected s) then ret not_connected
  else ret (jsonify (last_status s) 200).

(** [POST /api/relay/<int:relay_num>] *)
Definition control_relay (relay_num : Z) (request_json : option Json)
  : M Service HttpResponse :=
  s <- get ;;
  if negb (board_connected s) then
    logger WARNING ("API: Relay " ++ str_of_Z relay_num
                      ++ " control rejected - board not connected") ;;;
    ret not_connected
  else
    data <- json_or_empty request_json ;;
    state <- py_get data "state" (JBool true) ;;
    try_except
      (logger INFO ("API: Setting relay " ++ str_of_Z relay_num ++ " to "
                      ++ py_str env state) ;;;
       with_board "relay" (Link.relay env relay_num state) ;;;
       ret (jsonify (JObj [("status", JStr "ok"); ("relay", JInt relay_num);
                           ("state", state)]) 200))
      (fun e =>
         logger ERROR ("Relay control error: " ++ exn_str e) ;;;
         ret (jsonify (JObj [("error", JStr (exn_str e))]) 500)).

(** [POST /api/output/<int:output_num>] *)
Definition control_output (output_num : Z) (request_json : option Json)
  : M Service HttpResponse :=
  s <- get ;;
  if negb (board_connected s) then
    logger WARNING ("API: Output " ++ str_of_Z output_num
                      ++ " control rejected - board not connected") ;;;
    ret not_connected
  else
    data <- json_or_empty request_json ;;
    value <- py_get data "value" (JInt 100) ;;
    try_except
      (logger INFO ("API: Setting output " ++ str_of_Z output_num ++ " to "
                      ++ py_str env value ++ "%") ;;;
       with_board "output" (Link.output env output_num value) ;;;
       ret (jsonify (JObj [("status", JStr "ok"); ("output", JInt output_num);
                           ("value", value)]) 200))
      (fun e =>
         logger ERROR ("Output control error: " ++ exn_str e) ;;;
         ret (jsonify (JObj [("error", JStr (exn_str e))]) 500)).

(** [POST /api/reset] *)
Definition reset : M Service HttpResponse :=
  s <- get ;;
  if negb (board_connected s) then
    logger WARNING "API: Reset rejected - board not connected" ;;;
    ret not_connected
  else
    try_except
      (logger INFO "API: Resetting all outputs" ;;;
       with_board "reset" (Link.reset env) ;;;
       ret (jsonify (JObj [("status", JStr "ok")]) 200))
      (fun e =>
         logger ERROR ("Reset error: " ++ exn_str e) ;;;
         ret (jsonify (JObj [("error", JStr (exn_str e))]) 500)).

(** [connect_board]: only [ConnectionError] is caught; any other exception
    leaves the method. *)
Definition connect_board : M Service bool :=
  try_catch
    (logger INFO "Connecting to board..." ;;;
     s <- get ;;
     b <- lift (Link.new_board env (serial_port (config s))
                  (serial_baudrate (config s))) ;;
     modify (set_board (Some b)) ;;;
     modify (set_board_connected true) ;;;
     v <- with_board "version" (Link.version env) ;;
     logger INFO ("Connected to board on "
                    ++ match Link.port b with Some p => p | None => "None" end
                    ++ ", firmware: " ++ v) ;;;
     ret true)
    (fun e =>
       match e with
       | ConnectionError msg =>
           Some (logger ERROR ("Board connection failed: " ++ msg) ;;;
                 modify (set_board_connected false) ;;;
                 ret false)
       | _ => None
       end).

(** [disconnect_board] *)
Definition disconnect_board : M Service unit :=
  s <- get ;;
  match board s with
  | Some _ =>
      try_except
        (logger INFO "Disconnecting from board..." ;;;
         with_board "disconnect" Link.disconnect ;;;
         logger INFO "Board disconnected")
        (fun e => logger WARNING ("Error during board disconnect: " ++ exn_str e)) ;;;
      modify (set_board None)
  | None => ret tt
  end ;;;
  modify (set_board_connected false).

(** [publish_status] *)
Definition publish_status (st : Json) : M Service unit :=
  s <- get ;;
  match mqtt_connected s, mqtt_client s with
  | true, Some c =>
      let topic := mqtt_topic_prefix (config s) ++ "/status" in
      let payload := json_dumps env st in
      match mqtt_publish env topic payload with
      | Ok _ =>
          modify (set_mqtt_client
                    (Some {| credentials := credentials c;
                             subscriptions := subscriptions c;
                             published := (published c ++ [(topic, payload)])%list;
                             loop_running := loop_running c |}))
      | Raise e => logger ERROR ("MQTT publish error: " ++ exn_str e)
      end
  | _, _ => logger DEBUG "MQTT not connected, skipping publish"
  end.

(** [setup_mqtt] *)
Definition setup_mqtt : M Service unit :=
  s <- get ;;
  let cfg := config s in
  let c := {| credentials :=
                if negb (String.eqb (mqtt_username cfg) EmptyString)
                then Some (mqtt_username cfg, mqtt_password cfg) else None;
              subscriptions := [];
              published := [];
              loop_running := false |} in
  modify (set_mqtt_client (Some c)) ;;;
  logger INFO ("Connecting to MQTT broker " ++ mqtt_broker cfg ++ ":"
                 ++ str_of_Z (mqtt_port cfg)) ;;;
  match mqtt_connect env with
  | Ok _ =>
      modify (set_mqtt_client
                (Some {| credentials := credentials c;
                         subscriptions := subscriptions c;
                         published := published c;
                         loop_running := true |}))
  | Raise e =>
      logger ERROR ("MQTT setup failed: " ++ exn_str e) ;;;
      modify (set_mqtt_connected false)
  end.

(** [client.subscribe(topic)] on the service's client. *)
Definition subscribe (topic : string) (s : Service) : Service :=
  match mqtt_client s with
  | Some c =>
      set_mqtt_client
        (Some {| credentials := credentials c;
                 subscriptions := (subscriptions c ++ [topic])%list;
                 published := published c;
                 loop_running := loop_running c |}) s
  | None => s
  end.

(** [on_mqtt_connect] *)
Definition on_mqtt_connect (rc : Z) : M Service unit :=
  if Z.eqb rc 0 then
    logger INFO "Connected to MQTT broker" ;;;
    modify (set_mqtt_connected true) ;;;
    s <- get ;;
    let topic_prefix := mqtt_topic_prefix (config s) in
    modify (subscribe (topic_prefix ++ "/relay/+")) ;;;
    modify (subscribe (topic_prefix ++ "/output/+")) ;;;
    modify (subscribe (topic_prefix ++ "/command")) ;;;
    logger INFO ("Subscribed to " ++ topic_prefix ++ "/*")
  else
    logger ERROR ("MQTT connection failed with code " ++ str_of_Z rc) ;;;
    modify (set_mqtt_connected false).

(** [on_mqtt_disconnect] *)
Definition on_mqtt_disconnect (rc : Z) : M Service unit :=
  logger WARNING ("Disconnected from MQTT broker (rc=" ++ str_of_Z rc ++ ")") ;;;
  modify (set_mqtt_connected false).

(** The value an output message commands, lines 379-384 of
    [on_mqtt_message]. *)
Definition output_payload_value (payload : string) : M Service Z :=
  if String.eqb payload "ON" || String.eqb payload "TRUE" then ret 100%Z
  else if String.eqb payload "OFF" || String.eqb payload "FALSE" then ret 0%Z
  else match Py.int payload with
       | Some z => ret z
       | None => raise (ValueError (int_error env payload))
       end.

(** [int(topic.split("/")[-1])] *)
Definition topic_index (topic : string) : M Service Z :=
  match Py.int (last_segment topic) with
  | Some z => ret z
  | None => raise (ValueError (int_error env (last_segment topic)))
  end.

(** An inbound message: the topic, and [msg.payload.decode()], which is
    [None] when the bytes are not UTF-8. *)
Record MqttMessage : Type := { topic : string; payload : option string }.

(** The [try] block of [on_mqtt_message]. *)
Definition on_mqtt_message_body (msg : MqttMessage) : M Service unit :=
  let topic := topic msg in
  raw <- match payload msg with
         | Some t => ret t
         | None => raise (UnicodeDecodeError "'utf-8' codec can't decode byte")
         end ;;
  let payload := upper (strip raw) in
  s <- get ;;
  let topic_prefix := mqtt_topic_prefix (config s) in
  logger DEBUG ("MQTT: " ++ topic ++ " = " ++ payload) ;;;
  if negb (board_connected s) then
    logger WARNING "Received MQTT command but board not connected"
  else if startswith topic (topic_prefix ++ "/relay/") then
    relay_num <- topic_index topic ;;
    let state := String.eqb payload "ON" || String.eqb payload "1"
                 || String.eqb payload "TRUE" in
    with_board "relay" (Link.relay env relay_num (JBool state)) ;;;
    logger INFO ("MQTT: Set relay " ++ str_of_Z relay_num ++ " to "
                   ++ py_str env (JBool state))
  else if startswith topic (topic_prefix ++ "/output/") then
    output_num <- topic_index topic ;;
    value <- output_payload_value payload ;;
    with_board "output" (Link.output env output_num (JInt value)) ;;;
    logger INFO ("MQTT: Set output " ++ str_of_Z output_num ++ " to "
                   ++ str_of_Z value)
  else if String.eqb topic (topic_prefix ++ "/command") then
    if String.eqb payload "RESET" then
      with_board "reset" (Link.reset env) ;;;
      logger INFO "MQTT: Reset command executed"
    else if String.eqb payload "STATUS" then
      st <- with_board "status" (Link.status env) ;;
      publish_status st ;;;
      logger INFO "MQTT: Status command executed"
    else ret tt
  else ret tt.

(** [on_mqtt_message] *)
Definition on_mqtt_message (msg : MqttMessage) : M Service unit :=
  try_except (on_mqtt_message_body msg)
    (fun e => logger ERROR ("Error handling MQTT message: " ++ exn_str e)).

(** The [try] block of the worker loop, lines 284-292. *)
Definition poll : M Service unit :=
  st <- with_board "status" (Link.status env) ;;
  modify (set_last_status st) ;;;
  inputs <- py_get st "inputs" (JArr []) ;;
  relays <- py_get st "relays" (JArr []) ;;
  logger DEBUG ("Board status: inputs=" ++ py_str env inputs ++ ", relays="
                  ++ py_str env relays) ;;;
  s <- get ;;
  if mqtt_connected s then
    publish_status st ;;;
    logger DEBUG "Status published to MQTT"
  else ret tt.

(** The [except] block of the worker loop, lines 294-300. *)
Definition poll_failed (e : exn) : M Service unit :=
  logger ERROR ("Board communication error: " ++ exn_str e) ;;;
  modify (fun s => set_error_count (error_count s + 1) s) ;;;
  s <- get ;;
  logger WARNING ("Total errors: " ++ str_of_Z (error_count s)
                    ++ ", disconnecting board...") ;;;
  disconnect_board.

(** Lines 283-303: poll, and on any exception count it and disconnect. *)
Definition poll_phase : M Service unit :=
  try_except poll poll_failed.

(** One turn of the [while self.running] loop of [board_worker].  A raised
    exception is one that leaves [board_worker] and ends the thread. *)
Definition board_worker_iter : M Service unit :=
  s <- get ;;
  if negb (board_connected s) then
    logger DEBUG "Board not connected, attempting connection..." ;;;
    connected <- connect_board ;;
    if (connected : bool) then
      s1 <- get ;;
      (if negb (mqtt_connected s1) then
         logger DEBUG "Board connected, setting up MQTT..." ;;;
         setup_mqtt
       else ret tt) ;;;
      poll_phase
    else
      logger DEBUG ("Connection failed, retrying in "
                      ++ str_of_Z (serial_reconnect_interval (config s)) ++ "s")
  else poll_phase.

(** ["=" * 60] *)
Definition banner : string :=
  "============================================================".

(** [stop], up to the wait for the worker thread. *)
Definition stop : M Service unit :=
  logger INFO banner ;;;
  logger INFO "Stopping Automation Service" ;;;
  logger INFO banner ;;;
  modify (set_running false) ;;;
  s <- get ;;
  match mqtt_client s with
  | Some c =>
      logger INFO "Stopping MQTT client..." ;;;
      modify (set_mqtt_client
                (Some {| credentials := credentials c;
                         subscriptions := subscriptions c;
                         published := published c;
                         loop_running := false |})) ;;;
      logger INFO "MQTT client stopped"
  | None => ret tt
  end ;;;
  disconnect_board.

(** [board_worker]: the loop runs while [self.running] holds; [turns]
    bounds the turns looked at. *)
Fixpoint board_worker (turns : nat) : M Service unit :=
  match turns with
  | O => ret tt
  | S n =>
      s <- get ;;
      if running s then board_worker_iter ;;; board_worker n else ret tt
  end.

(** [start], up to the launch of the worker thread and of Flask. *)
Definition start : M Service unit :=
  logger INFO banner ;;;
  logger INFO "Starting Automation 2040 W Host Service" ;;;
  logger INFO banner ;;;
  s <- get ;;
  logger INFO ("Serial port: "
                 ++ match serial_port (config s) with
                    | Some p => if String.eqb p EmptyString then "auto-detect" else p
                    | None => "auto-detect"
                    end) ;;;
  logger INFO ("MQTT broker: " ++ mqtt_broker (config s) ++ ":"
                 ++ str_of_Z (mqtt_port (config s))) ;;;
  logger INFO ("HTTP server: " ++ http_host (config s) ++ ":"
                 ++ str_of_Z (http_port (config s))) ;;;
  logger INFO banner ;;;
  modify (set_running true) ;;;
  logger INFO "Starting board worker thread...".

End WithEnv.

(** The entry points of the service: the Flask routes, the MQTT callbacks,
    a turn of the worker loop, the start and the shutdown. *)
Inductive Op : Type :=
| GetHealth
| GetStatus
| PostRelay (relay_num : Z) (request_json : option Json)
| PostOutput (output_num : Z) (request_json : option Json)
| PostReset
| WorkerTurn
| MqttConnected (rc : Z)
| MqttDisconnected (rc : Z)
| MqttMessageIn (msg : MqttMessage)
| Start
| Stop.

(** The service after an entry point has run, against the world as it is
    at that moment. *)
Definition run_op (env : Env) (op : Op) (s : Service) : Service :=
  match op with
  | GetHealth => snd (health s)
  | GetStatus => snd (status s)
  | PostRelay n j => snd (control_relay env n j s)
  | PostOutput n j => snd (control_output env n j s)
  | PostReset => snd (reset env s)
  | WorkerTurn => snd (board_worker_iter env s)
  | MqttConnected rc => snd (on_mqtt_connect rc s)
  | MqttDisconnected rc => snd (on_mqtt_disconnect rc s)
  | MqttMessageIn msg => snd (on_mqtt_message env msg s)
  | Start => snd (start s)
  | Stop => snd (stop s)
  end.

(** A history of the process: entry points in the order they ran, each
    with the world it met. *)
Fixpoint run (ops : list (Env * Op)) (s : Service) : Service :=
  match ops with
  | [] => s
  | (env, op) :: r => run r (run_op env op s)
  end.

End Service.

(* ===================================================================== *)
(** ** The callers of the link as threads *)
(* ===================================================================== *)

(** The worker thread, the MQTT network thread and the Flask request
    threads all call [_send_command] on the one [Automation2040W] object,
    and the method takes no lock.  A caller is a thread that issues its
    commands one after another; a step of a caller is one call into
    [pyserial]: the [write] of a command line, or one [readline] of the
    read loop.  The scheduler may run any caller at any step. *)
Module Threads.
Import Py World.

Inductive Phase : Type :=
| Idle
| Reading (cmd : string) (lines : list string).

Record Caller : Type := {
  todo : list string;
  phase : Phase;
  results : list (string * Res string)
}.

Record System : Type := {
  port : Link.Serial;
  callers : list Caller
}.

Definition returned (c : Caller) (cmd : string) (r : Res string) (rest : list string)
  : Caller :=
  {| todo := rest; phase := Idle; results := (results c ++ [(cmd, r)])%list |}.

Definition reading (c : Caller) (cmd : string) (lines : list string) : Caller :=
  {| todo := todo c; phase := Reading cmd lines; results := results c |}.

Definition take_line (ser : Link.Serial) (rest : list string) : Link.Serial :=
  {| Link.is_open := Link.is_open ser; Link.written := Link.written ser;
     Link.pending := rest |}.

Section WithEnv.
Variable env : Env.

(** One [pyserial] call of a caller inside [_send_command]. *)
Definition step_caller (ser : Link.Serial) (c : Caller) : Link.Serial * Caller :=
  match phase c with
  | Idle =>
      match todo c with
      | [] => (ser, c)
      | cmd :: rest =>
          if negb (Link.is_open ser)
          then (ser, returned c cmd (Raise (CommandError "Not connected to board")) rest)
          else
            match respond env cmd with
            | Raise e => (ser, returned c cmd (Raise e) rest)
            | Ok answer =>
                ({| Link.is_open := true;
                    Link.written := (Link.written ser ++ [(cmd ++ nl)%string])%list;
                    Link.pending := (Link.pending ser ++ answer)%list |},
                 {| todo := rest; phase := Reading cmd []; results := results c |})
            end
      end
  | Reading cmd lines =>
      match Link.pending ser with
      | [] => (ser, returned c cmd (Link.decode_response lines) (todo c))
      | raw :: rest =>
          let line := strip raw in
          if String.eqb line EmptyString
          then (take_line ser rest, returned c cmd (Link.decode_response lines) (todo c))
          else if startswith line "#"
          then (take_line ser rest, reading c cmd lines)
          else if Link.is_terminator line
          then (take_line ser rest,
                returned c cmd (Link.decode_response (lines ++ [line])%list) (todo c))
          else (take_line ser rest, reading c cmd (lines ++ [line])%list)
      end
  end.

Fixpoint replace_nth {A} (i : nat) (x : A) (l : list A) : list A :=
  match l, i with
  | [], _ => []
  | _ :: r, O => x :: r
  | a :: r, S i' => a :: replace_nth i' x r
  end.

(** The scheduler runs caller [i] for one step. *)
Definition step (i : nat) (sys : System) : System :=
  match nth_error (callers sys) i with
  | None => sys
  | Some c =>
      let '(ser', c') := step_caller (port sys) c in
      {| port := ser'; callers := replace_nth i c' (callers sys) |}
  end.

(** A schedule: which caller runs at each step. *)
Fixpoint run (schedule : list nat) (sys : System) : System :=
  match schedule with
  | [] => sys
  | i :: r => run r (step i sys)
  end.

End WithEnv.

(** A command is in flight from the write of its line until its caller
    leaves the read loop. *)
Definition is_reading (c : Caller) : bool :=
  match phase c with Reading _ _ => true | Idle => false end.

Definition in_flight (sys : System) : nat :=
  List.length (filter is_reading (callers sys)).

Definition caller (cmds : list string) : Caller :=
  {| todo := cmds; phase := Idle; results := [] |}.

End Threads.

(* ===================================================================== *)
(** ** A concrete world: the firmware on a standard board *)
(* ===================================================================== *)

Module Demo.
Import Py World.

Definition dq : string := String (ascii_of_nat 34) EmptyString.
Definition q (s : string) : string := dq ++ s ++ dq.

(** The line [cmd_status] prints on a board at rest. *)
Definition status_line : string :=
  "{" ++ q "relays" ++ ": [false, false, false], "
      ++ q "outputs" ++ ": [0.0, 0.0, 0.0], "
      ++ q "inputs" ++ ": [false, false, false, false], "
      ++ q "adcs" ++ ": [0.0, 0.0, 0.0], "
      ++ q "buttons" ++ ": {" ++ q "a" ++ ": false, " ++ q "b" ++ ": false}}".

Definition status_value : Json :=
  JObj [ ("relays", JArr [JBool false; JBool false; JBool false]);
         ("outputs", JArr [JFloat 0; JFloat 0; JFloat 0]);
         ("inputs", JArr [JBool false; JBool false; JBool false; JBool false]);
         ("adcs", JArr [JFloat 0; JFloat 0; JFloat 0]);
         ("buttons", JObj [("a", JBool false); ("b", JBool false)]) ].

(** What [parse_command] of the firmware answers to the command lines used
    below, on a standard board (3 relays, 3 outputs, 4 inputs, 3 ADCs). *)
Definition firmware (cmd : string) : Res (list string) :=
  if String.eqb cmd "PING" then Ok ["OK PONG"]
  else if String.eqb cmd "VERSION" then Ok ["OK 1.0.0"]
  else if String.eqb cmd "HELP" then Ok (Firmware.cmd_help 3 3 4 3)
  else if String.eqb cmd "STATUS" then Ok [status_line]
  else if String.eqb cmd "RESET" then Ok ["OK"]
  else if String.eqb cmd "RELAY 1 ON" then Ok ["OK"]
  else if String.eqb cmd "RELAY 1 OFF" then Ok ["OK"]
  else if String.eqb cmd "OUTPUT 1 100" then Ok ["OK"]
  else if String.eqb cmd "OUTPUT 1 150" then Ok ["OK"]
  else if String.eqb cmd "OUTPUT 3 75" then Ok ["OK"]
  else if String.eqb cmd "RELAY 9 ON" then Ok ["ERR Relay index out of range (1-3)"]
  else Ok ["ERR Unknown command: " ++ cmd].

Definition loads (s : string) : option Json :=
  if String.eqb s status_line then Some status_value
  else if String.eqb s "{}" then Some (JObj [])
  else None.

Definition repr (v : Json) : string :=
  match v with
  | JStr s => "'" ++ s ++ "'"
  | JFloat _ => "0.0"
  | JArr [] => "[]"
  | _ => "[False, False, False]"
  end.

(** A board on [/dev/ttyACM0] that runs the firmware. *)
Definition env : Env := {|
  comports := [ {| vid := Some Link.PICO_VID; device := "/dev/ttyACM0" |} ];
  open_error := fun _ => None;
  respond := firmware;
  json_loads := loads;
  json_dumps := fun _ => status_line;
  py_repr := repr;
  mqtt_connect := Ok tt;
  mqtt_publish := fun _ _ => Ok tt
|}.

(** The same port with a device that has stopped answering. *)
Definition silent : Env := {|
  comports := comports env;
  open_error := open_error env;
  respond := fun _ => Ok [];
  json_loads := loads;
  json_dumps := json_dumps env;
  py_repr := repr;
  mqtt_connect := Ok tt;
  mqtt_publish := fun _ _ => Ok tt
|}.

(** The service once started and before the worker has run. *)
Definition started : Service.Service :=
  snd (Service.start (Service.init Service.DEFAULT_CONFIG)).

(** The service after [connect_board] has found the board. *)
Definition connected : Service.Service :=
  snd (Service.connect_board env started).

Definition open_port : Link.Serial :=
  {| Link.is_open := true; Link.written := []; Link.pending := [] |}.

Definition fresh_board : Link.Board :=
  {| Link.port := Some "/dev/ttyACM0"; Link.baudrate := 115200;
     Link.serial := Some open_port; Link._version := Some "1.0.0" |}.

(** No serial port is listed. *)
Definition unplugged : Env := {|
  comports := [];
  open_error := open_error env;
  respond := firmware;
  json_loads := loads;
  json_dumps := json_dumps env;
  py_repr := repr;
  mqtt_connect := Ok tt;
  mqtt_publish := fun _ _ => Ok tt
|}.

(** The port is listed but another program holds it. *)
Definition busy : Env := {|
  comports := comports env;
  open_error := fun _ => Some "[Errno 16] Device or resource busy";
  respond := firmware;
  json_loads := loads;
  json_dumps := json_dumps env;
  py_repr := repr;
  mqtt_connect := Ok tt;
  mqtt_publish := fun _ _ => Ok tt
|}.

(** The port belongs to a device that answers every line with [OK HELLO]. *)
Definition stranger : Env := {|
  comports := comports env;
  open_error := open_error env;
  respond := fun _ => Ok ["OK HELLO"];
  json_loads := loads;
  json_dumps := json_dumps env;
  py_repr := repr;
  mqtt_connect := Ok tt;
  mqtt_publish := fun _ _ => Ok tt
|}.

(** The connected service once the MQTT client is set up and the broker
    has accepted the connection. *)
Definition bridged : Service.Service :=
  snd (Service.on_mqtt_connect 0 (snd (Service.setup_mqtt env connected))).

(** A standard board as far as the examples need it: the hardware state
    is the list of relay states, which the driver reads back as they were
    set; outputs, inputs and ADCs are at rest. *)
Definition set_nth (i : Z) (v : bool) (l : list bool) : list bool :=
  firstn (Z.to_nat i) l ++ v :: skipn (S (Z.to_nat i)) l.

Definition bench : Controller.Driver (list bool) unit := {|
  Controller.NUM_RELAYS := 3;
  Controller.NUM_OUTPUTS := 3;
  Controller.NUM_INPUTS := 4;
  Controller.NUM_ADCS := 3;
  Controller.relay_get :=
    fun a h => nth (Z.to_nat (match a with Some i => i | None => 0%Z end)) h false;
  Controller.relay_set :=
    fun a st h => set_nth (match a with Some i => i | None => 0%Z end) st h;
  Controller.output_get := fun _ _ => tt;
  Controller.output_set := fun _ _ h => h;
  Controller.read_input := fun _ _ => false;
  Controller.read_adc := fun _ _ => tt;
  Controller.switch_led := fun _ _ h => h;
  Controller.switch_pressed := fun _ _ => false;
  Controller.board_reset := fun h => map (fun _ => false) h;
  Controller.mp_int := Py.int;
  Controller.int_error := fun s => "invalid syntax for integer with base 10";
  Controller.level_of := fun s => option_map (fun _ => tt) (Py.int s);
  Controller.float_error := fun s => "invalid syntax for number";
  Controller.level_one := tt;
  Controller.level_zero := tt;
  Controller.percent_text := fun _ => "0";
  Controller.volts_text := fun _ => "0.000";
  Controller.status_text := fun _ _ _ _ _ _ => status_line
|}.

Definition at_rest : list bool := [false; false; false].

(** The port of a board that already holds some unread lines. *)
Definition board_holding (lines : list string) : Link.Board :=
  Link.set_serial
    (Some {| Link.is_open := true; Link.written := []; Link.pending := lines |})
    fresh_board.

End Demo.

(** What the service has written to the serial port so far. *)
Definition wire (s : Service.Service) : list string :=
  match Service.board s with
  | Some b => match Link.serial b with
              | Some ser => Link.written ser
              | None => []
              end
  | None => []
  end.

(* ===================================================================== *)
(** ** Vocabulary of the statements *)
(* ===================================================================== *)

(** A line that the read loop skips. *)
Definition is_comment (line : string) : bool := Py.startswith line "#".

(** The lines, stripped, that [readline] delivers before the first empty
    one, which is how a timeout and a closed stream show. *)
Fixpoint seen_before_timeout (pend : list string) : list string :=
  match pend with
  | [] => []
  | raw :: rest =>
      if String.eqb (Py.strip raw) EmptyString then []
      else Py.strip raw :: seen_before_timeout rest
  end.

(** No terminating line is seen before the read times out. *)
Definition unterminated (pend : list string) : bool :=
  forallb (fun l => negb (Link.is_terminator l)) (seen_before_timeout pend).

(** The lines other than comments seen before the read times out. *)
Definition accumulated (pend : list string) : list string :=
  filter (fun l => negb (is_comment l)) (seen_before_timeout pend).

(** The board object of the service is there and its port is open. *)
Definition link_up (s : Service.Service) : Prop :=
  exists b ser, Service.board s = Some b /\ Link.serial b = Some ser
                /\ Link.is_open ser = true.



(** A call leaves an observation of the service as it found it. *)
Definition keeps {T A : Type} (obs : Service.Service -> T)
           (m : Py.M Service.Service A) : Prop :=
  forall s, obs (snd (m s)) = obs s.

(** What tells whether the process and its channels are alive: the run
    flag, the two connection flags, the error count, whether there is a
    board object, and the subscriptions and network loop of the MQTT
    client. *)
Definition channels (s : Service.Service)
  : bool * bool * bool * Z * bool * option (list string * bool) :=
  (Service.running s, Service.board_connected s, Service.mqtt_connected s,
   Service.error_count s,
   match Service.board s with Some _ => true | None => false end,
   option_map (fun c => (Service.subscriptions c, Service.loop_running c))
              (Service.mqtt_client s)).

(** The command lines of the two writes, as they go on the wire. *)
Definition relay_line (n : Z) (on : bool) : string :=
  ("RELAY " ++ Py.str_of_Z n ++ " " ++ (if on then "ON" else "OFF")) ++ Py.nl.

Definition output_line (n v : Z) : string :=
  ("OUTPUT " ++ Py.str_of_Z n ++ " " ++ Py.str_of_Z v) ++ Py.nl.

(** The port of a board object is there and open. *)
Definition port_open (b : Link.Board) : Prop :=
  exists ser, Link.serial b = Some ser /\ Link.is_open ser = true.

(** The value a write request carries for a field: the field of the JSON
    object in the body, or the default when the object has no such field
    or the body is a JSON value that is false in Python.  A request
    without a JSON body carries nothing, and neither does a body that is
    true in Python and no object. *)
Definition body_field (key : string) (default : Py.Json)
           (request_json : option Py.Json) : option Py.Json :=
  match request_json with
  | Some j =>
      match Service.or_empty j with
      | Py.JObj d => Some (Py.dict_get key d default)
      | _ => None
      end
  | None => None
  end.

(** The request has a JSON body that does not give the field: a JSON
    object without it, or a JSON value that is false in Python ([null],
    [false], [0], the empty string, [[]], [{}]). *)
Definition lacks_field (key : string) (request_json : option Py.Json) : Prop :=
  exists j, request_json = Some j /\
            (Py.truthy j = false \/
             exists d, j = Py.JObj d /\ Py.dict_has key d = false).

(** The percent an output payload stands for: [ON] and [TRUE] are 100,
    [OFF] and [FALSE] are 0, anything else is the integer it spells, as
    it is. *)
Definition payload_percent (p : string) (v : Z) : Prop :=
  ((p = "ON" \/ p = "TRUE") /\ v = 100%Z) \/
  ((p = "OFF" \/ p = "FALSE") /\ v = 0%Z) \/
  (p <> "ON" /\ p <> "TRUE" /\ p <> "OFF" /\ p <> "FALSE" /\ Py.int p = Some v).

(** [min(100, max(0, v))] *)
Definition clamp_percent (v : Z) : Z := Z.min 100 (Z.max 0 v).

(** The port [connect] goes for: the configured one, or the first that
    [find_ports] lists. *)
Definition chosen_port (env : World.Env) (configured : option string)
  : option string :=
  match configured with
  | Some p => Some p
  | None => hd_error (Link.find_ports (World.comports env))
  end.

(** The port as [connect] leaves it after a handshake that went well. *)
Definition greeted (ser : Link.Serial) : Prop :=
  Link.is_open ser = true /\
  Link.written ser = [("PING" ++ Py.nl)%string; ("VERSION" ++ Py.nl)%string].

(** A handler that hands [send_response] an [OK] or an [ERR] line
    whenever it returns. *)
Definition answers_ok_or_err {S : Type} (m : Py.M S string) : Prop :=
  forall h, match m h with
            | (Py.Ok l, _) =>
                Py.startswith l "OK" = true \/ Py.startswith l "ERR" = true
            | (Py.Raise _, _) => True
            end.

(** A handler that leaves the hardware alone whenever it raises or hands
    [send_response] an [ERR] line. *)
Definition refusal_keeps {S : Type} (m : Py.M S string) : Prop :=
  forall h, match m h with
            | (Py.Ok l, h') => Py.startswith l "ERR" = true -> h' = h
            | (Py.Raise _, h') => h' = h
            end.

(** A character that a command word of the host library is made of:
    no white space, no lower-case letter, no question mark. *)
Definition token_char (c : ascii) : bool :=
  negb (Py.is_space c) && Ascii.eqb (Py.upper_ascii c) c
  && negb (Ascii.eqb c "?"%char).

Fixpoint token (s : string) : bool :=
  match s with
  | EmptyString => true
  | String c r => token_char c && token r
  end.

(** A string without a line end in it. *)
Fixpoint one_line (s : string) : bool :=
  match s with
  | EmptyString => true
  | String c r =>
      negb (Ascii.eqb c (ascii_of_nat 10) || Ascii.eqb c (ascii_of_nat 13))
      && one_line r
  end.

(** The controller between two lines: the hardware in state [h], nothing
    in the buffer. *)
Definition idle {H : Type} (h : H) : Controller.State H :=
  {| Controller.board := h; Controller.running := true;
     Controller.buffer := EmptyString |}.

(** What the firmware prints when the characters of [cmd] and a line feed
    arrive, as [_send_command] writes them. *)
Definition answer {H F : Type} (drv : Controller.Driver H F) (cmd : string)
           (h : H) : list string :=
  fst (Controller.feed drv (cmd ++ Py.nl) (idle h)).

(** The hardware after that. *)
Definition after {H F : Type} (drv : Controller.Driver H F) (cmd : string)
           (h : H) : H :=
  Controller.board (snd (Controller.feed drv (cmd ++ Py.nl) (idle h))).

(** The world of the host when the device on the port is the firmware
    with the hardware in state [h]. *)
Definition device {H F : Type} (env : World.Env) (drv : Controller.Driver H F)
           (h : H) : World.Env :=
  {| World.comports := World.comports env;
     World.open_error := World.open_error env;
     World.respond := fun cmd => Py.Ok (answer drv cmd h);
     World.json_loads := World.json_loads env;
     World.json_dumps := World.json_dumps env;
     World.py_repr := World.py_repr env;
     World.mqtt_connect := World.mqtt_connect env;
     World.mqtt_publish := World.mqtt_publish env |}.

(** A command line that asks and sets nothing: a blank line or a comment,
    [RELAY] and [OUTPUT] with a question mark after the index, and every
    command other than [LED] and [RESET]. *)
Definition is_query (line : string) : bool :=
  let line := Py.strip line in
  if String.eqb line EmptyString || Py.startswith line "#" then true
  else
    match Controller.words (Py.upper line) with
    | [] => true
    | cmd :: args =>
        if String.eqb cmd "RELAY" || String.eqb cmd "OUTPUT" then
          match args with
          | [] => true
          | a0 :: _ => Controller.endswith_q a0
          end
        else negb (String.eqb cmd "LED" || String.eqb cmd "RESET")
    end.

(** The commands of one caller, sent one after another with
    [_send_command]: each command with what it returned, and the board
    object at the end. *)
Fixpoint send_all (env : World.Env) (cmds : list string) (b : Link.Board)
  : list (string * Py.Res string) * Link.Board :=
  match cmds with
  | [] => ([], b)
  | cmd :: rest =>
      let r := Link._send_command env cmd b in
      let rs := send_all env rest (snd r) in
      ((cmd, fst r) :: fst rs, snd rs)
  end.

(** The port with a single caller on it. *)
Definition lone (ser : Link.Serial) (c : Threads.Caller) : Threads.System :=
  {| Threads.port := ser; Threads.callers := [c] |}.

(** The caller that has returned from all its commands. *)
Definition finished (rs : list (string * Py.Res string)) : Threads.Caller :=
  {| Threads.todo := []; Threads.phase := Threads.Idle; Threads.results := rs |}.

(* ===================================================================== *)
(** ** The string operations on sample inputs *)
(* ===================================================================== *)

Example strip_ex : Py.strip "  ok pong  " = "ok pong".
Proof. reflexivity. Qed.

Example upper_ex : Py.upper "on" = "ON".
Proof. reflexivity. Qed.

Example last_segment_ex : Py.last_segment "automation/output/3" = "3".
Proof. reflexivity. Qed.

Example int_ex1 : Py.int "75" = Some 75%Z.
Proof. reflexivity. Qed.

Example int_ex2 : Py.int "-5" = Some (-5)%Z.
Proof. reflexivity. Qed.

Example int_ex3 : Py.int "1_50" = Some 150%Z.
Proof. reflexivity. Qed.

Example int_ex4 : Py.int "ABC" = None.
Proof. reflexivity. Qed.

Example int_ex5 : Py.int EmptyString = None.
Proof. reflexivity. Qed.

(** [int] takes the blank and TAB..CR around a number, not FS..US, which
    [str.strip] takes; and no more than 4300 digits. *)
Example int_ex6 : Py.int (String (ascii_of_nat 9) "12 ") = Some 12%Z.
Proof. reflexivity. Qed.

Example int_ex7 :
  Py.strip (String (ascii_of_nat 28) "2") = "2"
  /\ Py.int (String (ascii_of_nat 28) "2") = None.
Proof. split; reflexivity. Qed.

Example int_ex8 :
  Py.int_parse (string_of_list_ascii (repeat "7"%char 4301)) = Py.IntTooLong 4301
  /\ Py.int (string_of_list_ascii (repeat "7"%char 4300)) <> None.
Proof. split; [vm_compute; reflexivity | vm_compute; discriminate]. Qed.

Example str_ex1 : Py.str_of_Z 150 = "150".
Proof. reflexivity. Qed.

Example str_ex2 : Py.str_of_Z (-5) = "-5".
Proof. reflexivity. Qed.

Example str_ex3 : Py.str_of_Z 0 = "0".
Proof. reflexivity. Qed.

Example startswith_ex : Py.startswith "OK Commands:" "OK" = true.
Proof. reflexivity. Qed.

Example banner_len : String.length Service.banner = 60.
Proof. reflexivity. Qed.

(* ===================================================================== *)
(** ** The read loop and the decoding of a response *)
(* ===================================================================== *)

Section ReadLoop.
Import Py World.

Lemma startswith_app_false (pre l y : string) :
  startswith l pre = false ->
  (forall pre', pre = (l ++ pre')%string -> startswith y pre' = false) ->
  startswith (l ++ y) pre = false.
Proof.
  revert l. induction pre as [|a pre IH]; intros l Hl Hy.
  - destruct l; discriminate.
  - destruct l as [|b l]; simpl.
    + apply Hy. reflexivity.
    + simpl in Hl. destruct (Ascii.eqb a b) eqn:E; simpl in *; [|reflexivity].
      apply IH; [exact Hl|]. intros pre' ->.
      apply Hy. apply Ascii.eqb_eq in E. subst. reflexivity.
Qed.

(** A first line that is neither empty nor starts with [OK] keeps the
    joined response from starting with [OK]; the same for [ERR]. *)
Lemma join_not_OK (l : string) (ls : list string) :
  l <> EmptyString -> startswith l "OK" = false ->
  startswith (join_lines (l :: ls)) "OK" = false.
Proof.
  intros Hne Hl. unfold join_lines. destruct ls as [|l2 ls]; [exact Hl|].
  cbn [String.concat]. apply startswith_app_false; [exact Hl|].
  intros pre' E.
  destruct l as [|a [|b [|c l]]]; try congruence; cbn in E;
    try discriminate E; injection E; intros; subst;
    first [reflexivity | discriminate Hl].
Qed.

Lemma join_not_ERR (l : string) (ls : list string) :
  l <> EmptyString -> startswith l "ERR" = false ->
  startswith (join_lines (l :: ls)) "ERR" = false.
Proof.
  intros Hne Hl. unfold join_lines. destruct ls as [|l2 ls]; [exact Hl|].
  cbn [String.concat]. apply startswith_app_false; [exact Hl|].
  intros pre' E.
  destruct l as [|a [|b [|c [|d l]]]]; try congruence; cbn in E;
    try discriminate E; injection E; intros; subst;
    first [reflexivity | discriminate Hl].
Qed.

Lemma is_terminator_false (l : string) :
  Link.is_terminator l = false ->
  startswith l "OK" = false /\ startswith l "ERR" = false.
Proof.
  unfold Link.is_terminator. intros H.
  apply orb_false_iff in H as [H _]. apply orb_false_iff in H. exact H.
Qed.

Lemma seen_nonempty (pend : list string) :
  Forall (fun l => l <> EmptyString) (seen_before_timeout pend).
Proof.
  induction pend as [|raw rest IH]; simpl; [constructor|].
  destruct (String.eqb_spec (strip raw) EmptyString); [constructor|].
  constructor; assumption.
Qed.

(** Without a terminating line the loop returns the lines other than
    comments that came before the timeout. *)
Lemma read_response_unterminated (pend acc : list string) :
  unterminated pend = true ->
  fst (Link.read_response pend acc) = (acc ++ accumulated pend)%list.
Proof.
  unfold unterminated, accumulated. revert acc.
  induction pend as [|raw rest IH]; intros acc H; simpl in *.
  - now rewrite app_nil_r.
  - destruct (String.eqb (strip raw) EmptyString) eqn:E; simpl in *.
    + now rewrite app_nil_r.
    + apply andb_true_iff in H as [Ht Hrest]. apply negb_true_iff in Ht.
      unfold is_comment at 1.
      destruct (startswith (strip raw) "#") eqn:Ec; simpl.
      * apply IH, Hrest.
      * rewrite Ht. rewrite IH by exact Hrest. now rewrite <- app_assoc.
Qed.

(** With a terminating line and no empty line before it, the loop stops
    there: it returns the lines other than comments up to and including
    that line and leaves what follows unread. *)
Lemma read_response_terminated (pre : list string) (t : string)
      (post acc : list string) :
  seen_before_timeout pre = map strip pre ->
  forallb (fun l => negb (Link.is_terminator l)) (map strip pre) = true ->
  Link.is_terminator (strip t) = true ->
  Link.read_response (pre ++ t :: post) acc =
    ((acc ++ filter (fun l => negb (is_comment l)) (map strip pre) ++ [strip t])%list,
     post).
Proof.
  revert acc. induction pre as [|raw pre IH]; intros acc Hseen Hpre Ht; simpl in *.
  - assert (Hne : String.eqb (strip t) EmptyString = false).
    { destruct (strip t); [discriminate Ht | reflexivity]. }
    assert (Hc : startswith (strip t) "#" = false).
    { destruct (strip t) as [|a r]; [discriminate|]. cbn [startswith].
      destruct (Ascii.eqb_spec "#"%char a) as [<-|]; [discriminate Ht | reflexivity]. }
    rewrite Hne, Hc, Ht. reflexivity.
  - destruct (String.eqb (strip raw) EmptyString) eqn:E; [discriminate Hseen|].
    injection Hseen as Hseen.
    apply andb_true_iff in Hpre as [Hr Hpre]. apply negb_true_iff in Hr.
    unfold is_comment at 1.
    destruct (startswith (strip raw) "#") eqn:Ec; simpl.
    + apply IH; assumption.
    + rewrite Hr. rewrite IH by assumption. now rewrite <- app_assoc.
Qed.

(** What [_send_command] does to the port when the write goes through:
    the command line is on the wire whatever the answer. *)
Lemma send_command_wire (env : Env) (cmd : string) (b : Link.Board)
      (ser : Link.Serial) (answer : list string) :
  Link.serial b = Some ser -> Link.is_open ser = true ->
  respond env cmd = Ok answer ->
  Link._send_command env cmd b =
    (Link.decode_response (fst (Link.read_response (Link.pending ser ++ answer) [])),
     Link.set_serial
       (Some {| Link.is_open := true;
                Link.written := Link.written ser ++ [(cmd ++ nl)%string];
                Link.pending := snd (Link.read_response (Link.pending ser ++ answer) []) |})
       b).
Proof.
  intros Hs Ho Hr. unfold Link._send_command. rewrite Hs, Ho, Hr. simpl.
  destruct (Link.read_response (Link.pending ser ++ answer) []). reflexivity.
Qed.

End ReadLoop.

Section Decoding.
Import Py World.

(** C4, counterexample.  The device has sent thirteen lines, none of which
    starts with [OK], [ERR] or a brace, and then stays silent: the read
    times out without a terminating line, and [_send_command] returns the
    thirteen lines as the response instead of raising. *)
Lemma unterminated_lines_returned :
  let lines := tl (Firmware.cmd_help 3 3 4 3) in
  respond Demo.silent "PING" = Ok [] /\
  unterminated (lines ++ []) = true /\
  fst (Link._send_command Demo.silent "PING" (Demo.board_holding lines))
    = Ok (join_lines lines).
Proof. vm_compute. repeat split. Qed.

(** C4, as the code has it.  When the read times out before any
    terminating line is seen, [_send_command] raises
    [CommandError "No response from board"] if no line other than comments
    has come, and otherwise returns the lines read so far, joined by
    newlines, as the response. *)
Theorem send_command_unterminated (env : Env) (cmd : string) (b : Link.Board)
        (ser : Link.Serial) (answer : list string) :
  Link.serial b = Some ser -> Link.is_open ser = true ->
  respond env cmd = Ok answer ->
  unterminated (Link.pending ser ++ answer) = true ->
  fst (Link._send_command env cmd b) =
    match accumulated (Link.pending ser ++ answer) with
    | [] => Raise (CommandError "No response from board")
    | lines => Ok (join_lines lines)
    end.
Proof.
  intros Hs Ho Hr Hu.
  rewrite (send_command_wire env cmd b ser answer Hs Ho Hr). cbn [fst].
  rewrite (read_response_unterminated _ [] Hu). cbn [app].
  assert (Hne : Forall (fun l => l <> EmptyString) (accumulated (Link.pending ser ++ answer))).
  { unfold accumulated. apply Forall_forall. intros l Hl.
    apply filter_In in Hl as [Hl _].
    exact (proj1 (Forall_forall _ _) (seen_nonempty _) l Hl). }
  assert (Hnt : Forall (fun l => Link.is_terminator l = false)
                  (accumulated (Link.pending ser ++ answer))).
  { unfold accumulated. apply Forall_forall. intros l Hl.
    apply filter_In in Hl as [Hl _].
    unfold unterminated in Hu. rewrite forallb_forall in Hu.
    apply negb_true_iff. exact (Hu l Hl). }
  destruct (accumulated (Link.pending ser ++ answer)) as [|l ls]; [reflexivity|].
  inversion Hne as [|? ? Hl _]; subst. inversion Hnt as [|? ? Ht _]; subst.
  apply is_terminator_false in Ht as [Hok Herr].
  unfold Link.decode_response.
  rewrite (join_not_ERR l ls Hl Herr), (join_not_OK l ls Hl Hok). reflexivity.
Qed.

Lemma send_command_unterminated_witness :
  fst (Link._send_command Demo.silent "PING"
         (Demo.board_holding (tl (Firmware.cmd_help 3 3 4 3)))) =
    match accumulated (tl (Firmware.cmd_help 3 3 4 3) ++ []) with
    | [] => Raise (CommandError "No response from board")
    | lines => Ok (join_lines lines)
    end.
Proof.
  apply (send_command_unterminated Demo.silent "PING"
           (Demo.board_holding (tl (Firmware.cmd_help 3 3 4 3)))
           {| Link.is_open := true; Link.written := [];
              Link.pending := tl (Firmware.cmd_help 3 3 4 3) |} []);
    reflexivity.
Defined.

(** C5, at the failing input.  The firmware's help listing starts with
    the line [OK Commands:].  [_send_command "HELP"] stops at that first
    line, returns [Commands:] alone, and leaves the thirteen lines of the
    listing unread on the port. *)
Theorem help_listing_cut_short :
  respond Demo.env "HELP" = Ok (Firmware.cmd_help 3 3 4 3) /\
  Link._send_command Demo.env "HELP" Demo.fresh_board =
    (Ok "Commands:",
     Link.set_serial
       (Some {| Link.is_open := true;
                Link.written := [("HELP" ++ nl)%string];
                Link.pending := tl (Firmware.cmd_help 3 3 4 3) |})
       Demo.fresh_board) /\
  List.length (tl (Firmware.cmd_help 3 3 4 3)) = 13.
Proof. vm_compute. repeat split. Qed.

(** The unread listing then comes back as the answer to the next command:
    a [PING] returns the thirteen lines and the [OK PONG] line together. *)
Lemma help_listing_leaks_into_next :
  let b := snd (Link._send_command Demo.env "HELP" Demo.fresh_board) in
  fst (Link._send_command Demo.env "PING" b) =
    Ok (join_lines (tl (Firmware.cmd_help 3 3 4 3) ++ ["OK PONG"])).
Proof. vm_compute. reflexivity. Qed.

End Decoding.

(* ===================================================================== *)
(** ** What a call leaves untouched *)
(* ===================================================================== *)

Lemma bind_get {S A} (k : S -> Py.M S A) (s : S) :
  Py.bind Py.get k s = k s s.
Proof. reflexivity. Qed.

Section Keeps.
Import Py World Service.
Context {T : Type} (obs : Service -> T).

Lemma keeps_ret {A} (a : A) : keeps obs (ret a).
Proof. intros s. reflexivity. Qed.

Lemma keeps_raise {A} (e : exn) : keeps obs (@raise Service A e).
Proof. intros s. reflexivity. Qed.

Lemma keeps_lift {A} (r : Res A) : keeps obs (lift r).
Proof. intros s. reflexivity. Qed.

Lemma keeps_get : keeps obs get.
Proof. intros s. reflexivity. Qed.

Lemma keeps_bind {A B} (m : M Service A) (k : A -> M Service B) :
  keeps obs m -> (forall a, keeps obs (k a)) -> keeps obs (bind m k).
Proof.
  intros Hm Hk s. unfold bind. specialize (Hm s).
  destruct (m s) as [[a|e] s']; cbn [snd] in *.
  - rewrite (Hk a s'). exact Hm.
  - exact Hm.
Qed.

Lemma keeps_try_except {A} (m : M Service A) (h : exn -> M Service A) :
  keeps obs m -> (forall e, keeps obs (h e)) -> keeps obs (try_except m h).
Proof.
  intros Hm Hh s. unfold try_except. specialize (Hm s).
  destruct (m s) as [[a|e] s']; cbn [snd] in *.
  - exact Hm.
  - rewrite (Hh e s'). exact Hm.
Qed.

Lemma keeps_try_catch {A} (m : M Service A) (h : exn -> option (M Service A)) :
  keeps obs m -> (forall e k, h e = Some k -> keeps obs k) ->
  keeps obs (try_catch m h).
Proof.
  intros Hm Hh s. unfold try_catch. specialize (Hm s).
  destruct (m s) as [[a|e] s']; cbn [snd] in *.
  - exact Hm.
  - destruct (h e) as [k|] eqn:E; cbn [snd].
    + rewrite (Hh e k E s'). exact Hm.
    + exact Hm.
Qed.

Lemma keeps_modify (f : Service -> Service) :
  (forall s, obs (f s) = obs s) -> keeps obs (modify f).
Proof. intros H s. apply H. Qed.

Lemma keeps_logger (l : Level) (msg : string) :
  (forall l msg s, obs (add_log l msg s) = obs s) -> keeps obs (logger l msg).
Proof. intros H s. apply H. Qed.

Lemma keeps_with_board {A} (method : string) (m : M Link.Board A) :
  (forall b b' s, board s = Some b -> obs (set_board (Some b') s) = obs s) ->
  keeps obs (with_board method m).
Proof.
  intros H s. unfold with_board. destruct (board s) as [b|] eqn:E; [|reflexivity].
  destruct (m b) as [r b']. cbn [snd]. exact (H b b' s E).
Qed.

Lemma keeps_py_get (v : Json) (key : string) (d : Json) :
  keeps obs (@py_get Service v key d).
Proof. intros s. destruct v; reflexivity. Qed.

Lemma keeps_json_or_empty (request_json : option Json) :
  keeps obs (@json_or_empty Service request_json).
Proof. intros s. destruct request_json; reflexivity. Qed.

End Keeps.

(** Runs through a method body built from the combinators. *)
Ltac keeps_step :=
  lazymatch goal with
  | |- keeps _ (Py.bind _ _) => apply keeps_bind; [|intros ?]
  | |- keeps _ (Py.try_except _ _) => apply keeps_try_except; [|intros ?]
  | |- keeps _ (Py.ret _) => apply keeps_ret
  | |- keeps _ (Py.raise _) => apply keeps_raise
  | |- keeps _ (Py.lift _) => apply keeps_lift
  | |- keeps _ Py.get => apply keeps_get
  | |- keeps _ (Service.py_get _ _ _) => apply keeps_py_get
  | |- keeps _ (Service.json_or_empty _) => apply keeps_json_or_empty
  | |- keeps _ (Service.logger _ _) => apply keeps_logger; intros; reflexivity
  | |- keeps _ (Py.modify _) => apply keeps_modify; intros; reflexivity
  | |- keeps _ (Service.with_board _ _) =>
      apply keeps_with_board;
      let H := fresh in
      intros ? ? ? H; try unfold channels; cbn; rewrite ?H; reflexivity
  | |- keeps _ (if ?c then _ else _) => destruct c
  | |- keeps _ (match ?x with _ => _ end) => destruct x
  end.

Ltac keeps_auto := repeat keeps_step.

Section Counting.
Import Py World Service.
Variable env : Env.

Lemma health_count : keeps error_count health.
Proof. unfold health. keeps_auto. Qed.

Lemma status_count : keeps error_count status.
Proof. unfold status. keeps_auto. Qed.

Lemma control_relay_count n j : keeps error_count (control_relay env n j).
Proof. unfold control_relay. keeps_auto. Qed.

Lemma control_output_count n j : keeps error_count (control_output env n j).
Proof. unfold control_output. keeps_auto. Qed.

Lemma reset_count : keeps error_count (reset env).
Proof. unfold reset. keeps_auto. Qed.

Lemma connect_board_count : keeps error_count (connect_board env).
Proof.
  unfold connect_board. apply keeps_try_catch.
  - keeps_auto.
  - intros e k H. destruct e; try discriminate H.
    injection H as <-. keeps_auto.
Qed.

Lemma disconnect_board_count : keeps error_count disconnect_board.
Proof. unfold disconnect_board. keeps_auto. Qed.

Lemma publish_status_count st : keeps error_count (publish_status env st).
Proof. unfold publish_status. keeps_auto. Qed.

Lemma setup_mqtt_count : keeps error_count (setup_mqtt env).
Proof. unfold setup_mqtt. keeps_auto. Qed.

Lemma on_mqtt_connect_count rc : keeps error_count (on_mqtt_connect rc).
Proof.
  unfold on_mqtt_connect. destruct (rc =? 0)%Z; keeps_auto;
    apply keeps_modify; intros s; unfold subscribe;
    destruct (mqtt_client s); reflexivity.
Qed.

Lemma on_mqtt_disconnect_count rc : keeps error_count (on_mqtt_disconnect rc).
Proof. unfold on_mqtt_disconnect. keeps_auto. Qed.

End Counting.

(* ===================================================================== *)
(** ** The MQTT message handler *)
(* ===================================================================== *)

Section Messages.
Import Py World Service.
Variable env : Env.

Lemma publish_status_channels st : keeps channels (publish_status env st).
Proof.
  intros s. unfold publish_status, bind, get, modify, logger.
  destruct (mqtt_connected s) eqn:Ec; [|reflexivity].
  destruct (mqtt_client s) as [c|] eqn:Em; [|reflexivity].
  destruct (mqtt_publish env _ _); cbn [snd]; [|reflexivity].
  unfold channels. cbn. rewrite Ec, Em. reflexivity.
Qed.

Lemma on_mqtt_message_body_channels msg :
  keeps channels (on_mqtt_message_body env msg).
Proof.
  unfold on_mqtt_message_body, topic_index, output_payload_value.
  repeat first [ keeps_step | apply publish_status_channels ].
Qed.

Lemma on_mqtt_message_channels msg : keeps channels (on_mqtt_message env msg).
Proof.
  unfold on_mqtt_message. apply keeps_try_except.
  - apply on_mqtt_message_body_channels.
  - intros e. keeps_auto.
Qed.

Lemma on_mqtt_message_count msg : keeps error_count (on_mqtt_message env msg).
Proof.
  intros s. pose proof (on_mqtt_message_channels msg s) as H.
  unfold channels in H. congruence.
Qed.


End Messages.

(** A payload that is not a number is logged and nothing goes to the
    board; an index the board does not have is sent, refused by the
    firmware, and the refusal is logged. *)
Example bad_payload_dropped :
  let s' := snd (Service.on_mqtt_message Demo.env
                   {| Service.topic := "automation/output/1";
                      Service.payload := Some "fast" |} Demo.connected) in
  wire s' = wire Demo.connected /\
  last (Service.log s') (Service.DEBUG, EmptyString) =
    (Service.ERROR,
     "Error handling MQTT message: invalid literal for int() with base 10: 'FAST'").
Proof. vm_compute. split; reflexivity. Qed.

Example bad_index_refused :
  let s' := snd (Service.on_mqtt_message Demo.env
                   {| Service.topic := "automation/relay/9";
                      Service.payload := Some "on" |} Demo.connected) in
  wire s' = (wire Demo.connected ++ [relay_line 9 true])%list /\
  last (Service.log s') (Service.DEBUG, EmptyString) =
    (Service.ERROR,
     "Error handling MQTT message: Relay index out of range (1-3)").
Proof. vm_compute. split; reflexivity. Qed.

(* ===================================================================== *)
(** ** The worker loop and the error count *)
(* ===================================================================== *)

Section Worker.
Import Py World Service.
Variable env : Env.

Lemma poll_count : keeps error_count (poll env).
Proof.
  unfold poll. repeat first [ keeps_step | apply publish_status_count ].
Qed.

Lemma stop_count : keeps error_count stop.
Proof.
  unfold stop. repeat first [ keeps_step | apply disconnect_board_count ].
Qed.

Lemma start_count : keeps error_count start.
Proof. unfold start. keeps_auto. Qed.

(** After [disconnect_board] there is no board object and the flag is
    down. *)
Lemma disconnect_board_post s :
  let s' := snd (disconnect_board s) in
  board_connected s' = false /\ board s' = None.
Proof.
  unfold disconnect_board, bind, get, try_except, logger, modify, with_board.
  cbn. destruct (board s) as [b|] eqn:E; cbn; [|auto].
  rewrite E. destruct (Link.disconnect b) as [[[]|e] b']; cbn; auto.
Qed.

(** The [except] block adds one to the count and disconnects. *)
Lemma poll_failed_post e s :
  let s' := snd (poll_failed e s) in
  error_count s' = (error_count s + 1)%Z /\
  board_connected s' = false /\ board s' = None.
Proof.
  unfold poll_failed.
  generalize disconnect_board_post, (disconnect_board_count : keeps _ _).
  generalize disconnect_board as db. intros db Hpost Hcount.
  unfold bind, logger, modify, get. cbn.
  match goal with
  | |- context [db ?x] =>
      specialize (Hpost x); specialize (Hcount x); destruct (db x) as [r s'']
  end.
  cbn in *. destruct Hpost as [Hd1 Hd2]. repeat split; assumption.
Qed.

(** The count after the poll: one more when the poll raised, the same
    when it did not. *)
Lemma poll_phase_count s :
  error_count (snd (poll_phase env s)) =
    (error_count s + (if is_ok (fst (poll env s)) then 0 else 1))%Z.
Proof.
  unfold poll_phase, try_except. pose proof (poll_count s) as Hp.
  destruct (poll env s) as [[[]|e] s1]; cbn [fst snd is_ok] in *.
  - lia.
  - destruct (poll_failed_post e s1) as [H _]. rewrite H, Hp. reflexivity.
Qed.

Lemma poll_phase_le s : (error_count s <= error_count (snd (poll_phase env s)))%Z.
Proof. rewrite poll_phase_count. destruct (is_ok _); lia. Qed.

(** A turn of the worker loop never lowers the count. *)
Lemma board_worker_iter_le s :
  (error_count s <= error_count (snd (board_worker_iter env s)))%Z.
Proof.
  unfold board_worker_iter, bind, get.
  destruct (negb (board_connected s)); [|apply poll_phase_le].
  unfold logger at 1, modify. cbn [snd].
  pose proof (connect_board_count env (add_log DEBUG
      "Board not connected, attempting connection..." s)) as Hc.
  cbn [error_count add_log] in Hc.
  destruct (connect_board env _) as [[[|]|e] s1]; cbn [snd] in *.
  - destruct (negb (mqtt_connected s1)).
    + unfold logger at 1, modify.
      pose proof (setup_mqtt_count env (add_log DEBUG
          "Board connected, setting up MQTT..." s1)) as Hm.
      cbn [error_count add_log] in Hm.
      destruct (setup_mqtt env _) as [[[]|e] s2]; cbn [snd] in *.
      * pose proof (poll_phase_le s2). lia.
      * lia.
    + cbn. pose proof (poll_phase_le s1). lia.
  - unfold logger, modify. cbn. lia.
  - lia.
Qed.

(** Nor does the loop, for any number of turns. *)
Lemma board_worker_le turns : forall s,
  (error_count s <= error_count (snd (board_worker env turns s)))%Z.
Proof.
  induction turns as [|n IH]; intros s; cbn [board_worker].
  - cbn. lia.
  - rewrite bind_get. destruct (running s); [|cbn; lia].
    unfold bind. pose proof (board_worker_iter_le s) as H.
    destruct (board_worker_iter env s) as [[[]|e] s1]; cbn [snd] in *.
    + pose proof (IH s1). lia.
    + exact H.
Qed.

End Worker.

Lemma run_op_le (env : World.Env) (op : Service.Op) (s : Service.Service) :
  (Service.error_count s <= Service.error_count (Service.run_op env op s))%Z.
Proof.
  destruct op; cbn [Service.run_op];
    try (apply board_worker_iter_le);
    match goal with
    | |- (_ <= Service.error_count (snd (?m s)))%Z =>
        assert (H : keeps Service.error_count m)
          by first [ apply health_count | apply status_count
                   | apply control_relay_count | apply control_output_count
                   | apply reset_count | apply on_mqtt_connect_count
                   | apply on_mqtt_disconnect_count | apply on_mqtt_message_count
                   | apply start_count | apply stop_count ];
        rewrite (H s); lia
    end.
Qed.

Lemma run_le (ops : list (World.Env * Service.Op)) (s : Service.Service) :
  (Service.error_count s <= Service.error_count (Service.run ops s))%Z.
Proof.
  revert s. induction ops as [|[env op] ops IH]; intros s; cbn [Service.run].
  - lia.
  - pose proof (run_op_le env op s). pose proof (IH (Service.run_op env op s)). lia.
Qed.

(** C9.  The error count starts at 0; no history of entry points of the
    service, in whatever world each of them runs, ends with a count below
    the one it started from; a poll that raises adds exactly one, in the
    poll step and so in the turn of the worker loop of a connected
    service; and [GET /api/health] answers 200 with the current count in
    its [error_count] field. *)
Theorem error_count_monotonic :
  (forall cfg, Service.error_count (Service.init cfg) = 0%Z) /\
  (forall ops s,
      (Service.error_count s <= Service.error_count (Service.run ops s))%Z) /\
  (forall env s e s1,
      Service.poll env s = (Py.Raise e, s1) ->
      Service.error_count (snd (Service.poll_phase env s))
        = (Service.error_count s + 1)%Z) /\
  (forall env s e s1,
      Service.board_connected s = true ->
      Service.poll env s = (Py.Raise e, s1) ->
      Service.error_count (snd (Service.board_worker_iter env s))
        = (Service.error_count s + 1)%Z) /\
  (forall s, exists d,
      fst (Service.health s) = Py.Ok (Service.jsonify (Py.JObj d) 200) /\
      Py.dict_get "error_count" d Py.JNull = Py.JInt (Service.error_count s)).
Proof.
  split; [reflexivity|].
  split; [intros; apply run_le|].
  split.
  { intros env s e s1 H. rewrite poll_phase_count, H. reflexivity. }
  split.
  { intros env s e s1 Hc H.
    unfold Service.board_worker_iter, Py.bind, Py.get. rewrite Hc. cbn [negb].
    rewrite poll_phase_count, H. reflexivity. }
  intros s. eexists. split; reflexivity.
Qed.

Lemma error_count_monotonic_witness :
  Service.error_count (snd (Service.board_worker_iter Demo.silent Demo.connected))
    = (Service.error_count Demo.connected + 1)%Z.
Proof.
  refine (proj1 (proj2 (proj2 (proj2 error_count_monotonic)))
            Demo.silent Demo.connected
            (Py.CommandError "No response from board") _ _ _);
    vm_compute; reflexivity.
Defined.

(* ===================================================================== *)
(** ** Connecting and disconnecting *)
(* ===================================================================== *)

Section Connecting.
Import Py World Service.
Variable env : Env.

Lemma send_command_open cmd b :
  port_open b -> port_open (snd (Link._send_command env cmd b)).
Proof.
  intros [ser [Hs Ho]]. unfold Link._send_command. rewrite Hs, Ho. cbn [negb].
  destruct (respond env cmd) as [answer|e]; cbn [snd].
  - destruct (Link.read_response _ _). cbn. eexists. split; reflexivity.
  - exists ser. auto.
Qed.

Lemma version_open b : port_open b -> port_open (snd (Link.version env b)).
Proof.
  intros H. unfold Link.version. destruct (Link._version b); [exact H|].
  pose proof (send_command_open "VERSION" b H) as H'.
  destruct (Link._send_command env "VERSION" b) as [[v|e] b']; exact H'.
Qed.

Lemma connect_handshake_open b :
  port_open b -> port_open (snd (Link.connect_handshake env b)).
Proof.
  intros H. unfold Link.connect_handshake, bind.
  pose proof (send_command_open "PING" b H) as H1.
  destruct (Link._send_command env "PING" b) as [[r|e] b1]; cbn [snd] in *;
    [|exact H1].
  destruct (negb (r =? "PONG")%string); [exact H1|].
  pose proof (send_command_open "VERSION" b1 H1) as H2.
  destruct (Link._send_command env "VERSION" b1) as [[v|e] b2]; cbn [snd] in *;
    exact H2.
Qed.

(** A board object that the constructor returns holds an open port. *)
Lemma new_board_open p baud b :
  Link.new_board env p baud = Ok b -> port_open b.
Proof.
  unfold Link.new_board, Link.connect. cbn [Link.port].
  set (b0 := {| Link.port := p; Link.baudrate := baud; Link.serial := None;
                Link._version := None |}).
  destruct (match p with Some p0 => Ok p0 | None => _ end) as [p1|e];
    [|discriminate].
  destruct (open_error env p1); [discriminate|].
  match goal with
  | |- context [Link.connect_handshake env ?x] =>
      assert (H0 : port_open x) by (eexists; split; reflexivity);
      pose proof (connect_handshake_open x H0) as H1;
      destruct (Link.connect_handshake env x) as [[[]|e] b1]
  end; cbn [snd] in *.
  - intros [= <-]. exact H1.
  - destruct e; discriminate.
Qed.

(** What [connect_board] leaves when it returns [True]. *)
Lemma connect_board_true s s' :
  connect_board env s = (Ok true, s') ->
  board_connected s' = true /\ link_up s' /\ error_count s' = error_count s.
Proof.
  intros H. pose proof (connect_board_count env s) as Hc. rewrite H in Hc.
  cbn [snd] in Hc. revert H.
  unfold connect_board, try_catch, bind, logger, modify, get, lift. cbn.
  destruct (Link.new_board env _ _) as [b|e] eqn:En; cbn.
  - apply new_board_open in En.
    pose proof (version_open b En) as Hv.
    unfold with_board. cbn.
    destruct (Link.version env b) as [[v|e] b'] eqn:Ev; cbn in *.
    + intros [= <-]. cbn. repeat split; auto.
      destruct Hv as [ser [Hs Ho]]. exists b', ser. auto.
    + destruct e; cbn; discriminate.
  - destruct e; cbn; discriminate.
Qed.

End Connecting.

(** C7.  While the board is disconnected, [POST /api/relay/<n>] answers
    503 with the body [{"error": "Board not connected"}], whatever the
    index and the request body; the cached status, the answer of
    [GET /api/status] and the serial port are as before: the request only
    adds a warning to the log. *)
Theorem control_relay_disconnected (env : World.Env) (relay_num : Z)
        (request_json : option Py.Json) (s : Service.Service) :
  Service.board_connected s = false ->
  let r := Service.control_relay env relay_num request_json s in
  fst r = Py.Ok (Service.jsonify
                   (Py.JObj [("error", Py.JStr "Board not connected")]) 503) /\
  Service.last_status (snd r) = Service.last_status s /\
  fst (Service.status (snd r)) = fst (Service.status s) /\
  Service.board (snd r) = Service.board s /\
  snd r = Service.add_log Service.WARNING
            ("API: Relay " ++ Py.str_of_Z relay_num
               ++ " control rejected - board not connected") s.
Proof.
  intros H. unfold Service.control_relay, Py.bind, Py.get. rewrite H.
  cbn. unfold Service.status, Py.bind, Py.get. cbn. rewrite H.
  repeat split.
Qed.

Lemma control_relay_disconnected_witness :
  fst (Service.control_relay Demo.env 1
         (Some (Py.JObj [("state", Py.JBool false)])) Demo.started)
    = Py.Ok (Service.jsonify
               (Py.JObj [("error", Py.JStr "Board not connected")]) 503)
  /\ Service.last_status
       (snd (Service.control_relay Demo.env 1
               (Some (Py.JObj [("state", Py.JBool false)])) Demo.started))
     = Service.last_status Demo.started.
Proof.
  pose proof (control_relay_disconnected Demo.env 1
                (Some (Py.JObj [("state", Py.JBool false)])) Demo.started
                eq_refl) as H.
  split; [exact (proj1 H) | exact (proj1 (proj2 H))].
Defined.

(** C2, counterexample.  The service is connected and has counted no
    error; the device stops answering; the first poll that fails already
    takes the board away: the flag is down and the board object is gone
    after that one turn of the loop. *)
Lemma one_failed_poll_disconnects :
  Service.board_connected Demo.connected = true /\
  Service.error_count Demo.connected = 0%Z /\
  let s' := snd (Service.board_worker_iter Demo.silent Demo.connected) in
  Service.error_count s' = 1%Z /\
  Service.board_connected s' = false /\
  Service.board s' = None.
Proof. vm_compute. repeat split. Qed.

(** C2, as the code has it.  While the board is connected, every poll
    that fails makes that same turn of the loop disconnect the board:
    the flag goes down, the board object is dropped and the error count
    goes up by one.  A [connect_board] that then returns [True] puts the
    flag up again over an open port; it leaves the error count as it is. *)
Theorem poll_failure_disconnects (env : World.Env) :
  (forall s e s1,
      Service.board_connected s = true ->
      Service.poll env s = (Py.Raise e, s1) ->
      let s' := snd (Service.board_worker_iter env s) in
      Service.board_connected s' = false /\ Service.board s' = None /\
      Service.error_count s' = (Service.error_count s + 1)%Z) /\
  (forall s s',
      Service.connect_board env s = (Py.Ok true, s') ->
      Service.board_connected s' = true /\ link_up s' /\
      Service.error_count s' = Service.error_count s).
Proof.
  split.
  - intros s e s1 Hc Hp.
    unfold Service.board_worker_iter, Py.bind, Py.get. rewrite Hc. cbn [negb].
    unfold Service.poll_phase, Py.try_except. rewrite Hp.
    destruct (poll_failed_post e s1) as [H1 [H2 H3]].
    pose proof (poll_count env s) as Hk. rewrite Hp in Hk. cbn [snd] in Hk.
    cbv zeta. rewrite H1, Hk. auto.
  - intros s s' H. exact (connect_board_true env s s' H).
Qed.

Lemma poll_failure_disconnects_witness :
  Service.board_connected
    (snd (Service.board_worker_iter Demo.silent Demo.connected)) = false /\
  Service.board_connected
    (snd (Service.connect_board Demo.env
            (snd (Service.board_worker_iter Demo.silent Demo.connected)))) = true.
Proof.
  split.
  - refine (proj1 (proj1 (poll_failure_disconnects Demo.silent)
                     Demo.connected (Py.CommandError "No response from board")
                     _ _ _)); vm_compute; reflexivity.
  - refine (proj1 (proj2 (poll_failure_disconnects Demo.env)
                     (snd (Service.board_worker_iter Demo.silent Demo.connected))
                     _ _)).
    vm_compute. reflexivity.
Defined.

(* ===================================================================== *)
(** ** What the write handlers put on the wire *)
(* ===================================================================== *)

Section Writes.
Import Py World Service.
Variable env : Env.

Lemma dict_get_default key d default :
  dict_has key d = false -> dict_get key d default = default.
Proof.
  induction d as [|[k v] d IH]; cbn; [reflexivity|].
  destruct (String.eqb k key); cbn; [discriminate | exact IH].
Qed.

Lemma lacks_field_default key default rj :
  lacks_field key rj -> body_field key default rj = Some default.
Proof.
  intros (j & -> & [Hf | (d & -> & H)]); unfold body_field, or_empty.
  - rewrite Hf. reflexivity.
  - destruct (truthy (JObj d)); [|reflexivity].
    now rewrite (dict_get_default key d default H).
Qed.

(** A request that carries a value for the field gets past the two lines
    that read the body. *)
Lemma body_field_read {A} key default rj v (k : Json -> M Service A) s :
  body_field key default rj = Some v ->
  bind (json_or_empty rj) (fun data => bind (py_get data key default) k) s = k v s.
Proof.
  unfold body_field. destruct rj as [j|]; [|discriminate].
  destruct (or_empty j) eqn:E; try discriminate. intros [= <-].
  unfold json_or_empty, bind at 1, ret at 1. rewrite E. reflexivity.
Qed.

(** A request without a JSON body leaves the handler at [get_json]. *)
Lemma no_body_aborts {A} key default (k : Json -> M Service A) s :
  exists msg,
    bind (json_or_empty None) (fun data => bind (py_get data key default) k) s
    = (Raise (UnsupportedMediaType msg), s).
Proof. eexists. reflexivity. Qed.

Lemma relay_asks n b :
  snd (Link.relay env n JNull b) =
  snd (Link._send_command env ("RELAY " ++ str_of_Z n ++ "?") b).
Proof.
  unfold Link.relay, bind.
  destruct (Link._send_command env _ b) as [[r|e] b']; reflexivity.
Qed.

Lemma relay_sends n st b :
  st <> JNull ->
  snd (Link.relay env n st b) =
  snd (Link._send_command env
         ("RELAY " ++ str_of_Z n ++ " " ++ (if truthy st then "ON" else "OFF")) b).
Proof.
  intros H. destruct st; try congruence; unfold Link.relay, bind;
    destruct (Link._send_command env _ b) as [[r|e] b']; reflexivity.
Qed.

Lemma output_sends n v b :
  snd (Link.output env n (JInt v) b) =
  snd (Link._send_command env ("OUTPUT " ++ str_of_Z n ++ " " ++ str_of_Z v) b).
Proof.
  unfold Link.output, bind. cbn [py_str].
  destruct (Link._send_command env _ b) as [[r|e] b']; reflexivity.
Qed.

(** A board call that comes down to one [_send_command] puts that command
    line on the wire and leaves the port open. *)
Lemma with_board_wire {A} method (m : M Link.Board A) cmd s answer :
  (forall b, snd (m b) = snd (Link._send_command env cmd b)) ->
  link_up s -> respond env cmd = Ok answer ->
  wire (snd (with_board method m s)) = (wire s ++ [(cmd ++ nl)%string])%list /\
  link_up (snd (with_board method m s)).
Proof.
  intros Hm [b [ser [Hb [Hs Ho]]]] Hr.
  unfold with_board. rewrite Hb. specialize (Hm b).
  rewrite (send_command_wire env cmd b ser answer Hs Ho Hr) in Hm. cbn [snd] in Hm.
  destruct (m b) as [r b']. cbn [snd] in *. subst b'.
  unfold wire, link_up. cbn. rewrite Hb, Hs. split; [reflexivity|].
  eexists _, _. repeat split.
Qed.

(** The [try] blocks of the write handlers: a log record, the board call,
    the answer; on an exception a log record and the error answer. *)
Lemma try_block_wire {A B} l1 msg1 method (m : M Link.Board A) (ok : B)
      (h : exn -> string) (err : exn -> B) s :
  wire (snd (try_except
               (bind (logger l1 msg1)
                  (fun _ => bind (with_board method m) (fun _ => ret ok)))
               (fun e => bind (logger ERROR (h e)) (fun _ => ret (err e))) s))
  = wire (snd (with_board method m s)).
Proof.
  unfold try_except, bind, logger, modify, ret, with_board. cbn.
  unfold wire. destruct (board s) as [b|]; cbn; [|reflexivity].
  destruct (m b) as [[a|e] b']; reflexivity.
Qed.

Lemma control_output_wire n rj v s answer :
  board_connected s = true -> link_up s ->
  body_field "value" (JInt 100) rj = Some (JInt v) ->
  respond env ("OUTPUT " ++ str_of_Z n ++ " " ++ str_of_Z v) = Ok answer ->
  wire (snd (control_output env n rj s)) = (wire s ++ [output_line n v])%list.
Proof.
  intros Hc Hl Hf Hr. unfold control_output. rewrite bind_get, Hc. cbn [negb].
  rewrite (body_field_read _ _ _ _ _ _ Hf), try_block_wire.
  exact (proj1 (with_board_wire "output" _ _ s answer (output_sends n v) Hl Hr)).
Qed.

Lemma control_relay_wire n rj st s answer :
  board_connected s = true -> link_up s ->
  body_field "state" (JBool true) rj = Some (JBool st) ->
  respond env ("RELAY " ++ str_of_Z n ++ " " ++ (if st then "ON" else "OFF"))
    = Ok answer ->
  wire (snd (control_relay env n rj s)) = (wire s ++ [relay_line n st])%list.
Proof.
  intros Hc Hl Hf Hr. unfold control_relay. rewrite bind_get, Hc. cbn [negb].
  rewrite (body_field_read _ _ _ _ _ _ Hf), try_block_wire.
  refine (proj1 (with_board_wire "relay" _ _ s answer _ Hl Hr)).
  intros b. apply (relay_sends n (JBool st) b). discriminate.
Qed.

(** [{"state": null}] asks for the relay instead of setting it. *)
Lemma control_relay_null_wire n rj s answer :
  board_connected s = true -> link_up s ->
  body_field "state" (JBool true) rj = Some JNull ->
  respond env ("RELAY " ++ str_of_Z n ++ "?") = Ok answer ->
  wire (snd (control_relay env n rj s))
  = (wire s ++ [(("RELAY " ++ str_of_Z n ++ "?") ++ nl)%string])%list.
Proof.
  intros Hc Hl Hf Hr. unfold control_relay. rewrite bind_get, Hc. cbn [negb].
  rewrite (body_field_read _ _ _ _ _ _ Hf), try_block_wire.
  exact (proj1 (with_board_wire "relay" _ _ s answer (relay_asks n) Hl Hr)).
Qed.

(** Without a JSON body the write handlers stop at [get_json]: the state
    is as it was. *)
Lemma control_relay_no_body n s :
  board_connected s = true ->
  exists msg, control_relay env n None s = (Raise (UnsupportedMediaType msg), s).
Proof.
  intros Hc. unfold control_relay. rewrite bind_get, Hc. cbn [negb].
  apply no_body_aborts.
Qed.

Lemma control_output_no_body n s :
  board_connected s = true ->
  exists msg, control_output env n None s = (Raise (UnsupportedMediaType msg), s).
Proof.
  intros Hc. unfold control_output. rewrite bind_get, Hc. cbn [negb].
  apply no_body_aborts.
Qed.

End Writes.

(** C1, counterexample.  The board is connected and runs the firmware;
    [POST /api/output/1] with the body [{"value": 150}] is answered 200
    and the line [OUTPUT 1 150] has gone to the serial port: 150 is
    outside 0-100 and nothing stopped it. *)
Lemma output_150_reaches_the_wire :
  let rj := Some (Py.JObj [("value", Py.JInt 150)]) in
  let r := Service.control_output Demo.env 1 rj Demo.connected in
  Service.board_connected Demo.connected = true /\
  ~ (0 <= 150 <= 100)%Z /\
  fst r = Py.Ok (Service.jsonify
                   (Py.JObj [("status", Py.JStr "ok"); ("output", Py.JInt 1);
                             ("value", Py.JInt 150)]) 200) /\
  wire (snd r) = (wire Demo.connected ++ [output_line 1 150])%list.
Proof.
  cbv zeta. split; [reflexivity|]. split; [lia|]. vm_compute. split; reflexivity.
Qed.

(** C1, as the code has it.  While the board is connected and its port is
    open, the two write handlers forward what the JSON body of the request
    carries without checking it.  For every index that the route passes
    (its [int] converter passes the non-negative ones) and every body that
    carries an integer for ["value"], in 0-100 or not,
    [POST /api/output/<n>] writes the line [OUTPUT <n> <value>]; for every
    such index and every body that carries a boolean for ["state"],
    [POST /api/relay/<n>] writes [RELAY <n> ON] or [RELAY <n> OFF]; and
    when ["state"] is [null] it writes the query [RELAY <n>?].  Only a
    failing [serial.write] keeps the line off the wire. *)
Theorem writes_forwarded_unchecked (env : World.Env) (n : Z)
        (request_json : option Py.Json) (s : Service.Service) :
  (0 <= n)%Z ->
  Service.board_connected s = true -> link_up s ->
  (forall v answer,
      body_field "value" (Py.JInt 100) request_json = Some (Py.JInt v) ->
      World.respond env ("OUTPUT " ++ Py.str_of_Z n ++ " " ++ Py.str_of_Z v)
        = Py.Ok answer ->
      wire (snd (Service.control_output env n request_json s))
        = (wire s ++ [output_line n v])%list) /\
  (forall st answer,
      body_field "state" (Py.JBool true) request_json = Some (Py.JBool st) ->
      World.respond env ("RELAY " ++ Py.str_of_Z n ++ " "
                           ++ (if st then "ON" else "OFF")) = Py.Ok answer ->
      wire (snd (Service.control_relay env n request_json s))
        = (wire s ++ [relay_line n st])%list) /\
  (forall answer,
      body_field "state" (Py.JBool true) request_json = Some Py.JNull ->
      World.respond env ("RELAY " ++ Py.str_of_Z n ++ "?") = Py.Ok answer ->
      wire (snd (Service.control_relay env n request_json s))
        = (wire s ++ [(("RELAY " ++ Py.str_of_Z n ++ "?") ++ Py.nl)%string])%list).
Proof.
  intros _ Hc Hl. split; [|split].
  - intros v answer Hf Hr. exact (control_output_wire env n _ v s answer Hc Hl Hf Hr).
  - intros st answer Hf Hr. exact (control_relay_wire env n _ st s answer Hc Hl Hf Hr).
  - intros answer Hf Hr. exact (control_relay_null_wire env n _ s answer Hc Hl Hf Hr).
Qed.

Lemma demo_connected_up : link_up Demo.connected.
Proof. eexists _, _. repeat split. Qed.

Lemma writes_forwarded_unchecked_witness :
  wire (snd (Service.control_output Demo.env 1
               (Some (Py.JObj [("value", Py.JInt 150)])) Demo.connected))
    = (wire Demo.connected ++ [output_line 1 150])%list.
Proof.
  refine (proj1 (writes_forwarded_unchecked Demo.env 1
                   (Some (Py.JObj [("value", Py.JInt 150)])) Demo.connected
                   ltac:(lia) eq_refl demo_connected_up) 150%Z ["OK"] _ _);
    reflexivity.
Defined.

(** C10, counterexample.  The board is not connected: [POST /api/relay/1]
    with the empty object [{}] as its body, which has no ["state"] field,
    is answered 503, no board object exists and nothing is commanded. *)
Lemma empty_write_rejected_when_disconnected :
  let r := Service.control_relay Demo.env 1 (Some (Py.JObj [])) Demo.started in
  lacks_field "state" (Some (Py.JObj [])) /\
  fst r = Py.Ok (Service.jsonify
                   (Py.JObj [("error", Py.JStr "Board not connected")]) 503) /\
  Service.board (snd r) = None /\
  wire (snd r) = [].
Proof.
  cbv zeta. split; [exists (Py.JObj []); split; [reflexivity | left; reflexivity]|].
  vm_compute. repeat split.
Qed.

Section Defaults.
Import Py World Service.

Lemma control_relay_default env n rj s :
  lacks_field "state" rj ->
  control_relay env n rj s =
  control_relay env n (Some (JObj [("state", JBool true)])) s.
Proof.
  intros H. apply (lacks_field_default "state" (JBool true)) in H.
  unfold control_relay. rewrite !bind_get.
  destruct (negb (board_connected s)); [reflexivity|].
  rewrite (body_field_read _ _ _ _ _ _ H).
  now rewrite (body_field_read "state" _ (Some (JObj [("state", JBool true)]))
                 (JBool true) _ _ eq_refl).
Qed.

Lemma control_output_default env n rj s :
  lacks_field "value" rj ->
  control_output env n rj s =
  control_output env n (Some (JObj [("value", JInt 100)])) s.
Proof.
  intros H. apply (lacks_field_default "value" (JInt 100)) in H.
  unfold control_output. rewrite !bind_get.
  destruct (negb (board_connected s)); [reflexivity|].
  rewrite (body_field_read _ _ _ _ _ _ H).
  now rewrite (body_field_read "value" _ (Some (JObj [("value", JInt 100)]))
                 (JInt 100) _ _ eq_refl).
Qed.

End Defaults.

(** C10, as the code has it.  While the board is connected and its port
    is open: a [POST /api/relay/<n>] whose JSON body is an object without
    a ["state"] field, or a JSON value that is false in Python ([null],
    [{}] and the like), is handled exactly as one with [{"state": true}],
    and the line [RELAY <n> ON] goes to the board; a
    [POST /api/output/<n>] whose JSON body is an object without a
    ["value"] field, or such a false value, is handled exactly as one with
    [{"value": 100}], and the line [OUTPUT <n> 100] goes to the board.  A
    request without a JSON body takes no default: [get_json] aborts it,
    the exception leaves the handler, and nothing is logged or sent. *)
Theorem empty_write_uses_defaults (env : World.Env) (n : Z)
        (request_json : option Py.Json) (s : Service.Service) :
  Service.board_connected s = true -> link_up s ->
  (lacks_field "state" request_json ->
     Service.control_relay env n request_json s =
       Service.control_relay env n
         (Some (Py.JObj [("state", Py.JBool true)])) s /\
     forall answer,
       World.respond env ("RELAY " ++ Py.str_of_Z n ++ " " ++ "ON") = Py.Ok answer ->
       wire (snd (Service.control_relay env n request_json s))
         = (wire s ++ [relay_line n true])%list) /\
  (lacks_field "value" request_json ->
     Service.control_output env n request_json s =
       Service.control_output env n
         (Some (Py.JObj [("value", Py.JInt 100)])) s /\
     forall answer,
       World.respond env ("OUTPUT " ++ Py.str_of_Z n ++ " " ++ Py.str_of_Z 100)
         = Py.Ok answer ->
       wire (snd (Service.control_output env n request_json s))
         = (wire s ++ [output_line n 100])%list) /\
  (request_json = None ->
     (exists msg, Service.control_relay env n request_json s
                  = (Py.Raise (Py.UnsupportedMediaType msg), s)) /\
     (exists msg, Service.control_output env n request_json s
                  = (Py.Raise (Py.UnsupportedMediaType msg), s))).
Proof.
  intros Hc Hl. split; [|split]; intros H.
  - split; [apply control_relay_default, H|]. intros answer Hr.
    apply (control_relay_wire env n request_json true s answer Hc Hl); [|exact Hr].
    apply lacks_field_default, H.
  - split; [apply control_output_default, H|]. intros answer Hr.
    apply (control_output_wire env n request_json 100 s answer Hc Hl); [|exact Hr].
    apply lacks_field_default, H.
  - subst request_json.
    split; [apply control_relay_no_body | apply control_output_no_body]; exact Hc.
Qed.

Lemma empty_write_uses_defaults_witness :
  wire (snd (Service.control_relay Demo.env 1 (Some Py.JNull) Demo.connected))
    = (wire Demo.connected ++ [relay_line 1 true])%list /\
  wire (snd (Service.control_output Demo.env 1 (Some (Py.JObj [])) Demo.connected))
    = (wire Demo.connected ++ [output_line 1 100])%list /\
  snd (Service.control_relay Demo.env 1 None Demo.connected) = Demo.connected.
Proof.
  split; [|split].
  - refine (proj2 (proj1 (empty_write_uses_defaults Demo.env 1 (Some Py.JNull)
                            Demo.connected eq_refl demo_connected_up) _) ["OK"] _).
    + exists Py.JNull. split; [reflexivity | left; reflexivity].
    + reflexivity.
  - refine (proj2 (proj1 (proj2 (empty_write_uses_defaults Demo.env 1
                                   (Some (Py.JObj [])) Demo.connected
                                   eq_refl demo_connected_up)) _) ["OK"] _).
    + exists (Py.JObj []). split; [reflexivity | left; reflexivity].
    + reflexivity.
  - destruct (proj1 (proj2 (proj2 (empty_write_uses_defaults Demo.env 1 None
                                     Demo.connected eq_refl demo_connected_up))
                       eq_refl)) as [msg E].
    rewrite E. reflexivity.
Defined.

(* ===================================================================== *)
(** ** Output messages *)
(* ===================================================================== *)

Section OutputMessages.
Import Py World Service.
Variable env : Env.

Lemma startswith_output_not_relay (p t : string) :
  startswith t (p ++ "/output/") = true ->
  startswith t (p ++ "/relay/") = false.
Proof.
  revert t. induction p as [|c p IH]; intros t H.
  - destruct t as [|a [|b t]]; cbn [startswith append] in H |- *.
    + discriminate H.
    + rewrite andb_false_r in H. discriminate H.
    + apply andb_true_iff in H as [Ha H]. apply andb_true_iff in H as [Hb _].
      apply Ascii.eqb_eq in Ha, Hb. subst. reflexivity.
  - destruct t as [|a t]; [discriminate H|]. cbn [startswith append] in H |- *.
    destruct (Ascii.eqb c a); [|reflexivity]. cbn [andb] in *. apply IH, H.
Qed.

Lemma output_payload_value_spec p v s :
  payload_percent p v -> output_payload_value env p s = (Ok v, s).
Proof.
  unfold output_payload_value, payload_percent.
  intros [[[->| ->] ->] | [[[->| ->] ->] | [H1 [H2 [H3 [H4 H]]]]]];
    try reflexivity.
  apply String.eqb_neq in H1, H2, H3, H4. rewrite H1, H2, H3, H4, H. reflexivity.
Qed.

Lemma link_up_add_log l msg s : link_up s -> link_up (add_log l msg s).
Proof. intros [b [ser H]]. exists b, ser. exact H. Qed.

Lemma on_mqtt_message_output_wire msg raw n v s answer :
  board_connected s = true -> link_up s ->
  startswith (topic msg) (mqtt_topic_prefix (config s) ++ "/output/") = true ->
  Py.int (last_segment (topic msg)) = Some n ->
  payload msg = Some raw ->
  payload_percent (upper (strip raw)) v ->
  respond env ("OUTPUT " ++ str_of_Z n ++ " " ++ str_of_Z v) = Ok answer ->
  wire (snd (on_mqtt_message env msg s)) = (wire s ++ [output_line n v])%list.
Proof.
  intros Hc Hl Ht Hn Hp Hv Hr.
  pose proof (startswith_output_not_relay _ _ Ht) as Hnr.
  unfold on_mqtt_message, on_mqtt_message_body. rewrite Hp.
  unfold try_except, bind at 1, ret at 1. rewrite bind_get.
  unfold bind at 1, logger at 1, modify at 1. rewrite Hc. cbn [negb].
  rewrite Hnr, Ht. unfold topic_index. rewrite Hn.
  unfold bind at 1, ret at 1. unfold bind at 1.
  rewrite (output_payload_value_spec _ v _ Hv).
  set (s1 := add_log DEBUG _ s).
  assert (Hl1 : link_up s1) by (apply link_up_add_log, Hl).
  destruct (with_board_wire env "output" _ _ s1 answer (output_sends env n v) Hl1 Hr)
    as [Hw _].
  unfold bind, logger, modify.
  destruct (with_board "output" (Link.output env n (JInt v)) s1) as [[a|e] s2];
    cbn [snd] in *; exact Hw.
Qed.

End OutputMessages.

(** C3, counterexample.  The board is connected; the message
    [automation/output/1] with the payload [150] makes the handler write
    the line [OUTPUT 1 150]: the value goes out as parsed, not as the 100
    that clamping into 0-100 would give. *)
Lemma mqtt_output_150_not_clamped :
  let msg := {| Service.topic := "automation/output/1";
                Service.payload := Some "150" |} in
  Service.board_connected Demo.connected = true /\
  clamp_percent 150 = 100%Z /\
  wire (snd (Service.on_mqtt_message Demo.env msg Demo.connected))
    = (wire Demo.connected ++ [output_line 1 150])%list /\
  output_line 1 150 <> output_line 1 (clamp_percent 150).
Proof.
  cbv zeta. split; [reflexivity|]. split; [reflexivity|].
  split; [vm_compute; reflexivity|]. vm_compute. discriminate.
Qed.

(** C3, as the code has it.  For a message on [<prefix>/output/<n>]
    handled while the board is connected and its port is open, with the
    payload trimmed and upper-cased: [ON] and [TRUE] command 100, [OFF]
    and [FALSE] command 0, and any other payload that spells an integer
    commands that integer as it is, without clamping; the line
    [OUTPUT <n> <value>] is what goes to the board. *)
Theorem mqtt_output_forwarded_as_parsed (env : World.Env)
        (msg : Service.MqttMessage) (raw : string) (n v : Z)
        (s : Service.Service) (answer : list string) :
  Service.board_connected s = true -> link_up s ->
  Py.startswith (Service.topic msg)
    (Service.mqtt_topic_prefix (Service.config s) ++ "/output/") = true ->
  Py.int (Py.last_segment (Service.topic msg)) = Some n ->
  Service.payload msg = Some raw ->
  payload_percent (Py.upper (Py.strip raw)) v ->
  World.respond env ("OUTPUT " ++ Py.str_of_Z n ++ " " ++ Py.str_of_Z v)
    = Py.Ok answer ->
  wire (snd (Service.on_mqtt_message env msg s))
    = (wire s ++ [output_line n v])%list.
Proof.
  intros Hc Hl Ht Hn Hp Hv Hr.
  exact (on_mqtt_message_output_wire env msg raw n v s answer Hc Hl Ht Hn Hp Hv Hr).
Qed.

Lemma mqtt_output_forwarded_as_parsed_witness :
  wire (snd (Service.on_mqtt_message Demo.env
               {| Service.topic := "automation/output/1";
                  Service.payload := Some " 150 " |} Demo.connected))
    = (wire Demo.connected ++ [output_line 1 150])%list.
Proof.
  apply (mqtt_output_forwarded_as_parsed Demo.env
           {| Service.topic := "automation/output/1";
              Service.payload := Some " 150 " |} " 150 " 1 150 Demo.connected ["OK"]);
    try reflexivity.
  - exact demo_connected_up.
  - right. right. repeat split; discriminate || reflexivity.
Defined.

(** The run of the specification's scenario C: the payload [75] on
    [automation/output/3] gives the line [OUTPUT 3 75]; and [on] gives
    100. *)
Example mqtt_output_75 :
  wire (snd (Service.on_mqtt_message Demo.env
               {| Service.topic := "automation/output/3";
                  Service.payload := Some "75" |} Demo.connected))
    = (wire Demo.connected ++ [output_line 3 75])%list.
Proof. vm_compute. reflexivity. Qed.

Example mqtt_output_on :
  wire (snd (Service.on_mqtt_message Demo.env
               {| Service.topic := "automation/output/1";
                  Service.payload := Some "on" |} Demo.connected))
    = (wire Demo.connected ++ [output_line 1 100])%list.
Proof. vm_compute. reflexivity. Qed.

(* ===================================================================== *)
(** ** Callers of the link *)
(* ===================================================================== *)

Section Callers.
Import Py World Threads.
Variable env : Env.

Lemma step_lone ser c :
  step env 0 (lone ser c) =
  lone (fst (step_caller env ser c)) (snd (step_caller env ser c)).
Proof.
  unfold step, lone. cbn. destruct (step_caller env ser c). reflexivity.
Qed.

Lemma run_app s1 s2 sys : run env (s1 ++ s2) sys = run env s2 (run env s1 sys).
Proof.
  revert sys. induction s1 as [|i s1 IH]; intros sys; cbn; [reflexivity|apply IH].
Qed.

Lemma run_lone_S k ser c :
  run env (repeat 0 (S k)) (lone ser c) =
  run env (repeat 0 k)
      (lone (fst (step_caller env ser c)) (snd (step_caller env ser c))).
Proof. cbn [repeat run]. now rewrite step_lone. Qed.

(** The read loop of a lone caller, step by step, is [read_response]. *)
Lemma lone_reading pend : forall ser c cmd lines,
  Link.pending ser = pend -> phase c = Reading cmd lines ->
  exists k,
    run env (repeat 0 k) (lone ser c) =
    lone (take_line ser (snd (Link.read_response pend lines)))
         (returned c cmd
            (Link.decode_response (fst (Link.read_response pend lines)))
            (todo c)).
Proof.
  induction pend as [|raw rest IH]; intros ser c cmd lines Hp Hc.
  - exists 1. rewrite run_lone_S. cbn [repeat run].
    unfold step_caller. rewrite Hc, Hp. cbn.
    destruct ser; cbn in *; subst; reflexivity.
  - cbn [Link.read_response].
    destruct (String.eqb (strip raw) EmptyString) eqn:E1.
    { exists 1. rewrite run_lone_S. cbn [repeat run].
      unfold step_caller. rewrite Hc, Hp, E1. reflexivity. }
    destruct (startswith (strip raw) "#") eqn:E2.
    { destruct (IH (take_line ser rest) (reading c cmd lines) cmd lines
                  eq_refl eq_refl) as [k Hk].
      exists (S k). rewrite run_lone_S.
      unfold step_caller. rewrite Hc, Hp, E1, E2. cbn [fst snd].
      rewrite Hk. reflexivity. }
    destruct (Link.is_terminator (strip raw)) eqn:E3.
    { exists 1. rewrite run_lone_S. cbn [repeat run].
      unfold step_caller. rewrite Hc, Hp, E1, E2, E3. reflexivity. }
    destruct (IH (take_line ser rest) (reading c cmd (lines ++ [strip raw]))
                cmd (lines ++ [strip raw])%list eq_refl eq_refl) as [k Hk].
    exists (S k). rewrite run_lone_S.
    unfold step_caller. rewrite Hc, Hp, E1, E2, E3. cbn [fst snd].
    rewrite Hk. reflexivity.
Qed.

(** One command of a lone caller, step by step, is [_send_command]. *)
Lemma lone_command b ser c cmd rest :
  Link.serial b = Some ser -> phase c = Idle -> todo c = cmd :: rest ->
  exists k ser',
    run env (repeat 0 k) (lone ser c) =
    lone ser' (returned c cmd (fst (Link._send_command env cmd b)) rest) /\
    Link.serial (snd (Link._send_command env cmd b)) = Some ser'.
Proof.
  intros Hs Hc Ht.
  destruct (Link.is_open ser) eqn:Ho.
  - destruct (respond env cmd) as [answer|e] eqn:Hr.
    + rewrite (send_command_wire env cmd b ser answer Hs Ho Hr). cbn [fst snd].
      set (c1 := {| todo := rest; phase := Reading cmd []; results := results c |}).
      set (ser1 := {| Link.is_open := true;
                      Link.written := (Link.written ser ++ [(cmd ++ nl)%string])%list;
                      Link.pending := (Link.pending ser ++ answer)%list |}).
      destruct (lone_reading (Link.pending ser ++ answer) ser1 c1 cmd []
                  eq_refl eq_refl) as [k Hk].
      exists (S k). eexists. split.
      * rewrite run_lone_S. unfold step_caller. rewrite Hc, Ht, Ho, Hr.
        cbn [negb fst snd]. fold ser1 c1. rewrite Hk. reflexivity.
      * reflexivity.
    + exists 1, ser. unfold Link._send_command. rewrite Hs, Ho, Hr. cbn [negb fst snd].
      split; [|exact Hs]. rewrite run_lone_S. cbn [repeat run].
      unfold step_caller. rewrite Hc, Ht, Ho, Hr. reflexivity.
  - exists 1, ser. unfold Link._send_command. rewrite Hs, Ho. cbn [negb fst snd].
    split; [|exact Hs]. rewrite run_lone_S. cbn [repeat run].
    unfold step_caller. rewrite Hc, Ht, Ho. reflexivity.
Qed.

(** All the commands of a lone caller: the step model, run long enough,
    ends where the sequence of [_send_command] calls ends. *)
Lemma lone_all cmds : forall b ser c,
  Link.serial b = Some ser -> phase c = Idle -> todo c = cmds ->
  exists k ser',
    run env (repeat 0 k) (lone ser c) =
    lone ser' (finished (results c ++ fst (send_all env cmds b))) /\
    Link.serial (snd (send_all env cmds b)) = Some ser'.
Proof.
  induction cmds as [|cmd rest IH]; intros b ser c Hs Hc Ht.
  - exists 0, ser. cbn. rewrite app_nil_r. split; [|exact Hs].
    destruct c; cbn in *; subst; reflexivity.
  - destruct (lone_command b ser c cmd rest Hs Hc Ht) as [k1 [ser1 [H1 Hs1]]].
    destruct (IH (snd (Link._send_command env cmd b)) ser1
                (returned c cmd (fst (Link._send_command env cmd b)) rest)
                Hs1 eq_refl eq_refl) as [k2 [ser2 [H2 Hs2]]].
    exists (k1 + k2), ser2. split; [|exact Hs2].
    rewrite repeat_app, run_app, H1, H2. cbn [send_all fst snd returned results].
    rewrite <- app_assoc. reflexivity.
Qed.

Lemma replace_nth_length {A} i (x : A) l :
  List.length (replace_nth i x l) = List.length l.
Proof.
  revert i. induction l as [|a l IH]; intros [|i]; cbn; auto.
Qed.

Lemma step_callers_length i sys :
  List.length (callers (step env i sys)) = List.length (callers sys).
Proof.
  unfold step. destruct (nth_error (callers sys) i); [|reflexivity].
  destruct (step_caller env (port sys) c). cbn. apply replace_nth_length.
Qed.

Lemma run_callers_length sched sys :
  List.length (callers (run env sched sys)) = List.length (callers sys).
Proof.
  revert sys. induction sched as [|i r IH]; intros sys; cbn; [reflexivity|].
  rewrite IH. apply step_callers_length.
Qed.

Lemma in_flight_le_callers sys : in_flight sys <= List.length (callers sys).
Proof. unfold in_flight. apply filter_length_le. Qed.

End Callers.

(** C6, counterexample.  An HTTP request thread sends [RELAY 1 ON] and
    the worker thread sends [STATUS] on the same port.  After the two
    writes both commands are in flight; the worker then reads the [OK]
    that answers the relay command, and the request thread reads the
    status line. *)
Lemma two_commands_in_flight :
  let sys := {| Threads.port := Demo.open_port;
                Threads.callers := [Threads.caller ["RELAY 1 ON"];
                                    Threads.caller ["STATUS"]] |} in
  Threads.in_flight (Threads.run Demo.env [0; 1] sys) = 2 /\
  map Threads.results (Threads.callers (Threads.run Demo.env [0; 1; 1; 0] sys))
    = [ [("RELAY 1 ON", Py.Ok Demo.status_line)];
        [("STATUS", Py.Ok EmptyString)] ].
Proof. vm_compute. split; reflexivity. Qed.

(** C6, as the code has it.  The commands of a single caller are served
    in order, one at a time: while it is alone on the port at most one
    command is in flight, and run to the end the step model gives each
    command the result that the sequence of [_send_command] calls gives
    it.  Nothing serialises two callers: [_send_command] takes no lock,
    and once both have written their command the two are in flight
    together. *)
Theorem callers_not_serialised (env : World.Env) :
  (forall cmds b ser,
      Link.serial b = Some ser ->
      (forall sched,
          Threads.in_flight
            (Threads.run env sched (lone ser (Threads.caller cmds))) <= 1) /\
      exists k ser',
        Threads.run env (repeat 0 k) (lone ser (Threads.caller cmds)) =
          lone ser' (finished (fst (send_all env cmds b))) /\
        Link.serial (snd (send_all env cmds b)) = Some ser') /\
  (forall ser cmd1 cmd2 answer1 answer2,
      Link.is_open ser = true ->
      World.respond env cmd1 = Py.Ok answer1 ->
      World.respond env cmd2 = Py.Ok answer2 ->
      Threads.in_flight
        (Threads.run env [0; 1]
           {| Threads.port := ser;
              Threads.callers := [Threads.caller [cmd1]; Threads.caller [cmd2]] |})
        = 2).
Proof.
  split.
  - intros cmds b ser Hs. split.
    + intros sched.
      pose proof (in_flight_le_callers
                    (Threads.run env sched (lone ser (Threads.caller cmds)))) as H.
      rewrite run_callers_length in H. exact H.
    + destruct (lone_all env cmds b ser (Threads.caller cmds) Hs eq_refl eq_refl)
        as [k [ser' [H1 H2]]].
      exists k, ser'. split; [exact H1 | exact H2].
  - intros ser cmd1 cmd2 answer1 answer2 Ho H1 H2.
    cbn [Threads.run]. unfold Threads.step at 2. cbn [nth_error Threads.callers Threads.port].
    unfold Threads.step_caller at 1. cbn [Threads.phase Threads.todo Threads.caller].
    rewrite Ho, H1. cbn [negb Threads.replace_nth].
    unfold Threads.step. cbn [nth_error Threads.callers Threads.port].
    unfold Threads.step_caller. cbn [Threads.phase Threads.todo Threads.caller Link.is_open].
    rewrite H2. reflexivity.
Qed.

Lemma callers_not_serialised_witness :
  Threads.in_flight
    (Threads.run Demo.env [0; 1]
       {| Threads.port := Demo.open_port;
          Threads.callers := [Threads.caller ["RELAY 1 ON"];
                              Threads.caller ["STATUS"]] |}) = 2 /\
  Threads.in_flight
    (Threads.run Demo.env [0; 0]
       (lone Demo.open_port (Threads.caller ["RELAY 1 ON"; "STATUS"]))) <= 1.
Proof.
  split.
  - apply (proj2 (callers_not_serialised Demo.env) Demo.open_port
             "RELAY 1 ON" "STATUS" ["OK"] [Demo.status_line]); reflexivity.
  - apply (proj1 (proj1 (callers_not_serialised Demo.env)
                    ["RELAY 1 ON"; "STATUS"] Demo.fresh_board Demo.open_port
                    eq_refl)).
Defined.

(* ===================================================================== *)
(** ** More of the link: decoding, disconnecting, connecting *)
(* ===================================================================== *)

Section LinkFacts.
Import Py World.
Variable env : Env.

Lemma comment_line_shape l :
  is_comment l = true ->
  String.eqb l EmptyString = false /\ Link.is_terminator l = false.
Proof.
  unfold is_comment. destruct l as [|a r]; [discriminate|]. cbn [startswith].
  intros H. apply andb_true_iff in H as [H _]. apply Ascii.eqb_eq in H. subst a.
  split; reflexivity.
Qed.

Lemma comments_seen comments :
  Forall (fun raw => is_comment (strip raw) = true) comments ->
  seen_before_timeout comments = map strip comments /\
  forallb (fun l => negb (Link.is_terminator l)) (map strip comments) = true /\
  filter (fun l => negb (is_comment l)) (map strip comments) = [].
Proof.
  induction 1 as [|raw comments Hc _ IH]; [repeat split|].
  destruct IH as [H1 [H2 H3]]. destruct (comment_line_shape _ Hc) as [He Ht].
  cbn [seen_before_timeout map forallb filter]. rewrite He, Ht, Hc, H1, H2, H3.
  repeat split.
Qed.

(** A response that ends with a terminating line after nothing but
    comment lines: the command goes on the wire, the terminating line
    alone is decoded and what follows it stays unread. *)
Lemma send_command_terminated cmd b ser answer comments t post :
  Link.serial b = Some ser -> Link.is_open ser = true ->
  respond env cmd = Ok answer ->
  (Link.pending ser ++ answer)%list = (comments ++ t :: post)%list ->
  Forall (fun raw => is_comment (strip raw) = true) comments ->
  Link.is_terminator (strip t) = true ->
  Link._send_command env cmd b =
    (Link.decode_response [strip t],
     Link.set_serial
       (Some {| Link.is_open := true;
                Link.written := (Link.written ser ++ [(cmd ++ nl)%string])%list;
                Link.pending := post |}) b).
Proof.
  intros Hs Ho Hr Hp Hc Ht.
  rewrite (send_command_wire env cmd b ser answer Hs Ho Hr), Hp.
  destruct (comments_seen comments Hc) as [H1 [H2 H3]].
  rewrite (read_response_terminated comments t post [] H1 H2 Ht), H3.
  reflexivity.
Qed.

Lemma send_command_closed cmd b :
  ~ port_open b ->
  Link._send_command env cmd b = (Raise (CommandError "Not connected to board"), b).
Proof.
  intros H. unfold Link._send_command.
  destruct (Link.serial b) as [ser|] eqn:Hs; [|reflexivity].
  destruct (Link.is_open ser) eqn:Ho; [|reflexivity].
  exfalso. apply H. exists ser. auto.
Qed.

Lemma disconnect_closes b : ~ port_open (snd (Link.disconnect b)).
Proof.
  unfold Link.disconnect. destruct (Link.serial b) as [ser|] eqn:Hs.
  - destruct (Link.is_open ser) eqn:Ho; cbn [snd]; intros [ser' [H1 H2]].
    + discriminate H1.
    + rewrite Hs in H1. injection H1 as <-. congruence.
  - cbn [snd]. intros [ser' [H1 _]]. congruence.
Qed.

End LinkFacts.

Section Connect.
Import Py World.
Variable env : Env.

(** What a handshake that succeeds on a freshly opened port has done. *)
Lemma handshake_ok b ser b' :
  Link.serial b = Some ser -> Link.is_open ser = true ->
  Link.pending ser = [] -> Link.written ser = [] ->
  Link.connect_handshake env b = (Ok tt, b') ->
  exists a1 a2 v,
    respond env "PING" = Ok a1 /\
    Link.decode_response (fst (Link.read_response a1 [])) = Ok "PONG" /\
    respond env "VERSION" = Ok a2 /\
    Link.decode_response
      (fst (Link.read_response (snd (Link.read_response a1 []) ++ a2) [])) = Ok v /\
    Link.serial b' =
      Some {| Link.is_open := true;
              Link.written := [("PING" ++ nl)%string; ("VERSION" ++ nl)%string];
              Link.pending :=
                snd (Link.read_response (snd (Link.read_response a1 []) ++ a2) []) |} /\
    Link._version b' = Some v /\ Link.port b' = Link.port b /\
    Link.baudrate b' = Link.baudrate b.
Proof.
  intros Hs Ho Hp Hw. unfold Link.connect_handshake, bind.
  destruct (respond env "PING") as [a1|e1] eqn:H1.
  2:{ unfold Link._send_command. rewrite Hs, Ho, H1. cbn. discriminate. }
  rewrite (send_command_wire env "PING" b ser a1 Hs Ho H1). rewrite Hp, Hw. cbn [app].
  destruct (Link.decode_response (fst (Link.read_response a1 []))) as [r|e] eqn:D1;
    [|discriminate].
  destruct (String.eqb_spec r "PONG") as [->|Hne]; cbn [negb]; [|discriminate].
  set (b1 := Link.set_serial _ b).
  destruct (respond env "VERSION") as [a2|e2] eqn:H2.
  2:{ unfold Link._send_command. cbn. rewrite H2. discriminate. }
  rewrite (send_command_wire env "VERSION" b1 _ a2 eq_refl eq_refl H2).
  cbn [Link.pending Link.written fst snd app].
  match goal with
  | |- context [match ?d with Ok _ => _ | Raise _ => _ end] =>
      destruct d as [v|e] eqn:D2; [|discriminate]
  end.
  unfold modify. intros H. injection H as H. subst b'.
  exists a1, a2, v. repeat split; assumption.
Qed.

End Connect.

Section NewBoard.
Import Py World.
Variable env : Env.

Lemma new_board_shape p baud b :
  Link.new_board env p baud = Ok b ->
  exists p1 a1 a2 v ser,
    chosen_port env p = Some p1 /\ open_error env p1 = None /\
    respond env "PING" = Ok a1 /\
    Link.decode_response (fst (Link.read_response a1 [])) = Ok "PONG" /\
    respond env "VERSION" = Ok a2 /\
    Link.decode_response
      (fst (Link.read_response (snd (Link.read_response a1 []) ++ a2) [])) = Ok v /\
    Link.port b = Some p1 /\ Link.baudrate b = baud /\
    Link._version b = Some v /\
    Link.serial b = Some ser /\ greeted ser.
Proof.
  unfold Link.new_board, Link.connect, chosen_port. cbn [Link.port].
  set (b0 := {| Link.port := p; Link.baudrate := baud; Link.serial := None;
                Link._version := None |}).
  intros H.
  assert (Hpick : exists p1,
             match p with
             | Some p0 => Some p0
             | None => hd_error (Link.find_ports (comports env))
             end = Some p1 /\
             match p with
             | Some p0 => Ok p0
             | None =>
                 match Link.find_ports (comports env) with
                 | [] => Raise (ConnectionError
                     ("No Automation 2040 W found. Make sure the board is connected "
                        ++ "and has the firmware installed."))
                 | p0 :: _ => Ok p0
                 end
             end = Ok p1).
  { destruct p as [p0|]; [exists p0; auto|].
    destruct (Link.find_ports (comports env)) as [|p0 r]; [discriminate H|].
    exists p0. auto. }
  destruct Hpick as [p1 [Hc Hpick]]. rewrite Hpick in H.
  destruct (open_error env p1) eqn:Hopen; [discriminate H|].
  match type of H with
  | context [Link.connect_handshake env ?x] =>
      destruct (Link.connect_handshake env x) as [[[]|e] b1] eqn:Hh
  end.
  - injection H as <-.
    destruct (handshake_ok env
                (Link.set_serial
                   (Some {| Link.is_open := true; Link.written := [];
                            Link.pending := [] |})
                   (Link.set_port (Some p1) b0))
                {| Link.is_open := true; Link.written := []; Link.pending := [] |}
                b1 eq_refl eq_refl eq_refl eq_refl Hh)
      as [a1 [a2 [v [H1 [H2 [H3 [H4 [H5 [H6 [H7 H8]]]]]]]]]].
    exists p1, a1, a2, v. eexists. unfold greeted. rewrite H5, H7, H8.
    repeat split; assumption.
  - destruct e; discriminate H.
Qed.

End NewBoard.

Section LinkMethods.
Import Py World PyNotations.
Variable env : Env.

Lemma bind_raises {S A B} (m : M S A) (k : A -> M S B) s e s' :
  m s = (Raise e, s') -> bind m k s = (Raise e, s').
Proof. intros H. unfold bind. rewrite H. reflexivity. Qed.

Lemma read_response_skips_comments pend : forall acc,
  fst (Link.read_response pend acc) =
  fst (Link.read_response
         (filter (fun raw => negb (is_comment (strip raw))) pend) acc).
Proof.
  induction pend as [|raw rest IH]; intros acc; [reflexivity|].
  cbn [Link.read_response filter]. unfold is_comment at 1.
  destruct (String.eqb (strip raw) EmptyString) eqn:E1.
  - pose proof E1 as E0. apply String.eqb_eq in E0. rewrite E0.
    cbn [startswith negb Link.read_response]. rewrite E1. reflexivity.
  - destruct (startswith (strip raw) "#") eqn:E2; cbn [negb].
    + apply IH.
    + cbn [Link.read_response]. rewrite E1, E2.
      destruct (Link.is_terminator (strip raw)); [reflexivity | apply IH].
Qed.

Lemma read_response_no_comment pend : forall acc,
  Forall (fun l => is_comment l = false) acc ->
  Forall (fun l => is_comment l = false) (fst (Link.read_response pend acc)).
Proof.
  induction pend as [|raw rest IH]; intros acc Hacc; [exact Hacc|].
  cbn [Link.read_response].
  destruct (String.eqb (strip raw) EmptyString); [exact Hacc|].
  destruct (startswith (strip raw) "#") eqn:E2; [apply IH, Hacc|].
  assert (H : Forall (fun l => is_comment l = false) (acc ++ [strip raw])).
  { apply Forall_app. split; [exact Hacc|]. constructor; [exact E2|constructor]. }
  destruct (Link.is_terminator (strip raw)); [exact H | apply IH, H].
Qed.

End LinkMethods.

(** X1.  An [ERR <message>] line that comes after nothing but comment
    lines makes [_send_command] raise [CommandError] with the message as
    the device wrote it; the command line is on the wire and the lines
    after the [ERR] line stay unread. *)
Theorem err_line_raised_verbatim (env : World.Env) (cmd : string)
        (b : Link.Board) (ser : Link.Serial)
        (answer comments : list string) (t : string) (post : list string)
        (msg : string) :
  Link.serial b = Some ser -> Link.is_open ser = true ->
  World.respond env cmd = Py.Ok answer ->
  (Link.pending ser ++ answer)%list = (comments ++ t :: post)%list ->
  Forall (fun raw => is_comment (Py.strip raw) = true) comments ->
  Py.strip t = "ERR " ++ msg ->
  Link._send_command env cmd b =
    (Py.Raise (Py.CommandError msg),
     Link.set_serial
       (Some {| Link.is_open := true;
                Link.written := (Link.written ser ++ [(cmd ++ Py.nl)%string])%list;
                Link.pending := post |}) b).
Proof.
  intros Hs Ho Hr Hp Hc Ht.
  rewrite (send_command_terminated env cmd b ser answer comments t post
             Hs Ho Hr Hp Hc); rewrite Ht; reflexivity.
Qed.

Lemma err_line_raised_verbatim_witness :
  fst (Link._send_command Demo.env "RELAY 9 ON"
         (Demo.board_holding ["# Ready - type HELP for commands"]))
    = Py.Raise (Py.CommandError "Relay index out of range (1-3)").
Proof.
  rewrite (err_line_raised_verbatim Demo.env "RELAY 9 ON"
             (Demo.board_holding ["# Ready - type HELP for commands"])
             {| Link.is_open := true; Link.written := [];
                Link.pending := ["# Ready - type HELP for commands"] |}
             ["ERR Relay index out of range (1-3)"]
             ["# Ready - type HELP for commands"]
             "ERR Relay index out of range (1-3)" []
             "Relay index out of range (1-3)");
    try reflexivity.
  repeat constructor.
Defined.

(** X2.  After nothing but comment lines, a line that starts with [OK]
    is returned without the [OK] and trimmed, and a line that starts with
    a brace is returned whole. *)
Theorem ok_and_json_lines_returned (env : World.Env) (cmd : string)
        (b : Link.Board) (ser : Link.Serial)
        (answer comments : list string) (t : string) (post : list string) :
  Link.serial b = Some ser -> Link.is_open ser = true ->
  World.respond env cmd = Py.Ok answer ->
  (Link.pending ser ++ answer)%list = (comments ++ t :: post)%list ->
  Forall (fun raw => is_comment (Py.strip raw) = true) comments ->
  (forall rest, Py.strip t = "OK" ++ rest ->
                fst (Link._send_command env cmd b) = Py.Ok (Py.strip rest)) /\
  (forall rest, Py.strip t = "{" ++ rest ->
                fst (Link._send_command env cmd b) = Py.Ok ("{" ++ rest)).
Proof.
  intros Hs Ho Hr Hp Hc. split; intros rest Ht;
    rewrite (send_command_terminated env cmd b ser answer comments t post
               Hs Ho Hr Hp Hc); rewrite Ht; try reflexivity;
    cbn; destruct rest; reflexivity.
Qed.

Lemma ok_and_json_lines_returned_witness :
  fst (Link._send_command Demo.env "VERSION"
         (Demo.board_holding ["# Ready - type HELP for commands"]))
    = Py.Ok "1.0.0" /\
  fst (Link._send_command Demo.env "STATUS" Demo.fresh_board)
    = Py.Ok Demo.status_line.
Proof.
  split.
  - refine (proj1 (ok_and_json_lines_returned Demo.env "VERSION"
              (Demo.board_holding ["# Ready - type HELP for commands"])
              {| Link.is_open := true; Link.written := [];
                 Link.pending := ["# Ready - type HELP for commands"] |}
              ["OK 1.0.0"] ["# Ready - type HELP for commands"] "OK 1.0.0" []
              _ _ _ _ _) " 1.0.0" _); try reflexivity.
    repeat constructor.
  - refine (proj2 (ok_and_json_lines_returned Demo.env "STATUS"
              Demo.fresh_board Demo.open_port [Demo.status_line] []
              Demo.status_line [] _ _ _ _ _)
              (Py.slice_from 1 Demo.status_line) _); try reflexivity.
    constructor.
Defined.

(** X3.  The lines that the read loop returns never include a comment
    line, and they are the same whether or not the comment lines are
    there. *)
Theorem comments_never_returned (pend : list string) :
  Forall (fun l => is_comment l = false) (fst (Link.read_response pend [])) /\
  fst (Link.read_response pend []) =
  fst (Link.read_response
         (filter (fun raw => negb (is_comment (Py.strip raw))) pend) []).
Proof.
  split.
  - apply read_response_no_comment. constructor.
  - apply read_response_skips_comments.
Qed.

(** X4.  After [disconnect] the board object refuses every call:
    [disconnect] again changes nothing, and [_send_command] and each
    method built on it raise [CommandError "Not connected to board"]
    without touching the object. *)
Theorem disconnected_board_refuses (env : World.Env) (b : Link.Board) :
  let b' := snd (Link.disconnect b) in
  let refused := Py.CommandError "Not connected to board" in
  Link.disconnect b' = (Py.Ok tt, b') /\
  (forall cmd, Link._send_command env cmd b' = (Py.Raise refused, b')) /\
  (forall n st, Link.relay env n st b' = (Py.Raise refused, b')) /\
  (forall n v, Link.output env n v b' = (Py.Raise refused, b')) /\
  Link.status env b' = (Py.Raise refused, b') /\
  Link.reset env b' = (Py.Raise refused, b') /\
  (forall n, Link.input env n b' = (Py.Raise refused, b')) /\
  (forall x v, Link.led env x v b' = (Py.Raise refused, b')) /\
  (forall x, Link.button env x b' = (Py.Raise refused, b')).
Proof.
  cbv zeta. pose proof (disconnect_closes b) as Hc.
  set (b' := snd (Link.disconnect b)) in *.
  assert (Hs : forall cmd, Link._send_command env cmd b'
                           = (Py.Raise (Py.CommandError "Not connected to board"), b'))
    by (intros cmd; apply send_command_closed, Hc).
  split.
  { unfold Link.disconnect. destruct (Link.serial b') as [ser|] eqn:E; [|reflexivity].
    destruct (Link.is_open ser) eqn:Eo; [|reflexivity].
    exfalso. apply Hc. exists ser. auto. }
  split; [exact Hs|].
  repeat split; intros;
    unfold Link.relay, Link.output, Link.status, Link.reset, Link.input,
      Link.led, Link.button;
    try match goal with
        | |- context [match ?x with Py.JNull => _ | _ => _ end] => destruct x
        end;
    apply bind_raises, Hs.
Qed.

(** X5.  A constructor that returns has gone for the configured port, or
    the first listed one when none is configured, has opened it, has got
    [PONG] for its [PING] and has stored the answer to [VERSION]; [PING]
    and [VERSION] are all it wrote.  The [version] property then answers
    from the stored value and sends nothing. *)
Theorem constructor_pings_then_stores_version (env : World.Env)
        (p : option string) (baud : Z) (b : Link.Board) :
  Link.new_board env p baud = Py.Ok b ->
  exists p1 a1 a2 v ser,
    chosen_port env p = Some p1 /\ World.open_error env p1 = None /\
    World.respond env "PING" = Py.Ok a1 /\
    Link.decode_response (fst (Link.read_response a1 [])) = Py.Ok "PONG" /\
    World.respond env "VERSION" = Py.Ok a2 /\
    Link.decode_response
      (fst (Link.read_response (snd (Link.read_response a1 []) ++ a2) []))
      = Py.Ok v /\
    Link.port b = Some p1 /\ Link.baudrate b = baud /\
    Link._version b = Some v /\
    Link.serial b = Some ser /\ greeted ser /\
    Link.version env b = (Py.Ok v, b).
Proof.
  intros H. destruct (new_board_shape env p baud b H)
    as [p1 [a1 [a2 [v [ser [H1 [H2 [H3 [H4 [H5 [H6 [H7 [H8 [H9 [H10 H11]]]]]]]]]]]]]]].
  exists p1, a1, a2, v, ser. repeat split; try assumption; try apply H11.
  unfold Link.version. rewrite H9. reflexivity.
Qed.

Lemma constructor_pings_then_stores_version_witness :
  exists b, Link.new_board Demo.env None 115200 = Py.Ok b /\
            Link.port b = Some "/dev/ttyACM0" /\
            Link._version b = Some "1.0.0".
Proof.
  eexists. split; [vm_compute; reflexivity|].
  destruct (constructor_pings_then_stores_version Demo.env None 115200 _ eq_refl)
    as [p1 [a1 [a2 [v [ser H]]]]].
  split; reflexivity.
Defined.

Section Refusals.
Import Py World.
Variable env : Env.

Lemma connect_pick p baud p1 :
  chosen_port env p = Some p1 ->
  Link.new_board env p baud =
  match open_error env p1 with
  | Some msg => Raise (ConnectionError ("Failed to open " ++ p1 ++ ": " ++ msg))
  | None =>
      match Link.connect_handshake env
              {| Link.port := Some p1; Link.baudrate := baud;
                 Link.serial := Some {| Link.is_open := true; Link.written := [];
                                        Link.pending := [] |};
                 Link._version := None |} with
      | (Ok _, b) => Ok b
      | (Raise (SerialException msg), _) =>
          Raise (ConnectionError ("Failed to open " ++ p1 ++ ": " ++ msg))
      | (Raise e, _) => Raise e
      end
  end.
Proof.
  intros H. unfold Link.new_board, Link.connect, chosen_port in *. cbn [Link.port].
  assert (Hpick : match p with
                  | Some p0 => Ok p0
                  | None =>
                      match Link.find_ports (comports env) with
                      | [] => Raise (ConnectionError
                          ("No Automation 2040 W found. Make sure the board is connected "
                             ++ "and has the firmware installed."))
                      | p0 :: _ => Ok p0
                      end
                  end = Ok p1).
  { destruct p as [p0|]; [congruence|].
    destruct (Link.find_ports (comports env)); [discriminate H|].
    cbn in H. congruence. }
  rewrite Hpick. destruct (open_error env p1); [reflexivity|].
  unfold Link.set_serial, Link.set_port. cbn.
  destruct (Link.connect_handshake env _) as [[[]|e] b1]; [reflexivity|].
  destruct e; reflexivity.
Qed.

Lemma handshake_ping_answer b ser a1 :
  Link.serial b = Some ser -> Link.is_open ser = true -> Link.pending ser = [] ->
  respond env "PING" = Ok a1 ->
  fst (Link.connect_handshake env b) =
  match Link.decode_response (fst (Link.read_response a1 [])) with
  | Raise e => Raise e
  | Ok r =>
      if String.eqb r "PONG"
      then fst (Link.connect_handshake env b)
      else Raise (ConnectionError
                    ("Board did not respond correctly to PING. Got: " ++ r))
  end.
Proof.
  intros Hs Ho Hp H1. unfold Link.connect_handshake at 1, bind.
  rewrite (send_command_wire env "PING" b ser a1 Hs Ho H1), Hp. cbn [app fst].
  destruct (Link.decode_response (fst (Link.read_response a1 []))) as [r|e] eqn:D;
    [|reflexivity].
  destruct (String.eqb r "PONG") eqn:E; cbn [negb]; [|reflexivity].
  unfold Link.connect_handshake, bind.
  rewrite (send_command_wire env "PING" b ser a1 Hs Ho H1), Hp. cbn [app fst].
  rewrite D, E. reflexivity.
Qed.

End Refusals.

(** X6.  When the constructor does not return.  With no port configured
    and none listed, with a port that does not open, with a write that
    fails and with an answer to [PING] other than [PONG], it raises
    [ConnectionError]; when the board answers [PING] with an [ERR] line
    or with nothing, the [CommandError] of [_send_command] leaves the
    constructor as it is. *)
Theorem constructor_refusals (env : World.Env) (p : option string) (baud : Z) :
  (chosen_port env p = None ->
   Link.new_board env p baud =
     Py.Raise (Py.ConnectionError
                 ("No Automation 2040 W found. Make sure the board is connected "
                    ++ "and has the firmware installed."))) /\
  (forall p1 msg,
      chosen_port env p = Some p1 -> World.open_error env p1 = Some msg ->
      Link.new_board env p baud =
        Py.Raise (Py.ConnectionError ("Failed to open " ++ p1 ++ ": " ++ msg))) /\
  (forall p1 msg,
      chosen_port env p = Some p1 -> World.open_error env p1 = None ->
      World.respond env "PING" = Py.Raise (Py.SerialException msg) ->
      Link.new_board env p baud =
        Py.Raise (Py.ConnectionError ("Failed to open " ++ p1 ++ ": " ++ msg))) /\
  (forall p1 a1 r,
      chosen_port env p = Some p1 -> World.open_error env p1 = None ->
      World.respond env "PING" = Py.Ok a1 ->
      Link.decode_response (fst (Link.read_response a1 [])) = Py.Ok r ->
      r <> "PONG" ->
      Link.new_board env p baud =
        Py.Raise (Py.ConnectionError
                    ("Board did not respond correctly to PING. Got: " ++ r))) /\
  (forall p1 a1 msg,
      chosen_port env p = Some p1 -> World.open_error env p1 = None ->
      World.respond env "PING" = Py.Ok a1 ->
      Link.decode_response (fst (Link.read_response a1 []))
        = Py.Raise (Py.CommandError msg) ->
      Link.new_board env p baud = Py.Raise (Py.CommandError msg)).
Proof.
  split.
  { unfold chosen_port, Link.new_board, Link.connect. cbn [Link.port].
    destruct p; [discriminate|].
    destruct (Link.find_ports (World.comports env)); [reflexivity|discriminate]. }
  split.
  { intros p1 msg Hc Ho. rewrite (connect_pick env p baud p1 Hc), Ho. reflexivity. }
  split.
  { intros p1 msg Hc Ho Hr. rewrite (connect_pick env p baud p1 Hc), Ho.
    unfold Link.connect_handshake, Py.bind, Link._send_command. cbn. rewrite Hr.
    reflexivity. }
  split.
  { intros p1 a1 r Hc Ho Hr Hd Hne. rewrite (connect_pick env p baud p1 Hc), Ho.
    match goal with
    | |- context [Link.connect_handshake env ?x] =>
        pose proof (handshake_ping_answer env x _ a1 eq_refl eq_refl eq_refl Hr) as H;
        destruct (Link.connect_handshake env x) as [res b1]
    end.
    cbn [fst] in H. rewrite Hd in H. apply String.eqb_neq in Hne. rewrite Hne in H.
    subst res. reflexivity. }
  intros p1 a1 msg Hc Ho Hr Hd. rewrite (connect_pick env p baud p1 Hc), Ho.
  match goal with
  | |- context [Link.connect_handshake env ?x] =>
      pose proof (handshake_ping_answer env x _ a1 eq_refl eq_refl eq_refl Hr) as H;
      destruct (Link.connect_handshake env x) as [res b1]
  end.
  cbn [fst] in H. rewrite Hd in H. subst res. reflexivity.
Qed.

Lemma constructor_refusals_witness :
  Link.new_board Demo.unplugged None 115200 =
    Py.Raise (Py.ConnectionError
                ("No Automation 2040 W found. Make sure the board is connected "
                   ++ "and has the firmware installed.")) /\
  Link.new_board Demo.busy None 115200 =
    Py.Raise (Py.ConnectionError
                "Failed to open /dev/ttyACM0: [Errno 16] Device or resource busy") /\
  Link.new_board Demo.stranger None 115200 =
    Py.Raise (Py.ConnectionError
                "Board did not respond correctly to PING. Got: HELLO") /\
  Link.new_board Demo.silent None 115200 =
    Py.Raise (Py.CommandError "No response from board").
Proof.
  split; [|split; [|split]].
  - apply (proj1 (constructor_refusals Demo.unplugged None 115200)). reflexivity.
  - apply (proj1 (proj2 (constructor_refusals Demo.busy None 115200))
             "/dev/ttyACM0" "[Errno 16] Device or resource busy"); reflexivity.
  - apply (proj1 (proj2 (proj2 (proj2 (constructor_refusals Demo.stranger None 115200))))
             "/dev/ttyACM0" ["OK HELLO"] "HELLO"); try reflexivity. discriminate.
  - apply (proj2 (proj2 (proj2 (proj2 (constructor_refusals Demo.silent None 115200))))
             "/dev/ttyACM0" [] "No response from board"); reflexivity.
Defined.

(** X7.  [find_ports] lists a device exactly when one of the listed
    serial ports has that device name and either carries the Raspberry Pi
    vendor id or has [ACM] or [usbmodem] in its name. *)
Theorem find_ports_lists_pico_and_acm (ports : list World.PortInfo) (d : string) :
  In d (Link.find_ports ports) <->
  exists p, In p ports /\ World.device p = d /\
            (World.vid p = Some Link.PICO_VID \/
             Link.contains (World.device p) "ACM" = true \/
             Link.contains (World.device p) "usbmodem" = true).
Proof.
  induction ports as [|p ports IH]; cbn [Link.find_ports].
  - split; [intros []|intros [p [[] _]]].
  - assert (Hvid : (match World.vid p with
                    | Some v => Z.eqb v Link.PICO_VID
                    | None => false
                    end) = true <-> World.vid p = Some Link.PICO_VID).
    { destruct (World.vid p) as [v|]; [|split; discriminate].
      rewrite Z.eqb_eq. split; [intros ->; reflexivity | intros [= ->]; reflexivity]. }
    destruct (match World.vid p with Some v => Z.eqb v Link.PICO_VID | None => false end)
      eqn:Ev.
    + cbn [In]. rewrite IH. split.
      * intros [<-|[p' [Hin H]]].
        -- exists p. split; [left; reflexivity|]. split; [reflexivity|].
           left. apply Hvid. reflexivity.
        -- exists p'. split; [right; exact Hin | exact H].
      * intros [p' [[<-|Hin] [Hd H]]]; [left; exact Hd|].
        right. exists p'. auto.
    + destruct (Link.contains (World.device p) "ACM"
                || Link.contains (World.device p) "usbmodem") eqn:Ec.
      * cbn [In]. rewrite IH. split.
        -- intros [<-|[p' [Hin H]]].
           ++ exists p. split; [left; reflexivity|]. split; [reflexivity|].
              right. apply orb_true_iff. exact Ec.
           ++ exists p'. split; [right; exact Hin | exact H].
        -- intros [p' [[<-|Hin] [Hd H]]]; [left; exact Hd|].
           right. exists p'. auto.
      * rewrite IH. split.
        -- intros [p' [Hin H]]. exists p'. split; [right; exact Hin | exact H].
        -- intros [p' [[<-|Hin] [Hd H]]]; [|exists p'; auto].
           exfalso. destruct H as [H|H].
           ++ apply Hvid in H. discriminate H.
           ++ apply orb_true_iff in H. congruence.
Qed.

(* ===================================================================== *)
(** ** More of the HTTP handlers *)
(* ===================================================================== *)

Section Http.
Import Py World Service.
Variable env : Env.

Lemma control_relay_channels n j : keeps channels (control_relay env n j).
Proof. unfold control_relay. keeps_auto. Qed.

Lemma control_output_channels n j : keeps channels (control_output env n j).
Proof. unfold control_output. keeps_auto. Qed.

Lemma reset_channels : keeps channels (reset env).
Proof. unfold reset. keeps_auto. Qed.

Lemma status_channels : keeps channels status.
Proof. unfold status. keeps_auto. Qed.

Lemma health_channels : keeps channels health.
Proof. unfold health. keeps_auto. Qed.

(** The outcome of a [try] block of a write handler in terms of the board
    call inside it. *)
Lemma try_block_answer {A} l1 msg1 method (m : M Link.Board A)
      (ok : HttpResponse) (h : exn -> string) s :
  fst (try_except
         (bind (logger l1 msg1)
            (fun _ => bind (with_board method m) (fun _ => ret ok)))
         (fun e => bind (logger ERROR (h e))
                     (fun _ => ret (jsonify (JObj [("error", JStr (exn_str e))]) 500)))
         s)
  = Ok (match fst (with_board method m (add_log l1 msg1 s)) with
        | Ok _ => ok
        | Raise e => jsonify (JObj [("error", JStr (exn_str e))]) 500
        end).
Proof.
  unfold try_except, bind, logger, modify, ret. cbn.
  destruct (with_board method m (add_log l1 msg1 s)) as [[a|e] s']; reflexivity.
Qed.

End Http.

(** X8.  While the board is disconnected, [POST /api/output/<n>] and
    [POST /api/reset] answer 503 with [{"error": "Board not connected"}]
    and only add a warning to the log, and [GET /api/status] answers the
    same 503 and changes nothing. *)
Theorem output_and_reset_need_board (env : World.Env) (n : Z)
        (request_json : option Py.Json) (s : Service.Service) :
  Service.board_connected s = false ->
  let refused := Service.jsonify
                   (Py.JObj [("error", Py.JStr "Board not connected")]) 503 in
  Service.control_output env n request_json s =
    (Py.Ok refused,
     Service.add_log Service.WARNING
       ("API: Output " ++ Py.str_of_Z n
          ++ " control rejected - board not connected") s) /\
  Service.reset env s =
    (Py.Ok refused,
     Service.add_log Service.WARNING "API: Reset rejected - board not connected" s) /\
  Service.status s = (Py.Ok refused, s).
Proof.
  intros H. cbv zeta.
  unfold Service.control_output, Service.reset, Service.status.
  rewrite !bind_get, H. repeat split.
Qed.

Lemma output_and_reset_need_board_witness :
  fst (Service.reset Demo.env Demo.started) =
    Py.Ok (Service.jsonify (Py.JObj [("error", Py.JStr "Board not connected")]) 503).
Proof.
  pose proof (output_and_reset_need_board Demo.env 1 None Demo.started eq_refl) as H.
  cbv zeta in H. rewrite (proj1 (proj2 H)). reflexivity.
Defined.

(** X9.  No HTTP request, whether it succeeds or fails, changes the run
    flag, the two connection flags, the error count, the presence of the
    board object or the subscriptions and network loop of the MQTT
    client: a failed write does not disconnect the board and is not
    counted. *)
Theorem http_requests_keep_channels (env : World.Env) (n : Z)
        (request_json : option Py.Json) (s : Service.Service) :
  channels (snd (Service.control_relay env n request_json s)) = channels s /\
  channels (snd (Service.control_output env n request_json s)) = channels s /\
  channels (snd (Service.reset env s)) = channels s /\
  channels (snd (Service.status s)) = channels s /\
  channels (snd (Service.health s)) = channels s.
Proof.
  split; [apply control_relay_channels|].
  split; [apply control_output_channels|].
  split; [apply reset_channels|].
  split; [apply status_channels | apply health_channels].
Qed.

(** X10.  While the board is connected, a write request whose JSON body
    gives the field, or lets it default, is answered from the outcome of
    the one board call it makes: 200 with [{"status": "ok", ...}] when the
    call returns, 500 with [{"error": str(e)}] when it raises [e].  For
    such a body the handler itself does not raise. *)
Theorem write_endpoints_answer (env : World.Env) (n : Z)
        (request_json : option Py.Json) (s : Service.Service) :
  Service.board_connected s = true ->
  (forall state,
      body_field "state" (Py.JBool true) request_json = Some state ->
      fst (Service.control_relay env n request_json s) =
        Py.Ok
          match fst (Service.with_board "relay" (Link.relay env n state)
                       (Service.add_log Service.INFO
                          ("API: Setting relay " ++ Py.str_of_Z n ++ " to "
                             ++ World.py_str env state) s)) with
          | Py.Ok _ =>
              Service.jsonify
                (Py.JObj [("status", Py.JStr "ok"); ("relay", Py.JInt n);
                          ("state", state)]) 200
          | Py.Raise e =>
              Service.jsonify (Py.JObj [("error", Py.JStr (Py.exn_str e))]) 500
          end) /\
  (forall value,
      body_field "value" (Py.JInt 100) request_json = Some value ->
      fst (Service.control_output env n request_json s) =
        Py.Ok
          match fst (Service.with_board "output" (Link.output env n value)
                       (Service.add_log Service.INFO
                          ("API: Setting output " ++ Py.str_of_Z n ++ " to "
                             ++ World.py_str env value ++ "%") s)) with
          | Py.Ok _ =>
              Service.jsonify
                (Py.JObj [("status", Py.JStr "ok"); ("output", Py.JInt n);
                          ("value", value)]) 200
          | Py.Raise e =>
              Service.jsonify (Py.JObj [("error", Py.JStr (Py.exn_str e))]) 500
          end) /\
  fst (Service.reset env s) =
    Py.Ok
      match fst (Service.with_board "reset" (Link.reset env)
                   (Service.add_log Service.INFO "API: Resetting all outputs" s)) with
      | Py.Ok _ => Service.jsonify (Py.JObj [("status", Py.JStr "ok")]) 200
      | Py.Raise e =>
          Service.jsonify (Py.JObj [("error", Py.JStr (Py.exn_str e))]) 500
      end.
Proof.
  intros Hc. split; [|split].
  - intros state Hf. unfold Service.control_relay. rewrite bind_get, Hc. cbn [negb].
    rewrite (body_field_read _ _ _ _ _ _ Hf). apply try_block_answer.
  - intros value Hf. unfold Service.control_output. rewrite bind_get, Hc. cbn [negb].
    rewrite (body_field_read _ _ _ _ _ _ Hf). apply try_block_answer.
  - unfold Service.reset. rewrite bind_get, Hc. cbn [negb]. apply try_block_answer.
Qed.

Lemma write_endpoints_answer_witness :
  fst (Service.control_relay Demo.env 9
         (Some (Py.JObj [("state", Py.JBool true)])) Demo.connected) =
    Py.Ok (Service.jsonify
             (Py.JObj [("error", Py.JStr "Relay index out of range (1-3)")]) 500) /\
  fst (Service.control_output Demo.env 3
         (Some (Py.JObj [("value", Py.JInt 75)])) Demo.connected) =
    Py.Ok (Service.jsonify
             (Py.JObj [("status", Py.JStr "ok"); ("output", Py.JInt 3);
                       ("value", Py.JInt 75)]) 200).
Proof.
  split.
  - rewrite (proj1 (write_endpoints_answer Demo.env 9
               (Some (Py.JObj [("state", Py.JBool true)])) Demo.connected eq_refl)
               (Py.JBool true) eq_refl).
    vm_compute. reflexivity.
  - rewrite (proj1 (proj2 (write_endpoints_answer Demo.env 3
               (Some (Py.JObj [("value", Py.JInt 75)])) Demo.connected eq_refl))
               (Py.JInt 75) eq_refl).
    vm_compute. reflexivity.
Defined.

(** X11.  While the board is connected, a write request whose JSON body
    is a true value other than an object (a non-empty list or string, a
    number other than zero, [true]) makes the handler raise
    [AttributeError] at [data.get], outside its [try]: nothing is sent
    and nothing of the service changes. *)
Theorem non_object_body_raises (env : World.Env) (n : Z) (j : Py.Json)
        (s : Service.Service) :
  Service.board_connected s = true ->
  Py.truthy j = true -> (forall d, j <> Py.JObj d) ->
  let e := Py.AttributeError
             ("'" ++ Service.type_name j ++ "' object has no attribute 'get'") in
  Service.control_relay env n (Some j) s = (Py.Raise e, s) /\
  Service.control_output env n (Some j) s = (Py.Raise e, s).
Proof.
  intros Hc Ht Hj. cbv zeta.
  unfold Service.control_relay, Service.control_output.
  rewrite !bind_get, Hc. cbn [negb].
  unfold Service.json_or_empty, Service.or_empty, Py.bind, Py.ret. rewrite Ht.
  destruct j; try (split; reflexivity). exfalso. eapply Hj. reflexivity.
Qed.

Lemma non_object_body_raises_witness :
  Service.control_relay Demo.env 1 (Some (Py.JArr [Py.JBool true])) Demo.connected =
    (Py.Raise (Py.AttributeError "'list' object has no attribute 'get'"),
     Demo.connected).
Proof.
  refine (proj1 (non_object_body_raises Demo.env 1 (Py.JArr [Py.JBool true])
                   Demo.connected eq_refl eq_refl _)).
  intros d. discriminate.
Defined.

(* ===================================================================== *)
(** ** More of the MQTT bridge *)
(* ===================================================================== *)

Section Mqtt.
Import Py World Service.
Variable env : Env.

Lemma startswith_relay_not_output (p t : string) :
  startswith t (p ++ "/relay/") = true ->
  startswith t (p ++ "/output/") = false.
Proof.
  intros H. destruct (startswith t (p ++ "/output/")) eqn:E; [|reflexivity].
  rewrite (startswith_output_not_relay p t E) in H. discriminate H.
Qed.

Lemma startswith_self_app (p a b : string) :
  startswith (p ++ a) (p ++ b) = startswith a b.
Proof.
  induction p as [|c p IH]; [reflexivity|]. cbn [append startswith].
  rewrite Ascii.eqb_refl. exact IH.
Qed.

Lemma publish_status_wire st : keeps wire (publish_status env st).
Proof. unfold publish_status. keeps_auto. Qed.

Lemma publish_status_returns st s : fst (publish_status env st s) = Ok tt.
Proof.
  unfold publish_status, bind, get, modify, logger.
  destruct (mqtt_connected s); [|reflexivity].
  destruct (mqtt_client s); [|reflexivity].
  destruct (mqtt_publish env _ _); reflexivity.
Qed.

(** The message handler up to the test of the topic, for a payload that
    decodes and a connected board. *)
Lemma on_mqtt_message_connected msg raw s :
  board_connected s = true -> payload msg = Some raw ->
  on_mqtt_message_body env msg s =
  (let payload := upper (strip raw) in
   let topic_prefix := mqtt_topic_prefix (config s) in
   if startswith (topic msg) (topic_prefix ++ "/relay/") then
     bind (topic_index env (topic msg))
       (fun relay_num =>
          let state := String.eqb payload "ON" || String.eqb payload "1"
                       || String.eqb payload "TRUE" in
          bind (with_board "relay" (Link.relay env relay_num (JBool state)))
            (fun _ => logger INFO ("MQTT: Set relay " ++ str_of_Z relay_num ++ " to "
                                     ++ py_str env (JBool state))))
   else if startswith (topic msg) (topic_prefix ++ "/output/") then
     bind (topic_index env (topic msg))
       (fun output_num =>
          bind (output_payload_value env payload)
            (fun value =>
               bind (with_board "output" (Link.output env output_num (JInt value)))
                 (fun _ => logger INFO ("MQTT: Set output " ++ str_of_Z output_num
                                          ++ " to " ++ str_of_Z value))))
   else if String.eqb (topic msg) (topic_prefix ++ "/command") then
     if String.eqb payload "RESET" then
       bind (with_board "reset" (Link.reset env))
         (fun _ => logger INFO "MQTT: Reset command executed")
     else if String.eqb payload "STATUS" then
       bind (with_board "status" (Link.status env))
         (fun st => bind (publish_status env st)
                      (fun _ => logger INFO "MQTT: Status command executed"))
     else ret tt
   else ret tt)
    (add_log DEBUG ("MQTT: " ++ topic msg ++ " = " ++ upper (strip raw)) s).
Proof.
  intros Hc Hp. unfold on_mqtt_message_body. rewrite Hp.
  unfold bind at 1, ret at 1. rewrite bind_get.
  unfold bind at 1, logger at 1, modify at 1. rewrite Hc. reflexivity.
Qed.

Lemma wire_of_handler msg s :
  wire (snd (on_mqtt_message env msg s)) = wire (snd (on_mqtt_message_body env msg s)).
Proof.
  unfold on_mqtt_message, try_except, logger, modify.
  destruct (on_mqtt_message_body env msg s) as [[[]|e] s']; reflexivity.
Qed.

Lemma wire_of_bind {A B} (m : M Service A) (k : A -> M Service B) s :
  (forall a, keeps wire (k a)) ->
  wire (snd (bind m k s)) = wire (snd (m s)).
Proof.
  intros Hk. unfold bind.
  destruct (m s) as [[a|e] s'] eqn:E; cbn [snd]; [apply Hk | reflexivity].
Qed.

Lemma status_sends b :
  snd (Link.status env b) = snd (Link._send_command env "STATUS" b).
Proof.
  unfold Link.status, bind.
  destruct (Link._send_command env "STATUS" b) as [[r|e] b']; [|reflexivity].
  destruct (json_loads env r); reflexivity.
Qed.

Lemma reset_sends b :
  snd (Link.reset env b) = snd (Link._send_command env "RESET" b).
Proof.
  unfold Link.reset, bind.
  destruct (Link._send_command env "RESET" b) as [[r|e] b']; reflexivity.
Qed.


Lemma mqtt_command_wire msg raw cmd s answer :
  board_connected s = true -> link_up s ->
  topic msg = mqtt_topic_prefix (config s) ++ "/command" ->
  payload msg = Some raw ->
  upper (strip raw) = cmd -> (cmd = "RESET" \/ cmd = "STATUS") ->
  respond env cmd = Ok answer ->
  wire (snd (on_mqtt_message env msg s)) = (wire s ++ [(cmd ++ nl)%string])%list.
Proof.
  intros Hc Hl Ht Hp Hu Hcmd Hr.
  rewrite wire_of_handler, (on_mqtt_message_connected msg raw s Hc Hp).
  cbv zeta. rewrite Ht, !startswith_self_app.
  change (startswith "/command" "/relay/") with false.
  change (startswith "/command" "/output/") with false.
  rewrite String.eqb_refl, Hu. cbv iota.
  set (s1 := add_log DEBUG _ s).
  assert (Hl1 : link_up s1) by (apply link_up_add_log, Hl).
  destruct Hcmd as [-> | ->].
  - change (String.eqb "RESET" "RESET") with true. cbv iota.
    rewrite wire_of_bind by (intros a; keeps_auto).
    exact (proj1 (with_board_wire env "reset" _ _ s1 answer (reset_sends) Hl1 Hr)).
  - change (String.eqb "STATUS" "RESET") with false.
    change (String.eqb "STATUS" "STATUS") with true. cbv iota.
    rewrite wire_of_bind
      by (intros a; apply keeps_bind;
          [apply publish_status_wire | intros; keeps_auto]).
    exact (proj1 (with_board_wire env "status" _ _ s1 answer (status_sends) Hl1 Hr)).
Qed.


End Mqtt.

(** X12.  A message that arrives while the board is disconnected is
    dropped: the handler logs the message and a warning, returns, and
    sends nothing. *)
Theorem mqtt_dropped_while_disconnected (env : World.Env)
        (msg : Service.MqttMessage) (raw : string) (s : Service.Service) :
  Service.board_connected s = false ->
  Service.payload msg = Some raw ->
  Service.on_mqtt_message env msg s =
    (Py.Ok tt,
     Service.add_log Service.WARNING "Received MQTT command but board not connected"
       (Service.add_log Service.DEBUG
          ("MQTT: " ++ Service.topic msg ++ " = " ++ Py.upper (Py.strip raw)) s)).
Proof.
  intros Hc Hp. unfold Service.on_mqtt_message, Py.try_except,
    Service.on_mqtt_message_body. rewrite Hp.
  unfold Py.bind at 1, Py.ret at 1. rewrite bind_get.
  unfold Py.bind at 1, Service.logger at 1, Py.modify at 1. rewrite Hc. reflexivity.
Qed.

Lemma mqtt_dropped_while_disconnected_witness :
  wire (snd (Service.on_mqtt_message Demo.env
               {| Service.topic := "automation/relay/1";
                  Service.payload := Some "ON" |} Demo.started)) = [].
Proof.
  rewrite (mqtt_dropped_while_disconnected Demo.env
             {| Service.topic := "automation/relay/1"; Service.payload := Some "ON" |}
             "ON" Demo.started eq_refl eq_refl).
  reflexivity.
Defined.



(** X14.  For a message on [<prefix>/command] handled while the board is
    connected and its port is open, the payload [RESET] sends the line
    [RESET] to the board and the payload [STATUS] sends the line
    [STATUS]. *)
Theorem mqtt_command_topic (env : World.Env) (msg : Service.MqttMessage)
        (raw cmd : string) (s : Service.Service) (answer : list string) :
  Service.board_connected s = true -> link_up s ->
  Service.topic msg = Service.mqtt_topic_prefix (Service.config s) ++ "/command" ->
  Service.payload msg = Some raw ->
  Py.upper (Py.strip raw) = cmd -> (cmd = "RESET" \/ cmd = "STATUS") ->
  World.respond env cmd = Py.Ok answer ->
  wire (snd (Service.on_mqtt_message env msg s))
    = (wire s ++ [(cmd ++ Py.nl)%string])%list.
Proof.
  intros Hc Hl Ht Hp Hu Hcmd Hr.
  exact (mqtt_command_wire env msg raw cmd s answer Hc Hl Ht Hp Hu Hcmd Hr).
Qed.

Lemma mqtt_command_topic_witness :
  wire (snd (Service.on_mqtt_message Demo.env
               {| Service.topic := "automation/command";
                  Service.payload := Some "reset" |} Demo.connected))
    = (wire Demo.connected ++ [("RESET" ++ Py.nl)%string])%list.
Proof.
  apply (mqtt_command_topic Demo.env
           {| Service.topic := "automation/command"; Service.payload := Some "reset" |}
           "reset" "RESET" Demo.connected ["OK"]); try reflexivity.
  - exact demo_connected_up.
  - left. reflexivity.
Defined.



(** X16.  [publish_status] never raises.  With the broker connected and
    a client object, a publish that goes through adds exactly the pair of
    [<prefix>/status] and the JSON text of the status to what the client
    has published, and one that fails is logged as an error; without the
    connection or without the client, nothing is published. *)
Theorem publish_status_outcome (env : World.Env) (st : Py.Json)
        (s : Service.Service) :
  let s' := snd (Service.publish_status env st s) in
  let topic := Service.mqtt_topic_prefix (Service.config s) ++ "/status" in
  fst (Service.publish_status env st s) = Py.Ok tt /\
  (forall c,
      Service.mqtt_connected s = true -> Service.mqtt_client s = Some c ->
      World.mqtt_publish env topic (World.json_dumps env st) = Py.Ok tt ->
      option_map Service.published (Service.mqtt_client s')
        = Some (Service.published c ++ [(topic, World.json_dumps env st)])%list) /\
  (forall c e,
      Service.mqtt_connected s = true -> Service.mqtt_client s = Some c ->
      World.mqtt_publish env topic (World.json_dumps env st) = Py.Raise e ->
      s' = Service.add_log Service.ERROR ("MQTT publish error: " ++ Py.exn_str e) s) /\
  (Service.mqtt_connected s = false \/ Service.mqtt_client s = None ->
   s' = Service.add_log Service.DEBUG "MQTT not connected, skipping publish" s).
Proof.
  cbv zeta. split; [apply publish_status_returns|].
  unfold Service.publish_status. rewrite !bind_get.
  split; [|split].
  - intros c Hc Hm Hp. rewrite Hc, Hm, Hp. reflexivity.
  - intros c e Hc Hm Hp. rewrite Hc, Hm, Hp. reflexivity.
  - intros [H|H]; rewrite H; [reflexivity|].
    destruct (Service.mqtt_connected s); reflexivity.
Qed.

Lemma publish_status_outcome_witness :
  option_map Service.published
    (Service.mqtt_client (snd (Service.publish_status Demo.env Demo.status_value
                                 Demo.bridged)))
    = Some [("automation/status", Demo.status_line)].
Proof.
  refine (proj1 (proj2 (publish_status_outcome Demo.env Demo.status_value Demo.bridged))
            _ eq_refl eq_refl eq_refl).
Defined.

(** X17.  [on_mqtt_connect] with result code 0 raises the MQTT flag and
    subscribes the client to [<prefix>/relay/+], [<prefix>/output/+] and
    [<prefix>/command], in that order; with any other code it lowers the
    flag and leaves the client as it is.  Neither touches the board, its
    flag or the error count. *)
Theorem on_mqtt_connect_outcome (rc : Z) (s : Service.Service) :
  let s' := snd (Service.on_mqtt_connect rc s) in
  let prefix := Service.mqtt_topic_prefix (Service.config s) in
  (rc = 0%Z ->
   Service.mqtt_connected s' = true /\
   option_map Service.subscriptions (Service.mqtt_client s') =
   option_map (fun c => (Service.subscriptions c
                           ++ [(prefix ++ "/relay/+")%string;
                               (prefix ++ "/output/+")%string;
                               (prefix ++ "/command")%string])%list)
              (Service.mqtt_client s)) /\
  (rc <> 0%Z ->
   Service.mqtt_connected s' = false /\
   Service.mqtt_client s' = Service.mqtt_client s) /\
  Service.board s' = Service.board s /\
  Service.board_connected s' = Service.board_connected s /\
  Service.error_count s' = Service.error_count s.
Proof.
  cbv zeta. unfold Service.on_mqtt_connect.
  destruct (Z.eqb_spec rc 0) as [->|Hne].
  - unfold Py.bind, Service.logger, Py.modify, Py.get, Service.subscribe.
    destruct (Service.mqtt_client s) as [c|] eqn:E;
      repeat (progress (cbn; rewrite ?E));
      (split; [|split; [intros H; congruence|auto]]); intros _;
      (split; [reflexivity|]); [|reflexivity].
    rewrite <- !app_assoc. reflexivity.
  - split; [intros H; congruence|]. split; [intros _|]; cbn; auto.
Qed.

Lemma on_mqtt_connect_outcome_witness :
  option_map Service.subscriptions (Service.mqtt_client Demo.bridged)
    = Some ["automation/relay/+"; "automation/output/+"; "automation/command"]
  /\ Service.mqtt_connected (snd (Service.on_mqtt_connect 5 Demo.bridged)) = false.
Proof.
  split.
  - exact (proj2 (proj1 (on_mqtt_connect_outcome 0
                           (snd (Service.setup_mqtt Demo.env Demo.connected)))
                    eq_refl)).
  - refine (proj1 (proj1 (proj2 (on_mqtt_connect_outcome 5 Demo.bridged)) _)).
    discriminate.
Defined.

(* ===================================================================== *)
(** ** More of the worker loop *)
(* ===================================================================== *)

Section WorkerFacts.
Import Py World Service.
Variable env : Env.

Lemma connect_board_refused s msg :
  Link.new_board env (serial_port (config s)) (serial_baudrate (config s))
    = Raise (ConnectionError msg) ->
  connect_board env s =
    (Ok false,
     set_board_connected false
       (add_log ERROR ("Board connection failed: " ++ msg)
          (add_log INFO "Connecting to board..." s))).
Proof.
  intros H. unfold connect_board, try_catch, bind, logger, modify, get, lift.
  cbn -[Link.new_board]. rewrite H. reflexivity.
Qed.

Lemma connect_board_escapes s e :
  Link.new_board env (serial_port (config s)) (serial_baudrate (config s))
    = Raise e ->
  (forall msg, e <> ConnectionError msg) ->
  connect_board env s = (Raise e, add_log INFO "Connecting to board..." s).
Proof.
  intros H Hne. unfold connect_board, try_catch, bind, logger, modify, get, lift.
  cbn -[Link.new_board]. rewrite H.
  destruct e; try reflexivity. exfalso. eapply Hne. reflexivity.
Qed.

Lemma last_status_with_board {A} method (m : M Link.Board A) :
  keeps last_status (with_board method m).
Proof. keeps_auto. Qed.

Lemma publish_status_last st : keeps last_status (publish_status env st).
Proof. unfold publish_status. keeps_auto. Qed.

Lemma disconnect_board_last : keeps last_status disconnect_board.
Proof. unfold disconnect_board. keeps_auto. Qed.

Lemma poll_failed_last e : keeps last_status (poll_failed e).
Proof.
  unfold poll_failed. repeat first [ keeps_step | apply disconnect_board_last ].
Qed.

(** The poll once the status call has returned. *)
Lemma poll_after_status s j s1 :
  with_board "status" (Link.status env) s = (Ok j, s1) ->
  poll env s =
  bind (py_get j "inputs" (JArr []))
    (fun inputs =>
       bind (py_get j "relays" (JArr []))
         (fun relays =>
            bind (logger DEBUG ("Board status: inputs=" ++ py_str env inputs
                                  ++ ", relays=" ++ py_str env relays))
              (fun _ =>
                 bind get
                   (fun s2 =>
                      if mqtt_connected s2
                      then bind (publish_status env j)
                             (fun _ => logger DEBUG "Status published to MQTT")
                      else ret tt))))
    (set_last_status j s1).
Proof.
  intros H. unfold poll. unfold bind at 1. rewrite H. reflexivity.
Qed.

Lemma poll_rest_last j :
  keeps last_status
    (bind (@py_get Service j "inputs" (JArr []))
       (fun inputs =>
          bind (py_get j "relays" (JArr []))
            (fun relays =>
               bind (logger DEBUG ("Board status: inputs=" ++ py_str env inputs
                                     ++ ", relays=" ++ py_str env relays))
                 (fun _ =>
                    bind get
                      (fun s2 =>
                         if mqtt_connected s2
                         then bind (publish_status env j)
                                (fun _ => logger DEBUG "Status published to MQTT")
                         else ret tt))))).
Proof. repeat first [ keeps_step | apply publish_status_last ]. Qed.

Lemma poll_rest_channels j :
  keeps channels
    (bind (@py_get Service j "inputs" (JArr []))
       (fun inputs =>
          bind (py_get j "relays" (JArr []))
            (fun relays =>
               bind (logger DEBUG ("Board status: inputs=" ++ py_str env inputs
                                     ++ ", relays=" ++ py_str env relays))
                 (fun _ =>
                    bind get
                      (fun s2 =>
                         if mqtt_connected s2
                         then bind (publish_status env j)
                                (fun _ => logger DEBUG "Status published to MQTT")
                         else ret tt))))).
Proof. repeat first [ keeps_step | apply publish_status_channels ]. Qed.

Lemma poll_rest_returns d s :
  fst (bind (@py_get Service (JObj d) "inputs" (JArr []))
       (fun inputs =>
          bind (py_get (JObj d) "relays" (JArr []))
            (fun relays =>
               bind (logger DEBUG ("Board status: inputs=" ++ py_str env inputs
                                     ++ ", relays=" ++ py_str env relays))
                 (fun _ =>
                    bind get
                      (fun s2 =>
                         if mqtt_connected s2
                         then bind (publish_status env (JObj d))
                                (fun _ => logger DEBUG "Status published to MQTT")
                         else ret tt)))) s) = Ok tt.
Proof.
  unfold py_get, bind at 1 2 3, ret at 1 2, logger at 1, modify at 1.
  rewrite bind_get. cbn [mqtt_connected add_log].
  destruct (mqtt_connected s); [|reflexivity].
  unfold bind. pose proof (publish_status_returns env (JObj d)) as H.
  match goal with
  | |- context [publish_status env (JObj d) ?x] =>
      specialize (H x); destruct (publish_status env (JObj d) x) as [[[]|e] s']
  end; [reflexivity | discriminate H].
Qed.

Lemma board_worker_iter_le1 s :
  (error_count (snd (board_worker_iter env s)) <= error_count s + 1)%Z.
Proof.
  assert (Hp : forall x, (error_count (snd (poll_phase env x)) <= error_count x + 1)%Z).
  { intros x. rewrite poll_phase_count. destruct (is_ok _); lia. }
  unfold board_worker_iter. rewrite bind_get.
  destruct (negb (board_connected s)); [|apply Hp].
  unfold bind at 1, logger at 1, modify at 1. unfold bind at 1.
  pose proof (connect_board_count env (add_log DEBUG
      "Board not connected, attempting connection..." s)) as Hc.
  cbn [error_count add_log] in Hc.
  destruct (connect_board env _) as [[[|]|e] s1]; cbn [snd] in *.
  - rewrite bind_get. unfold bind at 1.
    destruct (negb (mqtt_connected s1)).
    + unfold bind at 1, logger at 1, modify at 1.
      pose proof (setup_mqtt_count env (add_log DEBUG
          "Board connected, setting up MQTT..." s1)) as Hm.
      cbn [error_count add_log] in Hm.
      destruct (setup_mqtt env _) as [[[]|e] s2]; cbn [snd] in *.
      * specialize (Hp s2). lia.
      * lia.
    + cbn. specialize (Hp s1). lia.
  - unfold logger, modify. cbn. lia.
  - lia.
Qed.

End WorkerFacts.

(** X18.  A turn of the worker loop on a disconnected service whose
    connection attempt ends in [ConnectionError] makes no poll: it logs
    the failure and returns with the service still disconnected, and the
    board object, the error count and the cached status are as before. *)
Theorem failed_reconnect_turn (env : World.Env) (s : Service.Service)
        (msg : string) :
  Service.board_connected s = false ->
  Link.new_board env (Service.serial_port (Service.config s))
    (Service.serial_baudrate (Service.config s))
    = Py.Raise (Py.ConnectionError msg) ->
  let s' := snd (Service.board_worker_iter env s) in
  fst (Service.board_worker_iter env s) = Py.Ok tt /\
  Service.log s' =
    (Service.log s ++
     [ (Service.DEBUG, "Board not connected, attempting connection...");
       (Service.INFO, "Connecting to board...");
       (Service.ERROR, ("Board connection failed: " ++ msg)%string);
       (Service.DEBUG,
        ("Connection failed, retrying in "
           ++ Py.str_of_Z (Service.serial_reconnect_interval (Service.config s))
           ++ "s")%string) ])%list /\
  Service.board_connected s' = false /\
  Service.board s' = Service.board s /\
  Service.error_count s' = Service.error_count s /\
  Service.last_status s' = Service.last_status s.
Proof.
  intros Hc Hn. cbv zeta.
  assert (Hi : Service.board_worker_iter env s =
               (Py.Ok tt,
                Service.add_log Service.DEBUG
                  ("Connection failed, retrying in "
                     ++ Py.str_of_Z (Service.serial_reconnect_interval (Service.config s))
                     ++ "s")
                  (Service.set_board_connected false
                     (Service.add_log Service.ERROR ("Board connection failed: " ++ msg)
                        (Service.add_log Service.INFO "Connecting to board..."
                           (Service.add_log Service.DEBUG
                              "Board not connected, attempting connection..." s)))))).
  { unfold Service.board_worker_iter. rewrite bind_get, Hc. cbn [negb].
    unfold Py.bind at 1, Service.logger at 1, Py.modify at 1. unfold Py.bind at 1.
    rewrite (connect_board_refused env
               (Service.add_log Service.DEBUG
                  "Board not connected, attempting connection..." s) msg Hn).
    reflexivity. }
  rewrite Hi. cbn [fst snd Service.log Service.add_log Service.set_board_connected
                   Service.board_connected Service.board Service.error_count
                   Service.last_status].
  rewrite <- !app_assoc. repeat split.
Qed.

Lemma failed_reconnect_turn_witness :
  Service.error_count (snd (Service.board_worker_iter Demo.unplugged Demo.started))
    = Service.error_count Demo.started /\
  Service.board_connected (snd (Service.board_worker_iter Demo.busy Demo.started))
    = false.
Proof.
  split.
  - refine (proj1 (proj2 (proj2 (proj2 (proj2
              (failed_reconnect_turn Demo.unplugged Demo.started _ eq_refl _)))))).
    reflexivity.
  - refine (proj1 (proj2 (proj2
              (failed_reconnect_turn Demo.busy Demo.started _ eq_refl _)))).
    reflexivity.
Defined.

(** X19.  An exception of the constructor other than [ConnectionError],
    such as the [CommandError] of a board that opens but does not answer
    [PING], is not caught by [connect_board]: it leaves [connect_board],
    the turn of the loop and [board_worker] itself, with the service
    still disconnected and the error count as it was. *)
Theorem other_exception_ends_worker (env : World.Env) (s : Service.Service)
        (e : Py.exn) :
  Service.board_connected s = false -> Service.running s = true ->
  Link.new_board env (Service.serial_port (Service.config s))
    (Service.serial_baudrate (Service.config s)) = Py.Raise e ->
  (forall msg, e <> Py.ConnectionError msg) ->
  fst (Service.connect_board env s) = Py.Raise e /\
  fst (Service.board_worker_iter env s) = Py.Raise e /\
  (forall turns, fst (Service.board_worker env (S turns) s) = Py.Raise e) /\
  Service.board_connected (snd (Service.board_worker_iter env s)) = false /\
  Service.error_count (snd (Service.board_worker_iter env s))
    = Service.error_count s.
Proof.
  intros Hc Hr Hn Hne.
  assert (Hi : Service.board_worker_iter env s =
               (Py.Raise e,
                Service.add_log Service.INFO "Connecting to board..."
                  (Service.add_log Service.DEBUG
                     "Board not connected, attempting connection..." s))).
  { unfold Service.board_worker_iter. rewrite bind_get, Hc. cbn [negb].
    unfold Py.bind at 1, Service.logger at 1, Py.modify at 1. unfold Py.bind at 1.
    rewrite (connect_board_escapes env
               (Service.add_log Service.DEBUG
                  "Board not connected, attempting connection..." s) e Hn Hne).
    reflexivity. }
  split; [rewrite (connect_board_escapes env s e Hn Hne); reflexivity|].
  rewrite Hi. split; [reflexivity|]. split; [|split; [exact Hc | reflexivity]].
  intros turns. cbn [Service.board_worker]. rewrite bind_get, Hr.
  unfold Py.bind. rewrite Hi. reflexivity.
Qed.

Lemma other_exception_ends_worker_witness :
  fst (Service.board_worker Demo.silent 3 Demo.started)
    = Py.Raise (Py.CommandError "No response from board").
Proof.
  refine (proj1 (proj2 (proj2
            (other_exception_ends_worker Demo.silent Demo.started
               (Py.CommandError "No response from board") eq_refl eq_refl eq_refl _)))
            2).
  intros msg. discriminate.
Defined.

(** X20.  Once the status call of a poll has returned a value, that value
    is the cached status after the poll, whatever happens next.  When the
    value is a JSON object the poll succeeds, also when the MQTT publish
    fails: the flags and the error count are as before and
    [GET /api/status] of a connected service answers 200 with that
    object. *)
Theorem poll_stores_status (env : World.Env) (s : Service.Service)
        (j : Py.Json) (s1 : Service.Service) :
  Service.with_board "status" (Link.status env) s = (Py.Ok j, s1) ->
  let s' := snd (Service.poll_phase env s) in
  Service.last_status s' = j /\
  (forall d, j = Py.JObj d ->
             fst (Service.poll env s) = Py.Ok tt /\
             channels s' = channels s /\
             (Service.board_connected s = true ->
              fst (Service.status s') = Py.Ok (Service.jsonify j 200))).
Proof.
  intros H. cbv zeta.
  pose proof (poll_after_status env s j s1 H) as Hp.
  assert (Hl : Service.last_status (snd (Service.poll env s)) = j).
  { rewrite Hp, poll_rest_last. reflexivity. }
  assert (Hs1 : channels s1 = channels s).
  { pose proof (keeps_with_board channels "status" (Link.status env)) as K.
    assert (Hk : keeps channels (Service.with_board "status" (Link.status env))).
    { apply K. intros b b' x Hx. unfold channels. cbn. rewrite Hx. reflexivity. }
    specialize (Hk s). rewrite H in Hk. exact Hk. }
  split.
  - unfold Service.poll_phase, Py.try_except.
    destruct (Service.poll env s) as [[[]|e] s2] eqn:E; cbn [snd] in *; [exact Hl|].
    rewrite poll_failed_last. exact Hl.
  - intros d ->.
    assert (Hok : fst (Service.poll env s) = Py.Ok tt)
      by (rewrite Hp; apply poll_rest_returns).
    assert (Hph : Service.poll_phase env s = Service.poll env s).
    { unfold Service.poll_phase, Py.try_except.
      destruct (Service.poll env s) as [[[]|e] s2]; [reflexivity|discriminate Hok]. }
    rewrite Hph. split; [exact Hok|].
    assert (Hch : channels (snd (Service.poll env s)) = channels s).
    { rewrite Hp, poll_rest_channels. exact Hs1. }
    split; [exact Hch|]. intros Hc.
    unfold Service.status. rewrite bind_get.
    assert (Hbc : Service.board_connected (snd (Service.poll env s)) = true).
    { unfold channels in Hch. injection Hch as _ Hbc' _ _ _ _.
      intros. congruence. }
    rewrite Hbc, Hl. reflexivity.
Qed.

Lemma poll_stores_status_witness :
  Service.last_status (snd (Service.poll_phase Demo.env Demo.connected))
    = Demo.status_value.
Proof.
  refine (proj1 (poll_stores_status Demo.env Demo.connected Demo.status_value _ _)).
  vm_compute. reflexivity.
Defined.

(** X21.  When the status call of a poll raises, the cached status is
    left as it was, and with the board now disconnected
    [GET /api/status] answers 503. *)
Theorem failed_status_keeps_cache (env : World.Env) (s : Service.Service)
        (e : Py.exn) (s1 : Service.Service) :
  Service.with_board "status" (Link.status env) s = (Py.Raise e, s1) ->
  let s' := snd (Service.poll_phase env s) in
  Service.last_status s' = Service.last_status s /\
  fst (Service.status s') =
    Py.Ok (Service.jsonify (Py.JObj [("error", Py.JStr "Board not connected")]) 503).
Proof.
  intros H. cbv zeta.
  assert (Hp : Service.poll env s = (Py.Raise e, s1)).
  { unfold Service.poll. unfold Py.bind at 1. rewrite H. reflexivity. }
  unfold Service.poll_phase, Py.try_except. rewrite Hp.
  destruct (poll_failed_post e s1) as [_ [Hd _]]. split.
  - rewrite poll_failed_last.
    pose proof (last_status_with_board "status" (Link.status env) s) as K.
    rewrite H in K. exact K.
  - unfold Service.status. rewrite bind_get, Hd. reflexivity.
Qed.

Lemma failed_status_keeps_cache_witness :
  Service.last_status (snd (Service.poll_phase Demo.silent Demo.connected))
    = Service.last_status Demo.connected.
Proof.
  refine (proj1 (failed_status_keeps_cache Demo.silent Demo.connected
                   (Py.CommandError "No response from board") _ _)).
  vm_compute. reflexivity.
Defined.

(** X22.  However many turns the worker loop makes, the error count
    grows by at most one per turn. *)
Theorem worker_counts_at_most_turns (env : World.Env) (turns : nat)
        (s : Service.Service) :
  (Service.error_count (snd (Service.board_worker env turns s))
   <= Service.error_count s + Z.of_nat turns)%Z.
Proof.
  revert s. induction turns as [|n IH]; intros s.
  - cbn. lia.
  - cbn [Service.board_worker]. rewrite bind_get.
    destruct (Service.running s); [|cbn [snd Py.ret]; lia].
    unfold Py.bind. pose proof (board_worker_iter_le1 env s) as H.
    destruct (Service.board_worker_iter env s) as [[[]|e] s1]; cbn [snd] in *.
    + specialize (IH s1). lia.
    + lia.
Qed.

Section Stopping.
Import Py World Service.

Lemma disconnect_board_returns s : fst (disconnect_board s) = Ok tt.
Proof.
  unfold disconnect_board, bind, get, try_except, logger, modify, with_board. cbn.
  destruct (board s) as [b|] eqn:E; cbn; [|reflexivity].
  rewrite E. destruct (Link.disconnect b) as [[[]|e] b']; reflexivity.
Qed.

Lemma disconnect_board_running : keeps running disconnect_board.
Proof. unfold disconnect_board. keeps_auto. Qed.

Lemma disconnect_board_client : keeps mqtt_client disconnect_board.
Proof. unfold disconnect_board. keeps_auto. Qed.

Lemma board_worker_stopped env turns s :
  running s = false -> board_worker env turns s = (Ok tt, s).
Proof.
  intros H. destruct turns; [reflexivity|].
  cbn [board_worker]. rewrite bind_get, H. reflexivity.
Qed.

End Stopping.

(** X23.  [stop] returns with the run flag down, the board object
    dropped, the board flag down and the network loop of the MQTT client
    stopped; the error count and the cached status are as before.  From
    then on the worker loop makes no turn. *)
Theorem stop_ends_everything (s : Service.Service) :
  let s' := snd (Service.stop s) in
  fst (Service.stop s) = Py.Ok tt /\
  Service.running s' = false /\
  Service.board s' = None /\ Service.board_connected s' = false /\
  option_map Service.loop_running (Service.mqtt_client s')
    = option_map (fun _ => false) (Service.mqtt_client s) /\
  Service.error_count s' = Service.error_count s /\
  Service.last_status s' = Service.last_status s /\
  (forall env turns, Service.board_worker env turns s' = (Py.Ok tt, s')).
Proof.
  cbv zeta.
  assert (H : fst (Service.stop s) = Py.Ok tt /\
              Service.running (snd (Service.stop s)) = false /\
              Service.board (snd (Service.stop s)) = None /\
              Service.board_connected (snd (Service.stop s)) = false /\
              option_map Service.loop_running (Service.mqtt_client (snd (Service.stop s)))
                = option_map (fun _ => false) (Service.mqtt_client s) /\
              Service.error_count (snd (Service.stop s)) = Service.error_count s /\
              Service.last_status (snd (Service.stop s)) = Service.last_status s).
  { unfold Service.stop.
    generalize disconnect_board_returns, disconnect_board_post,
      (disconnect_board_running : keeps _ _), (disconnect_board_client : keeps _ _),
      (disconnect_board_count : keeps _ _), (disconnect_board_last : keeps _ _).
    generalize Service.disconnect_board as db.
    intros db Hret Hpost Hrun Hcl Hcnt Hlast.
    unfold Py.bind, Service.logger, Py.modify, Py.get. cbn.
    destruct (Service.mqtt_client s) as [c|] eqn:E; cbn;
      match goal with
      | |- context [db ?x] =>
          specialize (Hret x); specialize (Hpost x); specialize (Hrun x);
          specialize (Hcl x); specialize (Hcnt x); specialize (Hlast x);
          destruct (db x) as [r s'']
      end;
      cbn in *; destruct Hpost as [Hp1 Hp2]; subst r;
      rewrite Hrun, Hcl, Hcnt, Hlast, ?E; repeat split; assumption. }
  destruct H as [H1 [H2 [H3 [H4 [H5 [H6 H7]]]]]].
  repeat split; try assumption.
  intros env turns. apply board_worker_stopped, H2.
Qed.

(** * The firmware: [src/firmware-python/main.py] *)

(** ** White space, case and words *)

Section Words.
Import Py Controller.

Lemma is_space_upper c : is_space (upper_ascii c) = is_space c.
Proof. destruct c as [[] [] [] [] [] [] [] []]; reflexivity. Qed.

Lemma upper_app a b : upper (a ++ b) = (upper a ++ upper b)%string.
Proof.
  induction a as [|c r IH]; [reflexivity|].
  cbn [upper append]. now rewrite IH.
Qed.

(** What [lstrip] leaves begins with something that is no white space. *)
Lemma lstrip_head s :
  lstrip s = EmptyString \/
  exists c r, lstrip s = String c r /\ is_space c = false.
Proof.
  induction s as [|c r IH]; [now left|].
  cbn [lstrip]. destruct (is_space c) eqn:E; [exact IH|].
  right. now exists c, r.
Qed.

Lemma rstrip_head c r :
  is_space c = false -> exists r', rstrip (String c r) = String c r'.
Proof.
  intros E. cbn [rstrip]. rewrite E. destruct (rstrip r); eauto.
Qed.

Lemma strip_head s :
  strip s = EmptyString \/
  exists c r, strip s = String c r /\ is_space c = false.
Proof.
  unfold strip. destruct (lstrip_head s) as [E | (c & r & E & Hc)]; rewrite E.
  - now left.
  - right. destruct (rstrip_head c r Hc) as [r' E']. now exists c, r'.
Qed.

Lemma split_ws_some w s : split_ws (Some w) s <> [].
Proof.
  revert w. induction s as [|c r IH]; intros w; cbn [split_ws]; [discriminate|].
  destruct (is_space c); [discriminate | apply IH].
Qed.

(** The second early return of [parse_command] is never taken: a stripped
    line that is not empty has a first word. *)
Lemma words_of_stripped s :
  strip s <> EmptyString -> words (upper (strip s)) <> [].
Proof.
  intros Hne. destruct (strip_head s) as [E | (c & r & E & Hc)]; [contradiction|].
  rewrite E. unfold words. cbn [upper split_ws]. rewrite is_space_upper, Hc.
  apply split_ws_some.
Qed.

End Words.

(** ** One command, one answer *)

Ltac handler_crush :=
  cbv beta iota delta [Py.bind Py.ret Py.raise Py.get Py.modify Controller.to_int];
  repeat (match goal with
          | |- context [match ?x with _ => _ end] =>
              lazymatch x with
              | context [match _ with _ => _ end] => fail
              | _ => destruct x
              end
          end; cbv beta iota).

Section FirmwareAnswers.
Import Py Controller.
Context {H F : Type}.
Variable drv : Driver H F.

Ltac answer_crush :=
  intros h; handler_crush;
  first [exact I | left; reflexivity | right; reflexivity].

Lemma cmd_relay_answer args : answers_ok_or_err (cmd_relay drv args).
Proof. unfold cmd_relay. answer_crush. Qed.

Lemma cmd_output_answer args : answers_ok_or_err (cmd_output drv args).
Proof. unfold cmd_output. answer_crush. Qed.

Lemma cmd_input_answer args : answers_ok_or_err (cmd_input drv args).
Proof. unfold cmd_input. answer_crush. Qed.

Lemma cmd_adc_answer args : answers_ok_or_err (cmd_adc drv args).
Proof. unfold cmd_adc. answer_crush. Qed.

Lemma cmd_led_answer args : answers_ok_or_err (cmd_led drv args).
Proof. unfold cmd_led. answer_crush. Qed.

Lemma cmd_button_answer args : answers_ok_or_err (cmd_button drv args).
Proof. unfold cmd_button. answer_crush. Qed.

Lemma cmd_reset_answer : answers_ok_or_err (cmd_reset drv).
Proof. unfold cmd_reset. answer_crush. Qed.

Lemma ok_or_err_terminates l :
  startswith l "OK" = true \/ startswith l "ERR" = true ->
  Link.is_terminator l = true.
Proof.
  unfold Link.is_terminator. intros [E | E]; rewrite E; [reflexivity|].
  now rewrite Bool.orb_true_r.
Qed.

(** What [parse_command] prints for one handler's answer. *)
Lemma one_line_out (m : M H string) h :
  answers_ok_or_err m ->
  exists l,
    fst (match bind m (fun r => ret [r]) h with
         | (Ok out, h') => (out, h')
         | (Raise e, h') => (["ERR " ++ exn_name e ++ ": " ++ exn_str e], h')
         end) = [l]
    /\ Link.is_terminator l = true.
Proof.
  intros Hm. specialize (Hm h). unfold bind, ret.
  destruct (m h) as [[l | e] h']; cbn [fst].
  - exists l. split; [reflexivity | now apply ok_or_err_terminates].
  - eexists. split; [reflexivity | reflexivity].
Qed.

(** X24. Every command line gets its answer, and the answer ends the read
    loop of the host: a blank line and a comment print nothing and leave
    the hardware alone; any other line has a first word, [HELP] prints the
    help text, and every other command prints exactly one line, which
    begins with [OK], [ERR] or, the status being a JSON object, a brace. *)
Theorem one_answer_per_command (line : string) (h : H)
  (Hjson : forall r o i a x y,
      startswith (status_text drv r o i a x y) "{" = true) :
  (strip line = EmptyString \/ is_comment (strip line) = true ->
   parse_command drv line h = ([], h))
  /\ (strip line <> EmptyString -> is_comment (strip line) = false ->
      exists cmd args,
        words (upper (strip line)) = cmd :: args
        /\ if String.eqb cmd "HELP"
           then parse_command drv line h
                = (Firmware.cmd_help (NUM_RELAYS drv) (NUM_OUTPUTS drv)
                     (NUM_INPUTS drv) (NUM_ADCS drv), h)
           else exists l, fst (parse_command drv line h) = [l]
                          /\ Link.is_terminator l = true).
Proof.
  unfold is_comment, parse_command. split.
  - intros [E | E]; rewrite E; [reflexivity|].
    now rewrite Bool.orb_true_r.
  - intros Hne Hc. rewrite Hc.
    destruct (String.eqb_spec (strip line) EmptyString) as [E | _]; [contradiction|].
    cbn [orb].
    pose proof (words_of_stripped line Hne) as Hw.
    destruct (words (upper (strip line))) as [|cmd args]; [contradiction|].
    exists cmd, args. split; [reflexivity|].
    unfold dispatch.
    destruct (String.eqb_spec cmd "RELAY") as [-> | _];
      [apply one_line_out, cmd_relay_answer|].
    destruct (String.eqb_spec cmd "OUTPUT") as [-> | _];
      [apply one_line_out, cmd_output_answer|].
    destruct (String.eqb_spec cmd "INPUT") as [-> | _];
      [apply one_line_out, cmd_input_answer|].
    destruct (String.eqb_spec cmd "ADC") as [-> | _];
      [apply one_line_out, cmd_adc_answer|].
    destruct (String.eqb_spec cmd "LED") as [-> | _];
      [apply one_line_out, cmd_led_answer|].
    destruct (String.eqb_spec cmd "BUTTON") as [-> | _];
      [apply one_line_out, cmd_button_answer|].
    destruct (String.eqb_spec cmd "STATUS") as [-> | _].
    { cbn [String.eqb Ascii.eqb Bool.eqb]. unfold cmd_status, bind, get, ret. cbn [fst].
      eexists. split; [reflexivity|].
      unfold Link.is_terminator. rewrite Hjson. now rewrite !Bool.orb_true_r. }
    destruct (String.eqb_spec cmd "RESET") as [-> | _];
      [apply one_line_out, cmd_reset_answer|].
    destruct (String.eqb_spec cmd "VERSION") as [-> | _].
    { cbn [String.eqb Ascii.eqb Bool.eqb]. unfold ret. cbn [fst].
      eexists. split; reflexivity. }
    destruct (String.eqb cmd "HELP"); [reflexivity|].
    destruct (String.eqb cmd "PING"); unfold ret; cbn [fst];
      eexists; (split; [reflexivity | reflexivity]).
Qed.


Ltac refusal_crush :=
  intros h; handler_crush;
  first [reflexivity | intros E; first [reflexivity | discriminate E]].

Lemma cmd_relay_refusal args : refusal_keeps (cmd_relay drv args).
Proof. unfold cmd_relay. refusal_crush. Qed.

Lemma cmd_output_refusal args : refusal_keeps (cmd_output drv args).
Proof. unfold cmd_output. refusal_crush. Qed.

Lemma cmd_input_refusal args : refusal_keeps (cmd_input drv args).
Proof. unfold cmd_input. refusal_crush. Qed.

Lemma cmd_adc_refusal args : refusal_keeps (cmd_adc drv args).
Proof. unfold cmd_adc. refusal_crush. Qed.

Lemma cmd_led_refusal args : refusal_keeps (cmd_led drv args).
Proof. unfold cmd_led. refusal_crush. Qed.

Lemma cmd_button_refusal args : refusal_keeps (cmd_button drv args).
Proof. unfold cmd_button. refusal_crush. Qed.

Lemma cmd_status_refusal : refusal_keeps (cmd_status drv).
Proof. unfold cmd_status. refusal_crush. Qed.

Lemma cmd_reset_refusal : refusal_keeps (cmd_reset drv).
Proof. unfold cmd_reset. refusal_crush. Qed.

Lemma refusal_out (m : M H string) h l :
  refusal_keeps m ->
  let r := match bind m (fun r => ret [r]) h with
           | (Ok out, h') => (out, h')
           | (Raise e, h') => (["ERR " ++ exn_name e ++ ": " ++ exn_str e], h')
           end in
  fst r = [l] -> startswith l "ERR" = true -> snd r = h.
Proof.
  intros Hm. specialize (Hm h). unfold bind, ret.
  destruct (m h) as [[l0 | e] h']; cbn [fst snd].
  - intros [= ->]. exact Hm.
  - intros _ _. exact Hm.
Qed.

(** X25. A command that the firmware answers with an [ERR] line has
    changed nothing: every handler checks its arguments, and converts the
    numbers, before it touches the hardware. *)
Theorem refused_commands_change_nothing (line : string) (h : H) (l : string) :
  fst (parse_command drv line h) = [l] ->
  startswith l "ERR" = true ->
  snd (parse_command drv line h) = h.
Proof.
  unfold parse_command.
  destruct (String.eqb (strip line) EmptyString || startswith (strip line) "#");
    [reflexivity|].
  destruct (words (upper (strip line))) as [|cmd args]; [reflexivity|].
  unfold dispatch.
  destruct (String.eqb cmd "RELAY"); [apply refusal_out, cmd_relay_refusal|].
  destruct (String.eqb cmd "OUTPUT"); [apply refusal_out, cmd_output_refusal|].
  destruct (String.eqb cmd "INPUT"); [apply refusal_out, cmd_input_refusal|].
  destruct (String.eqb cmd "ADC"); [apply refusal_out, cmd_adc_refusal|].
  destruct (String.eqb cmd "LED"); [apply refusal_out, cmd_led_refusal|].
  destruct (String.eqb cmd "BUTTON"); [apply refusal_out, cmd_button_refusal|].
  destruct (String.eqb cmd "STATUS"); [apply refusal_out, cmd_status_refusal|].
  destruct (String.eqb cmd "RESET"); [apply refusal_out, cmd_reset_refusal|].
  destruct (String.eqb cmd "VERSION"); [reflexivity|].
  destruct (String.eqb cmd "HELP"); [reflexivity|].
  destruct (String.eqb cmd "PING"); reflexivity.
Qed.

Lemma keeps_out (m : M H string) h :
  snd (m h) = h ->
  snd (match bind m (fun r => ret [r]) h with
       | (Ok out, h') => (out, h')
       | (Raise e, h') => (["ERR " ++ exn_name e ++ ": " ++ exn_str e], h')
       end) = h.
Proof.
  unfold bind, ret. destruct (m h) as [[l0 | e] h']; cbn [snd]; auto.
Qed.

Ltac query_crush := handler_crush; reflexivity.

Lemma cmd_relay_query args h :
  match args with [] => true | a0 :: _ => endswith_q a0 end = true ->
  snd (cmd_relay drv args h) = h.
Proof.
  unfold cmd_relay. destruct args as [|a0 rest]; [reflexivity|].
  intros ->. query_crush.
Qed.

Lemma cmd_output_query args h :
  match args with [] => true | a0 :: _ => endswith_q a0 end = true ->
  snd (cmd_output drv args h) = h.
Proof.
  unfold cmd_output. destruct args as [|a0 rest]; [reflexivity|].
  intros ->. query_crush.
Qed.

Lemma cmd_input_query args h : snd (cmd_input drv args h) = h.
Proof. unfold cmd_input. query_crush. Qed.

Lemma cmd_adc_query args h : snd (cmd_adc drv args h) = h.
Proof. unfold cmd_adc. query_crush. Qed.

Lemma cmd_button_query args h : snd (cmd_button drv args h) = h.
Proof. unfold cmd_button. query_crush. Qed.

(** X26. Asking changes nothing: blank lines and comments, [RELAY] and
    [OUTPUT] with a question mark after the index, [INPUT], [ADC],
    [BUTTON], [STATUS], [VERSION], [HELP], [PING] and unknown commands
    leave the hardware as it was, whatever their arguments and whatever
    the answer. *)
Theorem queries_leave_hardware (line : string) (h : H) :
  is_query line = true -> snd (parse_command drv line h) = h.
Proof.
  unfold is_query, parse_command.
  destruct (String.eqb (strip line) EmptyString || startswith (strip line) "#");
    [reflexivity|].
  destruct (words (upper (strip line))) as [|cmd args]; [reflexivity|].
  unfold dispatch.
  destruct (String.eqb cmd "RELAY").
  { cbn [orb]. intros Hq. now apply keeps_out, cmd_relay_query. }
  destruct (String.eqb cmd "OUTPUT").
  { cbn [orb]. intros Hq. now apply keeps_out, cmd_output_query. }
  cbn [orb].
  destruct (String.eqb cmd "INPUT"); [intros _; apply keeps_out, cmd_input_query|].
  destruct (String.eqb cmd "ADC"); [intros _; apply keeps_out, cmd_adc_query|].
  destruct (String.eqb cmd "LED"); [discriminate|].
  destruct (String.eqb cmd "BUTTON"); [intros _; apply keeps_out, cmd_button_query|].
  destruct (String.eqb cmd "STATUS"); [reflexivity|].
  destruct (String.eqb cmd "RESET"); [discriminate|].
  destruct (String.eqb cmd "VERSION"); [reflexivity|].
  destruct (String.eqb cmd "HELP"); [reflexivity|].
  destruct (String.eqb cmd "PING"); reflexivity.
Qed.

End FirmwareAnswers.

(** A status line as [json.dumps] writes it, a relay command and a query
    on the bench board. *)
Lemma one_answer_per_command_witness :
  (forall r o i a x y,
      Py.startswith (Controller.status_text Demo.bench r o i a x y) "{" = true)
  /\ exists cmd args,
      Controller.words (Py.upper (Py.strip "relay 2 on")) = cmd :: args
      /\ if String.eqb cmd "HELP"
         then Controller.parse_command Demo.bench "relay 2 on" Demo.at_rest
              = (Firmware.cmd_help 3 3 4 3, Demo.at_rest)
         else exists l,
             fst (Controller.parse_command Demo.bench "relay 2 on" Demo.at_rest) = [l]
             /\ Link.is_terminator l = true.
Proof.
  assert (Hj : forall r o i a x y,
             Py.startswith (Controller.status_text Demo.bench r o i a x y) "{" = true)
    by (intros; reflexivity).
  split; [exact Hj|].
  apply (proj2 (one_answer_per_command Demo.bench "relay 2 on" Demo.at_rest Hj)).
  - intros E. vm_compute in E. discriminate E.
  - reflexivity.
Defined.

Lemma refused_commands_change_nothing_witness :
  fst (Controller.parse_command Demo.bench "relay 7 on" Demo.at_rest)
  = ["ERR Relay index out of range (1-3)"]
  /\ snd (Controller.parse_command Demo.bench "relay 7 on" Demo.at_rest)
     = Demo.at_rest.
Proof.
  split; [reflexivity|].
  apply (refused_commands_change_nothing Demo.bench "relay 7 on" Demo.at_rest
           "ERR Relay index out of range (1-3)"); reflexivity.
Defined.

Lemma queries_leave_hardware_witness :
  is_query "relay 2?" = true
  /\ snd (Controller.parse_command Demo.bench "relay 2?" [false; true; false])
     = [false; true; false].
Proof.
  split; [reflexivity|].
  apply (queries_leave_hardware Demo.bench "relay 2?" [false; true; false]).
  reflexivity.
Defined.

(** ** The [run] loop *)

Section RunLoop.
Import Py Controller.
Context {H F : Type}.
Variable drv : Driver H F.

Lemma append_nil_r (s : string) : (s ++ EmptyString)%string = s.
Proof. induction s as [|c r IH]; [reflexivity|]. cbn [append]. now rewrite IH. Qed.

Lemma append_assoc (a b c : string) :
  ((a ++ b) ++ c)%string = (a ++ (b ++ c))%string.
Proof. induction a as [|x r IH]; [reflexivity|]. cbn [append]. now rewrite IH. Qed.

Lemma set_buffer_same (c : State H) : set_buffer (buffer c) c = c.
Proof. now destruct c. Qed.

(** Characters that end no line only pile up in the buffer. *)
Lemma feed_text (s : string) (c : State H) :
  one_line s = true ->
  feed drv s c = ([], set_buffer (buffer c ++ s) c).
Proof.
  revert c. induction s as [|ch r IH]; intros c Hs.
  - cbn [feed]. now rewrite append_nil_r, set_buffer_same.
  - cbn [one_line] in Hs. apply Bool.andb_true_iff in Hs as [Hch Hr].
    apply Bool.negb_true_iff in Hch.
    cbn [feed]. unfold feed_char at 1. rewrite Hch.
    rewrite (IH _ Hr). cbn [app buffer set_buffer board running].
    now rewrite append_assoc.
Qed.

Lemma feed_app (a b : string) (c : State H) :
  feed drv (a ++ b) c
  = (fst (feed drv a c) ++ fst (feed drv b (snd (feed drv a c))),
     snd (feed drv b (snd (feed drv a c))))%list.
Proof.
  revert c. induction a as [|ch r IH]; intros c.
  - cbn [append feed fst snd app]. now destruct (feed drv b c).
  - cbn [append feed]. destruct (feed_char drv ch c) as [o1 c1].
    rewrite IH. destruct (feed drv r c1) as [o2 c2]. cbn [fst snd].
    now rewrite app_assoc.
Qed.

(** A line end after [text]: the buffer and [text] together are the
    command, unless they are empty. *)
Lemma feed_line_end (text : string) (ch : ascii) (c : State H) :
  one_line text = true ->
  (Ascii.eqb ch (ascii_of_nat 10) || Ascii.eqb ch (ascii_of_nat 13)) = true ->
  feed drv (text ++ String ch EmptyString) c
  = if String.eqb (buffer c ++ text) EmptyString then ([], c)
    else (fst (parse_command drv (buffer c ++ text) (board c)),
          set_buffer EmptyString
            (set_hw (snd (parse_command drv (buffer c ++ text) (board c))) c)).
Proof.
  intros Ht Hch. rewrite feed_app, (feed_text _ _ Ht). cbn [fst snd app feed].
  unfold feed_char. rewrite Hch. cbn [buffer set_buffer board].
  destruct (String.eqb_spec (buffer c ++ text) EmptyString) as [E | _]; cbn [negb].
  - destruct (buffer c) eqn:Eb; [|discriminate E].
    cbn [append] in E. subst text. cbn [append]. rewrite <- Eb.
    now rewrite set_buffer_same.
  - destruct (parse_command drv (buffer c ++ text) (board c)) as [out h'].
    cbn [fst snd]. rewrite app_nil_r. now destruct c.
Qed.

(** The command that [_send_command] writes reaches [parse_command] as it
    was written. *)
Lemma answer_eq (cmd : string) (h : H) :
  one_line cmd = true -> cmd <> EmptyString ->
  answer drv cmd h = fst (parse_command drv cmd h)
  /\ after drv cmd h = snd (parse_command drv cmd h).
Proof.
  intros Hc Hne. unfold answer, after, nl.
  rewrite (feed_line_end cmd (ascii_of_nat 10) (idle h) Hc eq_refl). cbn [idle buffer board append].
  destruct (String.eqb_spec cmd EmptyString) as [E | _]; [contradiction|].
  split; reflexivity.
Qed.

(** X27. The [run] loop hands [parse_command] whole lines: characters
    that end no line are only added to the buffer; a line feed or a
    carriage return after them makes one call of [parse_command], on what
    the buffer held together with them, and empties the buffer; on an
    empty buffer a line end does nothing, so the second character of a
    CR LF pair is passed over. *)
Theorem run_hands_over_whole_lines (text : string) (ch : ascii) (c : State H) :
  one_line text = true ->
  ch = ascii_of_nat 10 \/ ch = ascii_of_nat 13 ->
  let line := (buffer c ++ text)%string in
  feed drv text c = ([], set_buffer line c)
  /\ feed drv (text ++ String ch EmptyString) c
     = (if String.eqb line EmptyString then ([], c)
        else (fst (parse_command drv line (board c)),
              set_buffer EmptyString
                (set_hw (snd (parse_command drv line (board c))) c)))
  /\ (line <> EmptyString ->
      feed drv (text ++ String (ascii_of_nat 13) (String (ascii_of_nat 10) EmptyString)) c
      = feed drv (text ++ String ch EmptyString) c).
Proof.
  intros Ht Hch line. split; [now apply feed_text|]. split.
  - apply feed_line_end; [exact Ht|]. destruct Hch as [-> | ->]; reflexivity.
  - intros Hne.
    change (String (ascii_of_nat 13) (String (ascii_of_nat 10) EmptyString))
      with (String (ascii_of_nat 13) EmptyString ++ String (ascii_of_nat 10) EmptyString)%string.
    rewrite <- append_assoc, feed_app.
    rewrite (feed_line_end text (ascii_of_nat 13) c Ht eq_refl).
    rewrite (feed_line_end text ch c Ht)
      by (destruct Hch as [-> | ->]; reflexivity).
    fold line. destruct (String.eqb_spec line EmptyString) as [E | _]; [contradiction|].
    cbn [fst snd feed]. unfold feed_char.
    cbn [buffer set_buffer set_hw String.eqb negb orb Ascii.eqb Bool.eqb ascii_of_nat].
    change (Ascii.eqb (ascii_of_nat 10) (ascii_of_nat 10)) with true.
    cbn [orb app]. now rewrite app_nil_r.
Qed.

End RunLoop.

Lemma run_hands_over_whole_lines_witness :
  Controller.feed Demo.bench "relay 2 on" (idle Demo.at_rest)
  = ([], Controller.set_buffer "relay 2 on" (idle Demo.at_rest))
  /\ fst (Controller.feed Demo.bench ("relay 2 on" ++ Py.nl) (idle Demo.at_rest))
     = ["OK"].
Proof.
  destruct (run_hands_over_whole_lines Demo.bench "relay 2 on" (ascii_of_nat 10)
              (idle Demo.at_rest) eq_refl (or_introl eq_refl)) as (E1 & E2 & _).
  split; [exact E1|]. unfold Py.nl. rewrite E2. reflexivity.
Defined.

(** ** The commands of the host library, as the firmware reads them *)

Section Tokens.
Import Py Controller.

Lemma token_char_spec c :
  token_char c = true ->
  is_space c = false /\ upper_ascii c = c /\ Ascii.eqb c "?" = false.
Proof.
  unfold token_char. intros Hc.
  apply Bool.andb_true_iff in Hc as [Hc Hq].
  apply Bool.andb_true_iff in Hc as [Hs Hu].
  apply Bool.negb_true_iff in Hs, Hq. apply Ascii.eqb_eq in Hu. auto.
Qed.

Lemma token_app a b : token (a ++ b) = token a && token b.
Proof.
  induction a as [|c r IH]; [reflexivity|].
  cbn [append token]. now rewrite IH, Bool.andb_assoc.
Qed.

Lemma token_upper t : token t = true -> upper t = t.
Proof.
  induction t as [|c r IH]; [reflexivity|]. cbn [token upper]. intros Ht.
  apply Bool.andb_true_iff in Ht as [Hc Hr].
  apply token_char_spec in Hc as (_ & -> & _). now rewrite IH.
Qed.

Lemma token_one_line t : token t = true -> one_line t = true.
Proof.
  induction t as [|c r IH]; [reflexivity|]. cbn [token one_line]. intros Ht.
  apply Bool.andb_true_iff in Ht as [Hc Hr]. rewrite (IH Hr), Bool.andb_true_r.
  apply token_char_spec in Hc as (Hs & _ & _).
  destruct c as [[] [] [] [] [] [] [] []]; try reflexivity; discriminate Hs.
Qed.

Lemma one_line_app a b : one_line (a ++ b) = one_line a && one_line b.
Proof.
  induction a as [|c r IH]; [reflexivity|].
  cbn [append one_line]. now rewrite IH, Bool.andb_assoc.
Qed.

Lemma token_split w t s :
  token t = true -> split_ws (Some w) (t ++ s) = split_ws (Some (w ++ t)) s.
Proof.
  revert w. induction t as [|c r IH]; intros w Ht.
  - cbn [append]. now rewrite append_nil_r.
  - cbn [token] in Ht. apply Bool.andb_true_iff in Ht as [Hc Hr].
    apply token_char_spec in Hc as (Hs & _ & _).
    cbn [append split_ws]. rewrite Hs, (IH _ Hr), append_assoc. reflexivity.
Qed.

Lemma token_endswith_q t : token t = true -> endswith_q t = false.
Proof.
  induction t as [|c r IH]; [reflexivity|]. cbn [token]. intros Ht.
  apply Bool.andb_true_iff in Ht as [Hc Hr].
  apply token_char_spec in Hc as (_ & _ & Hq).
  cbn [endswith_q]. destruct r; [exact Hq | now apply IH].
Qed.

Lemma endswith_q_mark t : endswith_q (t ++ "?") = true.
Proof.
  induction t as [|c r IH]; [reflexivity|].
  cbn [append endswith_q]. destruct (r ++ "?")%string eqn:E; [|exact IH].
  destruct r; discriminate E.
Qed.

Lemma token_rstrip_q t : token t = true -> rstrip_q (t ++ "?") = t.
Proof.
  induction t as [|c r IH]; [reflexivity|]. cbn [token]. intros Ht.
  apply Bool.andb_true_iff in Ht as [Hc Hr].
  apply token_char_spec in Hc as (_ & _ & Hq).
  cbn [append rstrip_q]. rewrite (IH Hr). destruct r; [now rewrite Hq | reflexivity].
Qed.

Lemma rstrip_app a b :
  rstrip b = b -> b <> EmptyString -> rstrip (a ++ b) = (a ++ b)%string.
Proof.
  intros Hb Hne. induction a as [|c r IH]; [exact Hb|].
  cbn [append rstrip]. rewrite IH.
  destruct (r ++ b)%string eqn:E; [|reflexivity].
  destruct r; [cbn [append] in E; contradiction | discriminate E].
Qed.

(** [str(n)] is a sign and digits. *)
Lemma uint_token d : token (NilEmpty.string_of_uint d) = true.
Proof. induction d; cbn [NilEmpty.string_of_uint token]; auto. Qed.

Lemma str_of_Z_token z : token (str_of_Z z) = true.
Proof.
  unfold str_of_Z, NilZero.string_of_int, NilZero.string_of_uint.
  destruct (Z.to_int z) as [d | d]; destruct d;
    cbn [token]; rewrite ?uint_token; reflexivity.
Qed.

Lemma str_of_Z_nonempty z : str_of_Z z <> EmptyString.
Proof.
  unfold str_of_Z, NilZero.string_of_int, NilZero.string_of_uint.
  destruct (Z.to_int z) as [d | d]; destruct d; discriminate.
Qed.

End Tokens.

(** ** Host and firmware together *)

Section HostAndFirmware.
Import Py Controller.
Context {H F : Type}.
Variable env : World.Env.
Variable drv : Driver H F.

(** [RELAY <t> <ON|OFF>] reaches [cmd_relay] as two words. *)
Lemma parse_relay_set (t v : string) (h : H) :
  token t = true -> t <> EmptyString -> v = "ON" \/ v = "OFF" ->
  parse_command drv ("RELAY " ++ t ++ " " ++ v) h
  = match dispatch drv "RELAY" [t; v] h with
    | (Ok out, h') => (out, h')
    | (Raise e, h') => (["ERR " ++ exn_name e ++ ": " ++ exn_str e], h')
    end.
Proof.
  intros Ht Hne Hv. unfold parse_command.
  assert (Es : strip ("RELAY " ++ t ++ " " ++ v) = ("RELAY " ++ t ++ " " ++ v)%string).
  { unfold strip. change (lstrip ("RELAY " ++ t ++ " " ++ v))
      with ("RELAY " ++ t ++ " " ++ v)%string.
    replace ("RELAY " ++ t ++ " " ++ v)%string
      with (("RELAY " ++ t ++ " ") ++ v)%string
      by (now rewrite !append_assoc).
    destruct Hv as [-> | ->]; apply rstrip_app; first [reflexivity | discriminate]. }
  rewrite Es. change (String.eqb ("RELAY " ++ t ++ " " ++ v) EmptyString) with false.
  change (startswith ("RELAY " ++ t ++ " " ++ v) "#") with false. cbn [orb].
  assert (Ew : words (upper ("RELAY " ++ t ++ " " ++ v)) = ["RELAY"; t; v]).
  { rewrite !upper_app, (token_upper t Ht).
    replace (upper v) with v by (destruct Hv as [-> | ->]; reflexivity).
    change (upper "RELAY ") with "RELAY "%string.
    change (upper " ") with " "%string.
    unfold words.
    change (split_ws None ("RELAY " ++ t ++ " " ++ v))
      with (split_ws (Some "R"%string) ("ELAY" ++ String " " (t ++ String " " v))).
    rewrite (token_split "R" "ELAY" _ eq_refl). cbn [append split_ws].
    change (is_space " ") with true. cbv iota.
    destruct t as [|c r]; [contradiction|].
    pose proof Ht as Ht'. cbn [token] in Ht'.
    apply Bool.andb_true_iff in Ht' as [Hc Hr].
    apply token_char_spec in Hc as (Hs & _ & _).
    cbn [append split_ws]. rewrite Hs.
    rewrite (token_split _ r _ Hr). cbn [split_ws append].
    change (is_space " ") with true. cbv iota.
    destruct Hv as [-> | ->]; reflexivity. }
  now rewrite Ew.
Qed.

(** [RELAY <t>?] reaches [cmd_relay] as one word. *)
Lemma parse_relay_query (t : string) (h : H) :
  token t = true -> t <> EmptyString ->
  parse_command drv ("RELAY " ++ t ++ "?") h
  = match dispatch drv "RELAY" [(t ++ "?")%string] h with
    | (Ok out, h') => (out, h')
    | (Raise e, h') => (["ERR " ++ exn_name e ++ ": " ++ exn_str e], h')
    end.
Proof.
  intros Ht Hne. unfold parse_command.
  assert (Es : strip ("RELAY " ++ t ++ "?") = ("RELAY " ++ t ++ "?")%string).
  { unfold strip. change (lstrip ("RELAY " ++ t ++ "?"))
      with ("RELAY " ++ t ++ "?")%string.
    replace ("RELAY " ++ t ++ "?")%string with (("RELAY " ++ t) ++ "?")%string
      by (now rewrite !append_assoc).
    apply rstrip_app; [reflexivity | discriminate]. }
  rewrite Es. change (String.eqb ("RELAY " ++ t ++ "?") EmptyString) with false.
  change (startswith ("RELAY " ++ t ++ "?") "#") with false. cbn [orb].
  assert (Ew : words (upper ("RELAY " ++ t ++ "?")) = ["RELAY"; (t ++ "?")%string]).
  { rewrite !upper_app, (token_upper t Ht).
    change (upper "RELAY ") with "RELAY "%string.
    change (upper "?") with "?"%string.
    unfold words.
    change (split_ws None ("RELAY " ++ t ++ "?"))
      with (split_ws (Some "R"%string) ("ELAY" ++ String " " (t ++ "?"))).
    rewrite (token_split "R" "ELAY" _ eq_refl). cbn [append split_ws].
    change (is_space " ") with true. cbv iota.
    destruct t as [|c r]; [contradiction|].
    pose proof Ht as Ht'. cbn [token] in Ht'.
    apply Bool.andb_true_iff in Ht' as [Hc Hr].
    apply token_char_spec in Hc as (Hs & _ & _).
    cbn [append split_ws]. rewrite Hs.
    rewrite (token_split _ r _ Hr). cbn [split_ws append].
    change (is_space "?") with false. cbv iota.
    reflexivity. }
  now rewrite Ew.
Qed.

(** The firmware's answer to [RELAY <n> <ON|OFF>] for a relay it has. *)
Lemma firmware_relay_set (n : Z) (st : bool) (h : H) :
  (1 <= n <= NUM_RELAYS drv)%Z ->
  mp_int drv (str_of_Z n) = Some n ->
  parse_command drv ("RELAY " ++ str_of_Z n ++ " " ++ (if st then "ON" else "OFF")) h
  = (["OK"], relay_set drv (relay_arg drv (n - 1)) st h).
Proof.
  intros Hn Hint.
  rewrite parse_relay_set;
    [| apply str_of_Z_token | apply str_of_Z_nonempty | destruct st; auto].
  unfold dispatch. cbn [String.eqb Ascii.eqb Bool.eqb].
  unfold cmd_relay. rewrite (token_endswith_q _ (str_of_Z_token n)).
  unfold bind, to_int. rewrite Hint. unfold ret, in_range.
  replace ((0 <=? n - 1)%Z && (n - 1 <? NUM_RELAYS drv)%Z) with true
    by (symmetry; apply Bool.andb_true_iff; split;
        [apply Z.leb_le | apply Z.ltb_lt]; lia).
  cbn [negb]. unfold modify. destruct st; reflexivity.
Qed.

(** The firmware's answer to [RELAY <n>?] for a relay it has. *)
Lemma firmware_relay_query (n : Z) (h : H) :
  (1 <= n <= NUM_RELAYS drv)%Z ->
  mp_int drv (str_of_Z n) = Some n ->
  parse_command drv ("RELAY " ++ str_of_Z n ++ "?") h
  = (["OK " ++ (if relay_get drv (relay_arg drv (n - 1)) h then "ON" else "OFF")], h).
Proof.
  intros Hn Hint.
  rewrite parse_relay_query; [| apply str_of_Z_token | apply str_of_Z_nonempty].
  unfold dispatch. cbn [String.eqb Ascii.eqb Bool.eqb].
  unfold cmd_relay. rewrite endswith_q_mark, (token_rstrip_q _ (str_of_Z_token n)).
  unfold bind, to_int. rewrite Hint. unfold ret, in_range.
  replace ((0 <=? n - 1)%Z && (n - 1 <? NUM_RELAYS drv)%Z) with true
    by (symmetry; apply Bool.andb_true_iff; split;
        [apply Z.leb_le | apply Z.ltb_lt]; lia).
  cbn [negb]. unfold get. reflexivity.
Qed.

(** [_send_command] on an open, drained port with the firmware at the
    other end: the lines read are the ones [parse_command] prints. *)
Lemma send_to_firmware (cmd : string) (h : H) (b : Link.Board) (ser : Link.Serial) :
  Link.serial b = Some ser -> Link.is_open ser = true -> Link.pending ser = [] ->
  one_line cmd = true -> cmd <> EmptyString ->
  Link._send_command (device env drv h) cmd b
  = (Link.decode_response
       (fst (Link.read_response (fst (parse_command drv cmd h)) [])),
     Link.set_serial
       (Some {| Link.is_open := true;
                Link.written := (Link.written ser ++ [(cmd ++ nl)%string])%list;
                Link.pending :=
                  snd (Link.read_response (fst (parse_command drv cmd h)) []) |})
       b).
Proof.
  intros Hser Hopen Hpend Hc Hne. unfold Link._send_command.
  rewrite Hser, Hopen, Hpend. cbn [negb device World.respond app].
  rewrite (proj1 (answer_eq drv cmd h Hc Hne)).
  now destruct (Link.read_response (fst (parse_command drv cmd h)) []).
Qed.

(** X28. Host and firmware agree on the protocol.  When the firmware
    prints one line for a command, [_send_command] on an open, drained
    port reads exactly that line and leaves nothing unread: for
    [ERR <msg>] it raises [CommandError(msg)], for [OK<v>] it returns [v]
    stripped. *)
Theorem host_reads_firmware_answer (cmd l : string) (h : H)
        (b : Link.Board) (ser : Link.Serial) :
  Link.serial b = Some ser -> Link.is_open ser = true -> Link.pending ser = [] ->
  one_line cmd = true -> cmd <> EmptyString ->
  fst (parse_command drv cmd h) = [l] -> strip l = l ->
  let r := Link._send_command (device env drv h) cmd b in
  (forall msg, l = ("ERR " ++ msg)%string -> fst r = Raise (CommandError msg))
  /\ (forall v, l = ("OK" ++ v)%string -> fst r = Ok (strip v))
  /\ Link.serial (snd r)
     = Some {| Link.is_open := true;
               Link.written := (Link.written ser ++ [(cmd ++ nl)%string])%list;
               Link.pending := [] |}.
Proof.
  intros Hser Hopen Hpend Hc Hne Hl Hs r. subst r.
  rewrite (send_to_firmware cmd h b ser Hser Hopen Hpend Hc Hne), Hl.
  cbn [fst snd Link.set_serial Link.serial Link.read_response]. rewrite Hs.
  split; [|split].
  - intros msg ->. reflexivity.
  - intros v ->. destruct v; reflexivity.
  - destruct (String.eqb l EmptyString); [reflexivity|].
    destruct (startswith l "#"); [reflexivity|].
    destruct (Link.is_terminator l); reflexivity.
Qed.

(** X29. A relay set through the host library is the relay the firmware
    switches, and reads back as it was set: for a relay the board has,
    [relay(n, st)] returns [st] and leaves the hardware with that relay
    set; [relay(n)] after it returns [st] and changes nothing.  The
    driver is taken to read this relay back as it was just set, and
    MicroPython's [int] to read the decimal text of [n] as [n]. *)
Theorem relay_set_then_query (n : Z) (st : bool) (h : H)
        (b : Link.Board) (ser : Link.Serial) :
  (1 <= n <= NUM_RELAYS drv)%Z ->
  mp_int drv (str_of_Z n) = Some n ->
  relay_get drv (relay_arg drv (n - 1))
    (relay_set drv (relay_arg drv (n - 1)) st h) = st ->
  Link.serial b = Some ser -> Link.is_open ser = true -> Link.pending ser = [] ->
  let set := Link.relay (device env drv h) n (JBool st) b in
  let h1 := after drv ("RELAY " ++ str_of_Z n ++ " " ++ (if st then "ON" else "OFF")) h in
  let ask := Link.relay (device env drv h1) n JNull (snd set) in
  fst set = Ok (JBool st)
  /\ h1 = relay_set drv (relay_arg drv (n - 1)) st h
  /\ fst ask = Ok (JBool st)
  /\ after drv ("RELAY " ++ str_of_Z n ++ "?") h1 = h1.
Proof.
  intros Hn Hint Hback Hser Hopen Hpend set h1 ask.
  assert (Hc1 : one_line ("RELAY " ++ str_of_Z n ++ " "
                            ++ (if st then "ON" else "OFF")) = true).
  { rewrite !one_line_app, (token_one_line _ (str_of_Z_token n)).
    destruct st; reflexivity. }
  assert (Hc2 : one_line ("RELAY " ++ str_of_Z n ++ "?") = true).
  { rewrite !one_line_app, (token_one_line _ (str_of_Z_token n)). reflexivity. }
  assert (Hh1 : h1 = relay_set drv (relay_arg drv (n - 1)) st h).
  { unfold h1. rewrite (proj2 (answer_eq drv _ h Hc1 ltac:(discriminate))).
    now rewrite firmware_relay_set. }
  assert (Hset : set = (Ok (JBool st),
                        Link.set_serial
                          (Some {| Link.is_open := true;
                                   Link.written :=
                                     (Link.written ser
                                        ++ [(("RELAY " ++ str_of_Z n ++ " "
                                                ++ (if st then "ON" else "OFF")) ++ nl)%string])%list;
                                   Link.pending := [] |}) b)).
  { unfold set, Link.relay, bind. cbn [truthy].
    rewrite (send_to_firmware _ h b ser Hser Hopen Hpend Hc1 ltac:(discriminate)).
    rewrite firmware_relay_set by assumption. reflexivity. }
  split; [now rewrite Hset|]. split; [exact Hh1|]. split.
  - unfold ask, Link.relay, bind. rewrite Hset. cbn [snd].
    erewrite send_to_firmware;
      [| reflexivity | reflexivity | reflexivity | exact Hc2 | discriminate].
    rewrite firmware_relay_query by assumption.
    rewrite Hh1, Hback. destruct st; reflexivity.
  - rewrite (proj2 (answer_eq drv _ h1 Hc2 ltac:(discriminate))).
    now rewrite firmware_relay_query.
Qed.

(** X30. The constructor of the host library connects to the firmware:
    when the port opens, [PING] gets [OK PONG] and [VERSION] gets
    [OK 1.0.0], so the object exists, holds the firmware's version and
    has nothing unread; the handshake leaves the hardware as it was. *)
Theorem host_connects_to_firmware (p : option string) (baud : Z) (p1 : string)
        (h : H) :
  chosen_port env p = Some p1 -> World.open_error env p1 = None ->
  Link.new_board (device env drv h) p baud
  = Ok {| Link.port := Some p1; Link.baudrate := baud;
          Link.serial :=
            Some {| Link.is_open := true;
                    Link.written := [("PING" ++ nl)%string; ("VERSION" ++ nl)%string];
                    Link.pending := [] |};
          Link._version := Some VERSION |}
  /\ after drv "PING" h = h /\ after drv "VERSION" h = h.
Proof.
  intros Hp Ho. split; [|split; reflexivity].
  rewrite (connect_pick (device env drv h) p baud p1 Hp).
  cbn [device World.open_error]. rewrite Ho. reflexivity.
Qed.

End HostAndFirmware.

Lemma host_reads_firmware_answer_witness :
  fst (Link._send_command (device Demo.env Demo.bench Demo.at_rest) "RELAY 7 ON"
         Demo.fresh_board)
  = Py.Raise (Py.CommandError "Relay index out of range (1-3)").
Proof.
  refine (proj1 (host_reads_firmware_answer Demo.env Demo.bench "RELAY 7 ON"
                   "ERR Relay index out of range (1-3)" Demo.at_rest
                   Demo.fresh_board Demo.open_port _ _ _ _ _ _ _) _ eq_refl);
    try reflexivity.
  discriminate.
Defined.

Lemma relay_set_then_query_witness :
  fst (Link.relay (device Demo.env Demo.bench Demo.at_rest) 2 (Py.JBool true)
         Demo.fresh_board) = Py.Ok (Py.JBool true)
  /\ after Demo.bench "RELAY 2 ON" Demo.at_rest = [false; true; false].
Proof.
  destruct (relay_set_then_query Demo.env Demo.bench 2 true Demo.at_rest
              Demo.fresh_board Demo.open_port ltac:(cbn; lia) eq_refl eq_refl
              eq_refl eq_refl eq_refl) as (E1 & E2 & _).
  split; [exact E1 | exact E2].
Defined.

Lemma host_connects_to_firmware_witness :
  exists b,
    Link.new_board (device Demo.env Demo.bench Demo.at_rest) None 115200 = Py.Ok b
    /\ Link._version b = Some "1.0.0"
    /\ Link.port b = Some "/dev/ttyACM0".
Proof.
  destruct (host_connects_to_firmware Demo.env Demo.bench None 115200
              "/dev/ttyACM0" Demo.at_rest eq_refl eq_refl) as (E & _).
  eexists. split; [exact E|]. split; reflexivity.
Defined.

(* ===================================================================== *)
(** ** Bad messages *)
(* ===================================================================== *)

Section BadMessages.
Import Py World Service.
Variable env : Env.




End BadMessages.

Section RefusedByFirmware.
Import Py Service Controller.
Context {H F : Type}.
Variable env : World.Env.
Variable drv : Driver H F.











End RefusedByFirmware.


